(** * FinPilot portfolio dashboard: aggregation, cache and refresh logic

    A shallow embedding of the client-side logic of the Binance portfolio
    page (BinancePortfolio component) and of the holdings table formatters,
    followed by the properties of the specification that were checked
    against it.

    Numbers.  A JavaScript [number] is modelled by the type [number] below:
    a finite value is an exact rational ([Qc], canonical fractions, so that
    Leibniz equality is numeric equality), next to the three special values
    [+Infinity], [-Infinity] and [NaN].  The operations of [JsNumber] are
    exact: a finite result is the exact result.  [Double] rounds them to
    IEEE 754 binary64, with overflow to the infinities and gradual
    underflow, and gives the aggregation as JavaScript computes it;
    properties that depend on the rounding are stated over [Double], the
    others over the exact operations.  The sign of zero is not modelled.
    The special values follow IEEE 754 as JavaScript exposes it.

    State.  The component's [useState] cells are a record that each
    function takes and returns; [localStorage] is a second record.  A
    function of the component reads the state of the render that created
    it: [fetchPortfolioData] therefore takes that render's state next to
    the current one.

    Runtime.  [Date] parsing and the locale's time text are parameters;
    [Intl.NumberFormat] is kept symbolic (its options and its argument). *)

From Stdlib Require Import Bool Arith List ZArith QArith Qcanon Lia.
From Stdlib Require Import Qround Qabs Qpower Lqa.
From Stdlib Require Import Ascii String.
From Stdlib Require Import Sorting.Sorted Sorting.Permutation.
Import ListNotations.

Close Scope Qc_scope.
Close Scope Q_scope.
Open Scope nat_scope.

(* ================================================================== *)
(** ** JavaScript numbers *)
(* ================================================================== *)

Module JsNumber.

Inductive number : Type :=
| Fin (q : Qc)
| PosInf
| NegInf
| NaN.

Definition zero : number := Fin 0%Qc.

Definition ofZ (z : Z) : number := Fin (Q2Qc (inject_Z z)).

(** Decimal literal [n / d], e.g. [ofFrac 3456789 100] for [34567.89]. *)
Definition ofFrac (n : Z) (d : positive) : number := Fin (Q2Qc (n # d)).

Definition Qc_ltb (a b : Qc) : bool :=
  match (a ?= b)%Qc with Lt => true | _ => false end.

(** [isFinite(x)] *)
Definition isFinite (x : number) : bool :=
  match x with Fin _ => true | _ => false end.

Definition isNaN (x : number) : bool :=
  match x with NaN => true | _ => false end.

(** ToBoolean on a number: [0] and [NaN] are falsy. *)
Definition truthy (x : number) : bool :=
  match x with
  | Fin q => negb (Qc_eq_bool q 0)
  | NaN => false
  | PosInf | NegInf => true
  end.

(** [a || b] on numbers. *)
Definition orElse (a b : number) : number := if truthy a then a else b.

(** [a < b]; every comparison with [NaN] is false. *)
Definition lt (a b : number) : bool :=
  match a, b with
  | NaN, _ | _, NaN => false
  | Fin x, Fin y => Qc_ltb x y
  | NegInf, NegInf => false
  | NegInf, _ => true
  | _, NegInf => false
  | PosInf, _ => false
  | Fin _, PosInf => true
  end.

(** [a > b] *)
Definition gt (a b : number) : bool := lt b a.

Definition neg (a : number) : number :=
  match a with
  | Fin x => Fin (- x)
  | PosInf => NegInf
  | NegInf => PosInf
  | NaN => NaN
  end.

Definition add (a b : number) : number :=
  match a, b with
  | NaN, _ | _, NaN => NaN
  | Fin x, Fin y => Fin (x + y)
  | PosInf, NegInf | NegInf, PosInf => NaN
  | PosInf, _ | _, PosInf => PosInf
  | NegInf, _ | _, NegInf => NegInf
  end.

Definition sub (a b : number) : number := add a (neg b).

(** An infinity of the sign of [q * (+Infinity)]; [0 * Infinity] is [NaN]. *)
Definition infOfSign (q : Qc) : number :=
  match (q ?= 0)%Qc with
  | Gt => PosInf
  | Lt => NegInf
  | Eq => NaN
  end.

Definition mul (a b : number) : number :=
  match a, b with
  | NaN, _ | _, NaN => NaN
  | Fin x, Fin y => Fin (x * y)
  | Fin x, PosInf | PosInf, Fin x => infOfSign x
  | Fin x, NegInf | NegInf, Fin x => neg (infOfSign x)
  | PosInf, PosInf | NegInf, NegInf => PosInf
  | PosInf, NegInf | NegInf, PosInf => NegInf
  end.

Definition div (a b : number) : number :=
  match a, b with
  | NaN, _ | _, NaN => NaN
  | Fin x, Fin y => if Qc_eq_bool y 0 then infOfSign x else Fin (x / y)
  | Fin _, (PosInf | NegInf) => zero
  | PosInf, Fin y => if Qc_ltb y 0 then NegInf else PosInf
  | NegInf, Fin y => if Qc_ltb y 0 then PosInf else NegInf
  | (PosInf | NegInf), (PosInf | NegInf) => NaN
  end.

(** [Number(v)] for a field that holds a number or is missing:
    [Number(undefined)] is [NaN]. *)
Definition toNumber (v : option number) : number :=
  match v with Some n => n | None => NaN end.

Definition sum (l : list number) : number := fold_right add zero l.

(** Decidable numeric equality, for evaluating examples. *)
Definition eqb (a b : number) : bool :=
  match a, b with
  | Fin x, Fin y => Qc_eq_bool x y
  | PosInf, PosInf | NegInf, NegInf | NaN, NaN => true
  | _, _ => false
  end.

End JsNumber.

Import JsNumber.

Declare Scope js_scope.
Delimit Scope js_scope with js.
Bind Scope js_scope with number.
Infix "+" := add : js_scope.
Infix "-" := sub : js_scope.
Infix "*" := mul : js_scope.
Infix "/" := div : js_scope.

(* ================================================================== *)
(** ** Strings: [split('_')[0]] and [replace('USDT', '')] *)
(* ================================================================== *)

Module Keys.

Open Scope string_scope.

(** [s.split(sep)] for a one-character separator: the list is never empty. *)
Fixpoint split (sep : ascii) (s : string) : list string :=
  match s with
  | EmptyString => [EmptyString]
  | String c r =>
      if Ascii.eqb c sep then EmptyString :: split sep r
      else match split sep r with
           | [] => [String c EmptyString]
           | w :: ws => String c w :: ws
           end
  end.

Fixpoint dropStr (n : nat) (s : string) : string :=
  match n, s with
  | O, _ => s
  | S _, EmptyString => EmptyString
  | S m, String _ r => dropStr m r
  end.

Fixpoint takeStr (n : nat) (s : string) : string :=
  match n, s with
  | O, _ => EmptyString
  | S _, EmptyString => EmptyString
  | S m, String c r => String c (takeStr m r)
  end.

(** [s.replace(pat, rep)] with a string pattern: only the first (leftmost)
    occurrence of [pat] is replaced. *)
Fixpoint replaceFirst (pat rep s : string) : string :=
  if prefix pat s then rep ++ dropStr (String.length pat) s
  else match s with
       | EmptyString => EmptyString
       | String c r => String c (replaceFirst pat rep r)
       end.

(** [key.split('_')[0]] (spot and margin records). *)
Definition symbolOfKey (key : string) : string :=
  nth 0 (split "_" key) EmptyString.

(** [key.split('_')[0].replace('USDT', '')] (futures records). *)
Definition futuresSymbolOfKey (key : string) : string :=
  replaceFirst "USDT" "" (symbolOfKey key).

(** [pat] occurs in [s] at offset [n]. *)
Definition occursAt (pat s : string) (n : nat) : Prop :=
  n <= String.length s /\ prefix pat (dropStr n s) = true.

(** Stripping a trailing suffix, as the specification words the futures
    rule: [s] without its suffix [suf] when it ends with it, [s] itself
    otherwise. *)
Fixpoint stripSuffix (suf s : string) : string :=
  if String.eqb s suf then EmptyString
  else match s with
       | EmptyString => EmptyString
       | String c r => String c (stripSuffix suf r)
       end.

End Keys.

(* ================================================================== *)
(** ** Data model (the TypeScript interfaces of the portfolio page) *)
(* ================================================================== *)

(** An optional field ([x?: number]) is an [option]; [None] is
    [undefined]. *)

Module Holding.
Record t : Type := mk {
  symbol : string;
  amount : number;
  price_usd : number;
  total_usd : number;
  change_24h : option number;
  avg_buy_price : option number;
  pnl : option number;
  pnl_percentage : option number;
  first_buy_time : option number;
  last_buy_time : option number
}.
End Holding.

Module AssetAllocation.
Record t : Type := mk {
  asset : string;
  value : number;
  percentage : number
}.
End AssetAllocation.

Module PortfolioData.
Record t : Type := mk {
  total_value : number;
  change_24h : number;
  holdings_count : nat;
  spot_value : number;
  margin_value : number;
  futures_value : number;
  asset_allocation : option (list AssetAllocation.t);
  sector_allocation : option (list AssetAllocation.t);
  last_updated : string
}.
End PortfolioData.

(** Raw records of the API.  The code coerces their numeric fields with
    [Number(...)], so each is a number or missing; the fields the page
    never reads ([free], [locked], [type], [borrowed], [leverage]) are
    left out. *)

Module SpotHoldingData.
Record t : Type := mk {
  total : option number;
  total_usd : option number;
  price_usd : option number;
  change_24h : option number;
  avg_buy_price : option number;
  pnl : option number;
  pnl_percentage : option number;
  first_buy_time : option number;
  last_buy_time : option number
}.
End SpotHoldingData.

Module MarginHoldingData.
Record t : Type := mk {
  net_asset : option number;
  net_asset_usd : option number;
  price_usd : option number;
  change_24h : option number;
  avg_buy_price : option number;
  pnl : option number;
  pnl_percentage : option number;
  first_buy_time : option number;
  last_buy_time : option number
}.
End MarginHoldingData.

Module FuturesHoldingData.
Record t : Type := mk {
  amount : option number;
  entry_price : option number;
  current_price : option number;
  unrealized_pnl : option number;
  unrealized_pnl_usd : option number;
  usd_value : option number;
  change_24h : option number
}.
End FuturesHoldingData.

(** [Object.entries(o)] of a raw holdings object: the keys with their
    values in enumeration order; a value that is not an object ([null], a
    number, ...) is [None]. *)
Definition entries (A : Type) : Type := list (string * option A).

Module PortfolioApiData.
Record t : Type := mk {
  spot_holdings : option (entries SpotHoldingData.t);
  margin_holdings : option (entries MarginHoldingData.t);
  futures_holdings : option (entries FuturesHoldingData.t);
  change_24h : option number
}.
End PortfolioApiData.

(* ================================================================== *)
(** ** Aggregator: [calculateValues] and [validatedData] *)
(* ================================================================== *)

Module Aggregator.

Open Scope string_scope.

(** *** The values computed for one raw record, before the guard *)

Definition spotHolding (key : string) (r : SpotHoldingData.t) : Holding.t :=
  let symbol := Keys.symbolOfKey key in
  let amount := orElse (toNumber (SpotHoldingData.total r)) zero in
  let price_usd := orElse (toNumber (SpotHoldingData.price_usd r)) zero in
  let total_usd :=
    orElse (toNumber (SpotHoldingData.total_usd r)) (amount * price_usd)%js in
  let change_24h := SpotHoldingData.change_24h r in
  Holding.mk symbol amount price_usd total_usd change_24h
    (SpotHoldingData.avg_buy_price r) (SpotHoldingData.pnl r)
    (SpotHoldingData.pnl_percentage r)
    (SpotHoldingData.first_buy_time r) (SpotHoldingData.last_buy_time r).

Definition marginHolding (key : string) (r : MarginHoldingData.t) : Holding.t :=
  let symbol := Keys.symbolOfKey key in
  let amount := orElse (toNumber (MarginHoldingData.net_asset r)) zero in
  let price_usd := orElse (toNumber (MarginHoldingData.price_usd r)) zero in
  let total_usd :=
    orElse (toNumber (MarginHoldingData.net_asset_usd r)) (amount * price_usd)%js in
  let change_24h := MarginHoldingData.change_24h r in
  Holding.mk symbol amount price_usd total_usd change_24h
    (MarginHoldingData.avg_buy_price r) (MarginHoldingData.pnl r)
    (MarginHoldingData.pnl_percentage r)
    (MarginHoldingData.first_buy_time r) (MarginHoldingData.last_buy_time r).

Definition futuresHolding (key : string) (r : FuturesHoldingData.t) : Holding.t :=
  let symbol := Keys.futuresSymbolOfKey key in
  let amount := orElse (toNumber (FuturesHoldingData.amount r)) zero in
  let price_usd := orElse (toNumber (FuturesHoldingData.current_price r)) zero in
  let total_usd :=
    orElse (toNumber (FuturesHoldingData.usd_value r)) (amount * price_usd)%js in
  let change_24h := FuturesHoldingData.change_24h r in
  Holding.mk symbol amount price_usd total_usd change_24h
    (FuturesHoldingData.entry_price r) (FuturesHoldingData.unrealized_pnl r)
    (Some (toNumber (FuturesHoldingData.unrealized_pnl_usd r) / total_usd
           * ofZ 100)%js)
    None None.

(** The inclusion guard:
    [amount > 0 && isFinite(amount) && isFinite(price_usd) && total_usd > 0]. *)
Definition included (h : Holding.t) : bool :=
  gt (Holding.amount h) zero && isFinite (Holding.amount h)
  && isFinite (Holding.price_usd h) && gt (Holding.total_usd h) zero.

(** [change_24h !== undefined && isFinite(change_24h)] *)
Definition finiteChange (h : Holding.t) : option number :=
  match Holding.change_24h h with
  | Some c => if isFinite c then Some c else None
  | None => None
  end.

(** *** [Set<string>] and [Map<string, number>], in insertion order *)

Definition setAdd (s : string) (u : list string) : list string :=
  if existsb (String.eqb s) u then u else u ++ [s].

Fixpoint mapGet (k : string) (m : list (string * number)) : option number :=
  match m with
  | [] => None
  | (k', v) :: r => if String.eqb k k' then Some v else mapGet k r
  end.

Fixpoint mapSet (k : string) (v : number) (m : list (string * number))
  : list (string * number) :=
  match m with
  | [] => [(k, v)]
  | (k', v') :: r =>
      if String.eqb k k' then (k', v) :: r else (k', v') :: mapSet k v r
  end.

(** [m.get(k) || 0] *)
Definition getOrZero (k : string) (m : list (string * number)) : number :=
  match mapGet k m with
  | Some v => orElse v zero
  | None => zero
  end.

(** [m.set(k, (m.get(k) || 0) + v)] *)
Definition bump (k : string) (v : number) (m : list (string * number))
  : list (string * number) :=
  mapSet k (getOrZero k m + v)%js m.

(** *** The accumulators of [calculateValues] *)

(** Shared by the three segments. *)
Record Shared : Type := mkShared {
  uniqueAssets : list string;
  assetValues : list (string * number);
  totalWeightedChange : number;
  totalValueWithChange : number
}.

(** Of one segment: its running total and its processed holdings. *)
Record Segment : Type := mkSegment {
  segmentValue : number;
  processed : list Holding.t
}.

Definition shared0 : Shared := mkShared [] [] zero zero.
Definition segment0 : Segment := mkSegment zero [].

(** The body of the [if (amount > 0 && ...)] block, identical in the three
    loops. *)
Definition accept (h : Holding.t) (st : Shared * Segment) : Shared * Segment :=
  let (sh, sg) := st in
  let total_usd := Holding.total_usd h in
  let symbol := Holding.symbol h in
  let '(w, v) :=
    match finiteChange h with
    | Some c => ((totalWeightedChange sh + c * total_usd)%js,
                 (totalValueWithChange sh + total_usd)%js)
    | None => (totalWeightedChange sh, totalValueWithChange sh)
    end in
  (mkShared (setAdd symbol (uniqueAssets sh))
            (bump symbol total_usd (assetValues sh)) w v,
   mkSegment (segmentValue sg + total_usd)%js (processed sg ++ [h])).

Definition step (h : Holding.t) (st : Shared * Segment) : Shared * Segment :=
  if included h then accept h st else st.

(** One [Object.entries(...).forEach] loop; [mk] builds the values of a
    record of the segment.  A value that is not an object is skipped. *)
Definition processEntries {A : Type} (mk : string -> A -> Holding.t)
  (es : entries A) (st : Shared * Segment) : Shared * Segment :=
  fold_left
    (fun st e =>
       match snd e with
       | Some r => step (mk (fst e) r) st
       | None => st
       end)
    es st.

(** [if (data.x_holdings && typeof data.x_holdings === 'object') { ... }];
    the second component is [Object.keys(...).length] (0 when skipped). *)
Definition processSegment {A : Type} (mk : string -> A -> Holding.t)
  (field : option (entries A)) (sh : Shared) : Shared * Segment * nat :=
  match field with
  | Some es => (processEntries mk es (sh, segment0), List.length es)
  | None => (sh, segment0, 0)
  end.

(** *** Allocations *)

(** [sectorMap] of [mapAssetToSector]: the own properties of the object
    literal.  The lookup [sectorMap[asset]] also finds the members the
    object inherits from [Object.prototype] (for [asset = "constructor"]
    the result is a function, not a sector name); the properties about
    sectors exclude these symbols, see [Vocabulary.inheritedNames]. *)
Definition sectorMap : list (string * string) :=
  [ ("BTC", "Store of Value"); ("ETH", "Smart Contract Platform");
    ("BNB", "Exchange Token"); ("SOL", "Smart Contract Platform");
    ("ADA", "Smart Contract Platform"); ("DOT", "Interoperability");
    ("AVAX", "Smart Contract Platform"); ("LINK", "Oracle");
    ("UNI", "DeFi"); ("AAVE", "DeFi"); ("COMP", "DeFi"); ("MKR", "DeFi");
    ("SUSHI", "DeFi"); ("CAKE", "DeFi"); ("MATIC", "Layer 2");
    ("LTC", "Payments"); ("XLM", "Payments"); ("XRP", "Payments");
    ("DOGE", "Meme"); ("SHIB", "Meme"); ("FTT", "Exchange Token");
    ("CRO", "Exchange Token"); ("FTM", "Smart Contract Platform");
    ("ATOM", "Interoperability"); ("ALGO", "Smart Contract Platform");
    ("NEAR", "Smart Contract Platform"); ("ICP", "Internet Services");
    ("FIL", "Storage"); ("XTZ", "Smart Contract Platform");
    ("AXS", "Gaming"); ("MANA", "Metaverse"); ("SAND", "Metaverse");
    ("ENJ", "Gaming"); ("THETA", "Media"); ("CHZ", "Sports");
    ("BAT", "Advertising"); ("XMR", "Privacy"); ("ZEC", "Privacy");
    ("DASH", "Privacy") ].

Fixpoint lookup (k : string) (m : list (string * string)) : option string :=
  match m with
  | [] => None
  | (k', v) :: r => if String.eqb k k' then Some v else lookup k r
  end.

(** [sectorMap[asset] || 'Other'] *)
Definition mapAssetToSector (asset : string) : string :=
  match lookup asset sectorMap with
  | Some s => s
  | None => "Other"
  end.

(** The [forEach] that turns a value map into allocation entries:
    [if (value > 0) push({asset, value, percentage: value / total * 100})]. *)
Definition allocationOf (total : number) (m : list (string * number))
  : list AssetAllocation.t :=
  flat_map
    (fun kv =>
       if gt (snd kv) zero
       then [AssetAllocation.mk (fst kv) (snd kv) (snd kv / total * ofZ 100)%js]
       else [])
    m.

(** The comparator [(a, b) => b.value - a.value]. *)
Definition byValueDesc (a b : AssetAllocation.t) : number :=
  (AssetAllocation.value b - AssetAllocation.value a)%js.

(** [Array.prototype.sort(cmp)]: a stable sort; [x] is placed after [y]
    only when [cmp(x, y) > 0] (a [NaN] result counts as [0]). *)
Fixpoint insertSorted {A : Type} (cmp : A -> A -> number) (x : A) (l : list A)
  : list A :=
  match l with
  | [] => [x]
  | y :: r => if gt (cmp x y) zero then y :: insertSorted cmp x r
              else x :: y :: r
  end.

Definition sort {A : Type} (cmp : A -> A -> number) (l : list A) : list A :=
  fold_right (insertSorted cmp) [] l.

(** The [assetValues.forEach] that fills [sectorValues]. *)
Definition sectorValuesOf (m : list (string * number)) : list (string * number) :=
  fold_left
    (fun sv kv =>
       if gt (snd kv) zero then bump (mapAssetToSector (fst kv)) (snd kv) sv
       else sv)
    m [].

(** *** [calculateValues] *)

Record Calculated : Type := mkCalculated {
  totalValue : number;
  spotValue : number;
  marginValue : number;
  futuresValue : number;
  uniqueAssetCount : nat;
  assetAllocation : list AssetAllocation.t;
  sectorAllocation : list AssetAllocation.t;
  spotCoinsCount : nat;
  marginCoinsCount : nat;
  futuresCoinsCount : nat;
  averageChange : number;
  (** the arguments of [setSpotHoldings], [setMarginHoldings] and
      [setFuturesHoldings] *)
  processedSpotHoldings : list Holding.t;
  processedMarginHoldings : list Holding.t;
  processedFuturesHoldings : list Holding.t
}.

Definition calculateValues (data : PortfolioApiData.t) : Calculated :=
  let '(sh1, spot, nSpot) :=
    processSegment spotHolding (PortfolioApiData.spot_holdings data) shared0 in
  let '(sh2, margin, nMargin) :=
    processSegment marginHolding (PortfolioApiData.margin_holdings data) sh1 in
  let '(sh3, futures, nFutures) :=
    processSegment futuresHolding (PortfolioApiData.futures_holdings data) sh2 in
  let averageChange :=
    if gt (totalValueWithChange sh3) zero
    then (totalWeightedChange sh3 / totalValueWithChange sh3)%js
    else zero in
  let calculatedTotalValue :=
    (segmentValue spot + segmentValue margin + segmentValue futures)%js in
  let generatedAssetAllocation :=
    if gt calculatedTotalValue zero
    then allocationOf calculatedTotalValue (assetValues sh3) else [] in
  let sectorValues :=
    if gt calculatedTotalValue zero
    then sectorValuesOf (assetValues sh3) else [] in
  let generatedSectorAllocation :=
    if gt calculatedTotalValue zero
    then allocationOf calculatedTotalValue sectorValues else [] in
  mkCalculated calculatedTotalValue
    (segmentValue spot) (segmentValue margin) (segmentValue futures)
    (List.length (uniqueAssets sh3))
    (sort byValueDesc generatedAssetAllocation)
    (sort byValueDesc generatedSectorAllocation)
    nSpot nMargin nFutures averageChange
    (processed spot) (processed margin) (processed futures).

(** [x > 0 ? x : 0] *)
Definition positiveOrZero (x : number) : number := if gt x zero then x else zero.

(** [Object.keys(o || {}).length] *)
Definition keyCount {A : Type} (field : option (entries A)) : nat :=
  match field with Some es => List.length es | None => 0 end.

(** The object literal [validatedData]; [now] is
    [new Date().toLocaleTimeString()]. *)
Definition validatedData (data : PortfolioApiData.t) (cv : Calculated)
  (now : string) : PortfolioData.t :=
  PortfolioData.mk
    (positiveOrZero (totalValue cv))
    (if isFinite (averageChange cv) then averageChange cv
     else if isFinite (toNumber (PortfolioApiData.change_24h data))
          then toNumber (PortfolioApiData.change_24h data) else zero)
    (if (0 <? uniqueAssetCount cv)%nat then uniqueAssetCount cv
     else (keyCount (PortfolioApiData.spot_holdings data)
           + keyCount (PortfolioApiData.margin_holdings data)
           + keyCount (PortfolioApiData.futures_holdings data))%nat)
    (positiveOrZero (spotValue cv))
    (positiveOrZero (marginValue cv))
    (positiveOrZero (futuresValue cv))
    (Some (assetAllocation cv))
    (Some (sectorAllocation cv))
    now.

(** The snapshot of one successful fetch. *)
Definition aggregate (data : PortfolioApiData.t) (now : string) : PortfolioData.t :=
  validatedData data (calculateValues data) now.

End Aggregator.

(* ================================================================== *)
(** ** The runtime: [Date] *)
(* ================================================================== *)

(** What the page uses of the JavaScript runtime's [Date].  A time value
    is an integer number of milliseconds, or invalid ([None], the [NaN]
    time value).  [dateParse s] is the time value of [new Date(s)] for a
    string [s], [timeString t] is [toLocaleTimeString()] of a valid date;
    both depend on the engine and the locale and are parameters. *)
Module Runtime.
Record t : Type := mk {
  dateParse : string -> option Z;
  timeString : Z -> string
}.

(** [d.toLocaleTimeString()]: an invalid date prints as ["Invalid Date"]. *)
Definition toLocaleTimeString (rt : t) (d : option Z) : string :=
  match d with
  | Some tv => timeString rt tv
  | None => "Invalid Date"%string
  end.
End Runtime.

(* ================================================================== *)
(** ** Component state and [localStorage] *)
(* ================================================================== *)

Module Store.

(** What the page sees of the text stored under a key.  The page tests
    a text with [if (str)] before it parses it, so it cannot tell a
    missing key from the empty text: both are [None].  A text that is not
    empty is [Some]: the JSON text of a value, or a text [JSON.parse]
    rejects.  The JSON text of a value is modelled by the value:
    [JSON.parse(JSON.stringify(v))] is [v] again for the records stored
    here when their numbers are finite, and a missing optional field stays
    missing. *)
Inductive Item (A : Type) : Type :=
| Json (a : A)
| Malformed.
Arguments Json {A} a.
Arguments Malformed {A}.

(** The item of a stored text: [text] is the result of [getItem] ([None]
    for [null]) and [parse] is [JSON.parse] ([None] when it throws). *)
Definition slot {A : Type} (parse : string -> option A)
  (text : option string) : option (Item A) :=
  match text with
  | None | Some EmptyString => None
  | Some s =>
      match parse s with
      | Some a => Some (Json a)
      | None => Some Malformed
      end
  end.

(** [localStorage]: the four keys of the page, and whether the storage
    can be accessed at all (when it cannot, [getItem] and [setItem]
    throw). *)
Record Storage : Type := mkStorage {
  available : bool;
  binance_portfolio_data : option (Item PortfolioData.t);
  binance_spot_holdings : option (Item (list Holding.t));
  binance_margin_holdings : option (Item (list Holding.t));
  binance_futures_holdings : option (Item (list Holding.t))
}.

Definition emptyStorage : Storage := mkStorage true None None None None.

(** The [useState] cells of the component that the refresh logic reads or
    writes. *)
Record State : Type := mkState {
  portfolioData : PortfolioData.t;
  spotHoldings : list Holding.t;
  marginHoldings : list Holding.t;
  futuresHoldings : list Holding.t;
  isLoading : bool;
  isRefreshing : bool;
  error : option string
}.

Record World : Type := mkWorld {
  state : State;
  storage : Storage
}.

Definition setPortfolioData (d : PortfolioData.t) (s : State) : State :=
  mkState d (spotHoldings s) (marginHoldings s) (futuresHoldings s)
    (isLoading s) (isRefreshing s) (error s).
Definition setSpotHoldings (l : list Holding.t) (s : State) : State :=
  mkState (portfolioData s) l (marginHoldings s) (futuresHoldings s)
    (isLoading s) (isRefreshing s) (error s).
Definition setMarginHoldings (l : list Holding.t) (s : State) : State :=
  mkState (portfolioData s) (spotHoldings s) l (futuresHoldings s)
    (isLoading s) (isRefreshing s) (error s).
Definition setFuturesHoldings (l : list Holding.t) (s : State) : State :=
  mkState (portfolioData s) (spotHoldings s) (marginHoldings s) l
    (isLoading s) (isRefreshing s) (error s).
Definition setIsLoading (b : bool) (s : State) : State :=
  mkState (portfolioData s) (spotHoldings s) (marginHoldings s)
    (futuresHoldings s) b (isRefreshing s) (error s).
Definition setIsRefreshing (b : bool) (s : State) : State :=
  mkState (portfolioData s) (spotHoldings s) (marginHoldings s)
    (futuresHoldings s) (isLoading s) b (error s).
Definition setError (e : option string) (s : State) : State :=
  mkState (portfolioData s) (spotHoldings s) (marginHoldings s)
    (futuresHoldings s) (isLoading s) (isRefreshing s) e.

(** The initial [useState] values; [now] is the time text of the first
    render. *)
Definition initialState (now : string) : State :=
  mkState (PortfolioData.mk zero zero 0 zero zero zero None None now)
    [] [] [] false false None.

End Store.

Module CacheStore.

Import Store.

Definition cachedMarker : string := " (cached)"%string.

(** The snapshot as [loadCachedData] hands it to [setPortfolioData]:
    [last_updated] becomes
    [`${new Date(last_updated).toLocaleTimeString()} (cached)`]. *)
Definition markCached (rt : Runtime.t) (d : PortfolioData.t) : PortfolioData.t :=
  PortfolioData.mk
    (PortfolioData.total_value d) (PortfolioData.change_24h d)
    (PortfolioData.holdings_count d) (PortfolioData.spot_value d)
    (PortfolioData.margin_value d) (PortfolioData.futures_value d)
    (PortfolioData.asset_allocation d) (PortfolioData.sector_allocation d)
    (Runtime.toLocaleTimeString rt
       (Runtime.dateParse rt (PortfolioData.last_updated d)) ++ cachedMarker)%string.

(** [if (str) set(JSON.parse(str))]; [None] when [JSON.parse] throws.  A
    missing key and the empty text are skipped. *)
Definition loadItem {A : Type} (item : option (Item A))
  (set : A -> State -> State) (s : State) : option State :=
  match item with
  | None => Some s
  | Some (Json a) => Some (set a s)
  | Some Malformed => None
  end.

(** [!!str]: the key holds a text that is not empty. *)
Definition present {A : Type} (item : option (Item A)) : bool :=
  match item with Some _ => true | None => false end.

(** [loadCachedData]: the new component state and the returned flag.  An
    exception leaves the updates made before it and returns [false]; the
    storage is only read. *)
Definition loadCachedData (rt : Runtime.t) (sto : Storage) (s : State)
  : State * bool :=
  if negb (available sto) then (s, false) else
  match loadItem (binance_portfolio_data sto)
          (fun d => setPortfolioData (markCached rt d)) s with
  | None => (s, false)
  | Some s1 =>
    match loadItem (binance_spot_holdings sto) setSpotHoldings s1 with
    | None => (s1, false)
    | Some s2 =>
      match loadItem (binance_margin_holdings sto) setMarginHoldings s2 with
      | None => (s2, false)
      | Some s3 =>
        match loadItem (binance_futures_holdings sto) setFuturesHoldings s3 with
        | None => (s3, false)
        | Some s4 =>
            (s4, present (binance_portfolio_data sto)
                 || present (binance_spot_holdings sto)
                 || present (binance_margin_holdings sto)
                 || present (binance_futures_holdings sto))
        end
      end
    end
  end.

(** [saveDataToCache]: four [setItem] calls in one [try].  The storage
    either accepts all four or rejects the first; a storage that fails
    between the calls, as on an exceeded quota, is not modelled, and
    nothing below is stated about it. *)
Definition saveDataToCache (data : PortfolioData.t)
  (spot margin futures : list Holding.t) (sto : Storage) : Storage :=
  if available sto
  then mkStorage true (Some (Json data)) (Some (Json spot))
         (Some (Json margin)) (Some (Json futures))
  else sto.

End CacheStore.

(* ================================================================== *)
(** ** Refresh controller: [fetchPortfolioData] and the mount effect *)
(* ================================================================== *)

Module Controller.

Import Store.
Open Scope string_scope.

(** How [await ApiService.getBinanceHoldings()] ends. *)
Inductive Response : Type :=
| Success (data : PortfolioApiData.t)
    (** [status === 'success'] *)
| ErrorStatus (message : option string)
    (** any other status, with [response.data.message] *)
| Thrown (message : option string)
    (** the call threw; [Some m] when the exception is an [Error] *).

Definition nonEmpty (s : string) : bool :=
  match s with EmptyString => false | _ => true end.

(** The text given to [setError] in the [catch] block. *)
Definition errorMessage (r : Response) : string :=
  match r with
  | Success _ => ""
  | ErrorStatus (Some m) =>
      if nonEmpty m then m else "Failed to fetch portfolio data"
  | ErrorStatus None => "Failed to fetch portfolio data"
  | Thrown (Some m) => m
  | Thrown None => "Unknown error occurred"
  end.

Definition sample (symbol : string) (amount price_usd total_usd change : number)
  : Holding.t :=
  Holding.mk symbol amount price_usd total_usd (Some change)
    None None None None None.

(** The hardcoded fallback of the [catch] block. *)
Definition fallbackData (now : string) : PortfolioData.t :=
  PortfolioData.mk (ofFrac 3456789 100) (ofFrac 25 10) 12
    (ofFrac 1893245 100) (ofFrac 825432 100) (ofFrac 738112 100)
    None None now.

Definition fallbackSpot : list Holding.t :=
  [ sample "BTC" (ofFrac 45 100) (ofZ 42500) (ofZ 19125) (ofFrac 23 10);
    sample "ETH" (ofFrac 325 100) (ofZ 2800) (ofZ 9100) (ofFrac 18 10);
    sample "SOL" (ofFrac 428 10) (ofZ 135) (ofZ 5778) (ofFrac (-7) 10) ].

Definition fallbackMargin : list Holding.t :=
  [ sample "BTC" (ofFrac 12 100) (ofZ 42500) (ofZ 5100) (ofFrac 23 10);
    sample "ETH" (ofFrac 115 100) (ofZ 2800) (ofZ 3220) (ofFrac 18 10) ].

Definition fallbackFutures : list Holding.t :=
  [ sample "BTC" (ofFrac 8 100) (ofZ 42500) (ofZ 3400) (ofFrac 23 10);
    sample "ETH" (ofFrac 142 100) (ofZ 2800) (ofZ 3976) (ofFrac 18 10) ].

(** The part of [fetchPortfolioData] before the [await]. *)
Definition fetchStart (isBackgroundRefresh : bool) (s : State) : State :=
  setError None
    (if isBackgroundRefresh then setIsRefreshing true s else setIsLoading true s).

(** The [finally] block. *)
Definition fetchFinally (isBackgroundRefresh : bool) (s : State) : State :=
  if isBackgroundRefresh then setIsRefreshing false s else setIsLoading false s.

(** The part of [fetchPortfolioData] after the [await].

    [render] is the state of the render that created this
    [fetchPortfolioData]: the identifiers [portfolioData], [spotHoldings],
    [marginHoldings] and [futuresHoldings] in its body are the constants of
    that render, which the [set...] calls do not change.  [w] is the
    component state and the storage when the response arrives; [now] is
    [new Date().toLocaleTimeString()]. *)
Definition fetchSettle (now : string) (render : State)
  (isBackgroundRefresh : bool) (r : Response) (w : World) : World :=
  match r with
  | Success data =>
      let cv := Aggregator.calculateValues data in
      let s1 :=
        setFuturesHoldings (Aggregator.processedFuturesHoldings cv)
          (setMarginHoldings (Aggregator.processedMarginHoldings cv)
             (setSpotHoldings (Aggregator.processedSpotHoldings cv) (state w))) in
      let validated := Aggregator.validatedData data cv now in
      let s2 := setPortfolioData validated s1 in
      let sto :=
        CacheStore.saveDataToCache validated
          (spotHoldings render) (marginHoldings render) (futuresHoldings render)
          (storage w) in
      mkWorld (fetchFinally isBackgroundRefresh s2) sto
  | _ =>
      let s1 :=
        if isBackgroundRefresh then state w
        else
          let s := setError (Some (errorMessage r)) (state w) in
          if eqb (PortfolioData.total_value (portfolioData render)) zero
          then
            setFuturesHoldings fallbackFutures
              (setMarginHoldings fallbackMargin
                 (setSpotHoldings fallbackSpot
                    (setPortfolioData (fallbackData now) s)))
          else s in
      mkWorld (fetchFinally isBackgroundRefresh s1) (storage w)
  end.

(** One whole call, when nothing else happens between its two parts. *)
Definition fetchPortfolioData (now : string) (render : State)
  (isBackgroundRefresh : bool) (r : Response) (w : World) : World :=
  fetchSettle now render isBackgroundRefresh r
    (mkWorld (fetchStart isBackgroundRefresh (state w)) (storage w)).

(** The mount effect up to the end of its first fetch: [loadCachedData()],
    then [fetchPortfolioData(hasCachedData)].  The effect runs once, so
    the [fetchPortfolioData] it calls (and the one its timer calls) is
    that of the first render. *)
Definition mount (rt : Runtime.t) (now : string) (r : Response) (w : World)
  : World :=
  let render := state w in
  let (s1, hasCachedData) := CacheStore.loadCachedData rt (storage w) render in
  fetchPortfolioData now render hasCachedData r (mkWorld s1 (storage w)).

End Controller.

(* ================================================================== *)
(** ** Formatters *)
(* ================================================================== *)

Module Formatter.

Open Scope string_scope.

Inductive Style : Type := Decimal | Currency (code : string) | Percent.

(** The options given to [Intl.NumberFormat('en-US', ...)]. *)
Record NumberFormatOptions : Type := mkOptions {
  style : Style;
  minimumFractionDigits : nat;
  maximumFractionDigits : nat;
  signDisplayAlways : bool
}.

(** What a formatter returns: a literal text, the text
    [new Intl.NumberFormat('en-US', opts).format(v)], the text
    [toLocaleDateString] gives for a valid date (year, short month, day),
    or its text for an invalid date. *)
Inductive Display : Type :=
| Text (s : string)
| NumberFormat (opts : NumberFormatOptions) (v : number)
| LocaleDate (timeValue : Z).

Definition invalidDate : Display := Text "Invalid Date".

(** [new Date(t)] for a number: TimeClip of ECMAScript; [None] is the
    invalid date. *)
Definition newDate (t : number) : option Z :=
  match t with
  | Fin q =>
      let ms := Z.quot (Qnum (this q)) (Zpos (Qden (this q))) in
      if (Z.abs ms <=? 8640000000000000)%Z then Some ms else None
  | _ => None
  end.

Definition toLocaleDateString (d : option Z) : Display :=
  match d with
  | Some tv => LocaleDate tv
  | None => invalidDate
  end.

(** The formatters of the holdings table. *)
Module HoldingsTable.

Definition formatCurrency (value : number) : Display :=
  if negb (isFinite value) then Text "$0.00"
  else NumberFormat (mkOptions (Currency "USD") 2 2 false) value.

Definition formatNumberWith (decimals : nat) (value : number) : Display :=
  if negb (isFinite value) then Text "0"
  else
    let digits := if lt value (ofFrac 1 10) then decimals else 2 in
    NumberFormat (mkOptions Decimal digits digits false) value.

(** [formatNumber(value)], the parameter [decimals] at its default. *)
Definition formatNumber (value : number) : Display := formatNumberWith 6 value.

Definition formatPercentage (value : option number) : Display :=
  match value with
  | None => Text "-"
  | Some v =>
      if negb (isFinite v) then Text "-"
      else NumberFormat (mkOptions Percent 2 2 true) (v / ofZ 100)%js
  end.

Definition formatDate (timestamp : option number) : Display :=
  match timestamp with
  | None => Text ""
  | Some t =>
      if negb (truthy t) then Text ""
      else toLocaleDateString (newDate t)
  end.

End HoldingsTable.

(** The formatters of the portfolio page. *)
Module Page.

Definition formatCurrency (value : number) : Display :=
  if negb (isFinite value) then Text "$0.00"
  else NumberFormat (mkOptions (Currency "USD") 2 2 false) value.

Definition formatPercentage (value : number) : Display :=
  if negb (isFinite value) then Text "0.00%"
  else NumberFormat (mkOptions Percent 2 2 false) (value / ofZ 100)%js.

Definition formatTimestamp (timestamp : option number) : Display :=
  match timestamp with
  | None => Text "-"
  | Some t =>
      if negb (truthy t) then Text "-"
      else toLocaleDateString (newDate t)
  end.

End Page.

End Formatter.


(* ================================================================== *)
(** ** Double-precision arithmetic *)
(* ================================================================== *)

(** The arithmetic of [JsNumber] is exact.  JavaScript computes in IEEE 754
    binary64: the result of [+], [-], [*] and [/] on finite numbers is the
    exact result rounded to the nearest double, ties to the even one, and
    is an infinity when that exceeds the largest double.  This module
    adds the rounding, and gives [calculateValues] with it: the functions
    below are those of [Aggregator] with every arithmetic operation
    rounded.  Properties that hold whatever the rounding are stated over
    [Aggregator], as are those of the cache and of the refresh
    controller, which only pass the snapshot on; properties that depend
    on the rounding are stated over this module.  (The sign of zero is
    not modelled here either.) *)
Module Double.

Import Aggregator.
Open Scope string_scope.

(** The integer nearest to [x], ties to the even one. *)
Definition nearest (x : Q) : Z :=
  let f := Qfloor x in
  match Qcompare (x - inject_Z f) (1 # 2) with
  | Lt => f
  | Gt => (f + 1)%Z
  | Eq => if Z.even f then f else (f + 1)%Z
  end.

Definition pow2 (k : Z) : Q := Qpower 2 k.

(** [e] with [2^e <= q < 2^(e+1)], for a positive [q]. *)
Definition normalExponent (q : Q) : Z :=
  let e := (Z.log2 (Qnum q) - Z.log2 (Zpos (Qden q)))%Z in
  if Qle_bool (pow2 e) q then e else (e - 1)%Z.

(** The exponent of the binade of [q]; subnormal numbers share the
    smallest one. *)
Definition exponent (q : Q) : Z := Z.max (normalExponent q) (-1022).

(** A positive rational rounded to 53 significant bits. *)
Definition roundPositive (q : Q) : Q :=
  let ulp := pow2 (exponent q - 52) in
  (inject_Z (nearest (q / ulp)) * ulp)%Q.

Definition roundOrOverflow (q : Q) : number :=
  let r := roundPositive q in
  if Qle_bool (pow2 1024) r then PosInf else Fin (Q2Qc r).

(** The double nearest to a rational. *)
Definition binary64 (q : Qc) : number :=
  match (q ?= 0)%Qc with
  | Eq => zero
  | Gt => roundOrOverflow q
  | Lt => neg (roundOrOverflow (- q)%Qc)
  end.

(** The double a decimal literal [n / d] denotes. *)
Definition literal (n : Z) (d : positive) : number := binary64 (Q2Qc (n # d)).

Definition round (x : number) : number :=
  match x with Fin q => binary64 q | _ => x end.

Definition add (a b : number) : number := round (JsNumber.add a b).
Definition sub (a b : number) : number := round (JsNumber.sub a b).
Definition mul (a b : number) : number := round (JsNumber.mul a b).
Definition div (a b : number) : number := round (JsNumber.div a b).

(** [l.reduce((s, x) => s + x, 0)] *)
Definition sum (l : list number) : number := fold_left add l zero.

(** *** The values computed for one raw record *)

Definition spotHolding (key : string) (r : SpotHoldingData.t) : Holding.t :=
  let symbol := Keys.symbolOfKey key in
  let amount := orElse (toNumber (SpotHoldingData.total r)) zero in
  let price_usd := orElse (toNumber (SpotHoldingData.price_usd r)) zero in
  let total_usd :=
    orElse (toNumber (SpotHoldingData.total_usd r)) (mul amount price_usd) in
  let change_24h := SpotHoldingData.change_24h r in
  Holding.mk symbol amount price_usd total_usd change_24h
    (SpotHoldingData.avg_buy_price r) (SpotHoldingData.pnl r)
    (SpotHoldingData.pnl_percentage r)
    (SpotHoldingData.first_buy_time r) (SpotHoldingData.last_buy_time r).

Definition marginHolding (key : string) (r : MarginHoldingData.t) : Holding.t :=
  let symbol := Keys.symbolOfKey key in
  let amount := orElse (toNumber (MarginHoldingData.net_asset r)) zero in
  let price_usd := orElse (toNumber (MarginHoldingData.price_usd r)) zero in
  let total_usd :=
    orElse (toNumber (MarginHoldingData.net_asset_usd r))
      (mul amount price_usd) in
  let change_24h := MarginHoldingData.change_24h r in
  Holding.mk symbol amount price_usd total_usd change_24h
    (MarginHoldingData.avg_buy_price r) (MarginHoldingData.pnl r)
    (MarginHoldingData.pnl_percentage r)
    (MarginHoldingData.first_buy_time r) (MarginHoldingData.last_buy_time r).

Definition futuresHolding (key : string) (r : FuturesHoldingData.t) : Holding.t :=
  let symbol := Keys.futuresSymbolOfKey key in
  let amount := orElse (toNumber (FuturesHoldingData.amount r)) zero in
  let price_usd := orElse (toNumber (FuturesHoldingData.current_price r)) zero in
  let total_usd :=
    orElse (toNumber (FuturesHoldingData.usd_value r)) (mul amount price_usd) in
  let change_24h := FuturesHoldingData.change_24h r in
  Holding.mk symbol amount price_usd total_usd change_24h
    (FuturesHoldingData.entry_price r) (FuturesHoldingData.unrealized_pnl r)
    (Some (mul (div (toNumber (FuturesHoldingData.unrealized_pnl_usd r))
                  total_usd)
             (ofZ 100)))
    None None.

(** *** The loops *)

(** [m.set(k, (m.get(k) || 0) + v)] *)
Definition bump (k : string) (v : number) (m : list (string * number))
  : list (string * number) :=
  mapSet k (add (getOrZero k m) v) m.

(** The body of the [if (amount > 0 && ...)] block. *)
Definition accept (h : Holding.t) (st : Shared * Segment) : Shared * Segment :=
  let (sh, sg) := st in
  let total_usd := Holding.total_usd h in
  let symbol := Holding.symbol h in
  let '(w, v) :=
    match finiteChange h with
    | Some c => (add (totalWeightedChange sh) (mul c total_usd),
                 add (totalValueWithChange sh) total_usd)
    | None => (totalWeightedChange sh, totalValueWithChange sh)
    end in
  (mkShared (setAdd symbol (uniqueAssets sh))
            (bump symbol total_usd (assetValues sh)) w v,
   mkSegment (add (segmentValue sg) total_usd) (processed sg ++ [h])).

Definition step (h : Holding.t) (st : Shared * Segment) : Shared * Segment :=
  if included h then accept h st else st.

Definition processEntries {A : Type} (mk : string -> A -> Holding.t)
  (es : entries A) (st : Shared * Segment) : Shared * Segment :=
  fold_left
    (fun st e =>
       match snd e with
       | Some r => step (mk (fst e) r) st
       | None => st
       end)
    es st.

Definition processSegment {A : Type} (mk : string -> A -> Holding.t)
  (field : option (entries A)) (sh : Shared) : Shared * Segment * nat :=
  match field with
  | Some es => (processEntries mk es (sh, segment0), List.length es)
  | None => (sh, segment0, 0)
  end.

(** *** Allocations *)

(** [if (value > 0) push({asset, value, percentage: (value / total) * 100})] *)
Definition allocationOf (total : number) (m : list (string * number))
  : list AssetAllocation.t :=
  flat_map
    (fun kv =>
       if gt (snd kv) zero
       then [AssetAllocation.mk (fst kv) (snd kv)
               (mul (div (snd kv) total) (ofZ 100))]
       else [])
    m.

(** The comparator [(a, b) => b.value - a.value]. *)
Definition byValueDesc (a b : AssetAllocation.t) : number :=
  sub (AssetAllocation.value b) (AssetAllocation.value a).

Definition sectorValuesOf (m : list (string * number)) : list (string * number) :=
  fold_left
    (fun sv kv =>
       if gt (snd kv) zero then bump (mapAssetToSector (fst kv)) (snd kv) sv
       else sv)
    m [].

(** *** [calculateValues] *)

Definition calculateValues (data : PortfolioApiData.t) : Calculated :=
  let '(sh1, spot, nSpot) :=
    processSegment spotHolding (PortfolioApiData.spot_holdings data) shared0 in
  let '(sh2, margin, nMargin) :=
    processSegment marginHolding (PortfolioApiData.margin_holdings data) sh1 in
  let '(sh3, futures, nFutures) :=
    processSegment futuresHolding (PortfolioApiData.futures_holdings data) sh2 in
  let averageChange :=
    if gt (totalValueWithChange sh3) zero
    then div (totalWeightedChange sh3) (totalValueWithChange sh3)
    else zero in
  let calculatedTotalValue :=
    add (add (segmentValue spot) (segmentValue margin))
      (segmentValue futures) in
  let generatedAssetAllocation :=
    if gt calculatedTotalValue zero
    then allocationOf calculatedTotalValue (assetValues sh3) else [] in
  let sectorValues :=
    if gt calculatedTotalValue zero
    then sectorValuesOf (assetValues sh3) else [] in
  let generatedSectorAllocation :=
    if gt calculatedTotalValue zero
    then allocationOf calculatedTotalValue sectorValues else [] in
  mkCalculated calculatedTotalValue
    (segmentValue spot) (segmentValue margin) (segmentValue futures)
    (List.length (uniqueAssets sh3))
    (sort byValueDesc generatedAssetAllocation)
    (sort byValueDesc generatedSectorAllocation)
    nSpot nMargin nFutures averageChange
    (processed spot) (processed margin) (processed futures).

(** The snapshot of one successful fetch. *)
Definition aggregate (data : PortfolioApiData.t) (now : string) : PortfolioData.t :=
  validatedData data (calculateValues data) now.

End Double.

(* ================================================================== *)
(** ** More of the page: chart data, composition bars, portfolio query *)
(* ================================================================== *)

(** The data of the investment-type doughnut chart (the chart effect of
    the portfolio page).  The canvas, the timer and the Chart.js object
    are not modelled; [config] is the data handed to [new Chart]. *)
Module Chart.

Open Scope string_scope.

(** The text [v.toFixed(digits)], kept symbolic. *)
Inductive Fixed : Type := toFixed (v : number) (digits : nat).

Definition fixedValue (f : Fixed) : number :=
  match f with toFixed v _ => v end.

(** The four arrays the effect fills, and the tooltip percentages. *)
Record Dataset : Type := mkDataset {
  labels : list string;
  data : list number;
  colors : list string;
  coinCounts : list nat
}.

Inductive Config : Type :=
| Investment (d : Dataset) (percentages : list Fixed)
| NoDataAvailable.

(** [isFinite(x) ? x : 0] *)
Definition finiteOrZero (x : number) : number :=
  if isFinite x then x else zero.

Definition totalInvestmentValue (pd : PortfolioData.t) : number :=
  (finiteOrZero (PortfolioData.spot_value pd)
   + finiteOrZero (PortfolioData.margin_value pd)
   + finiteOrZero (PortfolioData.futures_value pd))%js.

(** [if (value > 0) { labels.push(..); data.push(..); colors.push(..);
    coinCounts.push(..) }] *)
Definition pushSlice (label : string) (value : number) (color : string)
  (count : nat) (d : Dataset) : Dataset :=
  if gt value zero
  then mkDataset (labels d ++ [label]) (data d ++ [value])
         (colors d ++ [color]) (coinCounts d ++ [count])
  else d.

Definition config (pd : PortfolioData.t)
  (spotHoldings marginHoldings futuresHoldings : list Holding.t) : Config :=
  let totalInvestmentValue := totalInvestmentValue pd in
  if gt totalInvestmentValue zero then
    let d :=
      pushSlice "Futures" (PortfolioData.futures_value pd) "#f59e0b"
        (List.length futuresHoldings)
        (pushSlice "Margin" (PortfolioData.margin_value pd) "#10b981"
           (List.length marginHoldings)
           (pushSlice "Spot" (PortfolioData.spot_value pd) "#3b82f6"
              (List.length spotHoldings)
              (mkDataset [] [] [] []))) in
    Investment d
      (map (fun value => toFixed (value / totalInvestmentValue * ofZ 100)%js 2)
         (data d))
  else NoDataAvailable.

End Chart.

(** Expressions of the page's markup that compute something. *)
Module View.

(** The width of a composition bar, in percent:
    [(part / total * 100) || 0]. *)
Definition barWidth (part total : number) : number :=
  orElse (part / total * ofZ 100)%js zero.

Definition spotWidth (pd : PortfolioData.t) : number :=
  barWidth (PortfolioData.spot_value pd) (PortfolioData.total_value pd).
Definition marginWidth (pd : PortfolioData.t) : number :=
  barWidth (PortfolioData.margin_value pd) (PortfolioData.total_value pd).
Definition futuresWidth (pd : PortfolioData.t) : number :=
  barWidth (PortfolioData.futures_value pd) (PortfolioData.total_value pd).

End View.

(** [handlePortfolioQuery]: what the chat box receives for each way the
    API call can end. *)
Module Query.

Open Scope string_scope.

(** [response.status]: ['success'], ['error'], or any other value, with
    its text. *)
Inductive Status : Type :=
| StatusSuccess
| StatusError
| StatusOther (text : string).

(** [response.data]: each field is a string or missing. *)
Record Data : Type := mkData {
  response : option string;
  message : option string;
  error : option string
}.

Record ApiResponse : Type := mkApiResponse {
  status : Status;
  data : option Data
}.

(** How [await ApiService.processBinanceQuery(query)] ends. *)
Inductive Outcome : Type :=
| Resolved (r : ApiResponse)
| Rejected (message : option string)
    (** the call threw; [Some m] when the exception is an [Error] *).

Inductive ResultStatus : Type := ResultSuccess | ResultError.

Record Result : Type := mkResult {
  resultStatus : ResultStatus;
  resultData : Data
}.

Definition statusText (s : Status) : string :=
  match s with
  | StatusSuccess => "success"
  | StatusError => "error"
  | StatusOther t => t
  end.

Definition noClearResponse : string :=
  "I received your query, but the API didn't provide a clear response. Please try asking in a different way.".

(** A string that is present and truthy. *)
Definition truthyText (o : option string) : option string :=
  match o with
  | Some s => if Controller.nonEmpty s then Some s else None
  | None => None
  end.

(** [typeof x === 'string' && x.trim() !== ''], with [blank s] for
    [s.trim() === '']. *)
Definition usable (blank : string -> bool) (o : option string) : option string :=
  match o with
  | Some s => if blank s then None else Some s
  | None => None
  end.

Definition errorResult (errorMessage : string) : Result :=
  mkResult ResultError
    (mkData (Some ("Error: " ++ errorMessage)) (Some errorMessage) None).

(** The value [handlePortfolioQuery] resolves to.  [blank] is the
    runtime's [s => s.trim() === '']. *)
Definition handlePortfolioQuery (blank : string -> bool) (o : Outcome)
  : Result :=
  match o with
  | Resolved r =>
      match status r with
      | StatusSuccess =>
          match data r with
          | Some d =>
              match usable blank (response d) with
              | Some _ => mkResult ResultSuccess d
              | None =>
                  match usable blank (message d) with
                  | Some m => mkResult ResultSuccess (mkData (Some m) None None)
                  | None =>
                      mkResult ResultSuccess
                        (mkData (Some noClearResponse) None None)
                  end
              end
          | None =>
              mkResult ResultSuccess (mkData (Some noClearResponse) None None)
          end
      | StatusError =>
          let errorMsg :=
            match data r with
            | Some d =>
                match truthyText (message d) with
                | Some m => m
                | None =>
                    match truthyText (error d) with
                    | Some e => e
                    | None => "Unknown API error"
                    end
                end
            | None => "Unknown API error"
            end in
          errorResult errorMsg
      | StatusOther t =>
          errorResult ("Unexpected API response status: " ++ t)
      end
  | Rejected (Some m) => errorResult m
  | Rejected None => errorResult "Unknown error occurred"
  end.

End Query.
(* ================================================================== *)
(** ** Vocabulary of the specification *)
(* ================================================================== *)

(** The notions the specification speaks of, defined on their own (not by
    the code above) so that the code can be compared with them. *)
Module Spec.

Import Aggregator.
Local Open Scope list_scope.

(** The values computed for the records of a segment, in order. *)
Definition candidates {A : Type} (mk : string -> A -> Holding.t)
  (es : entries A) : list Holding.t :=
  flat_map
    (fun e => match snd e with Some r => [mk (fst e) r] | None => [] end)
    es.

(** The included holdings of a segment: those that pass the guard. *)
Definition includedOf {A : Type} (mk : string -> A -> Holding.t)
  (field : option (entries A)) : list Holding.t :=
  match field with
  | Some es => filter included (candidates mk es)
  | None => []
  end.

Definition includedSpot (data : PortfolioApiData.t) : list Holding.t :=
  includedOf spotHolding (PortfolioApiData.spot_holdings data).
Definition includedMargin (data : PortfolioApiData.t) : list Holding.t :=
  includedOf marginHolding (PortfolioApiData.margin_holdings data).
Definition includedFutures (data : PortfolioApiData.t) : list Holding.t :=
  includedOf futuresHolding (PortfolioApiData.futures_holdings data).

(** All included holdings of an input. *)
Definition includedHoldings (data : PortfolioApiData.t) : list Holding.t :=
  includedSpot data ++ includedMargin data ++ includedFutures data.

(** A raw entry that is skipped: not an object, or rejected by the
    guard. *)
Definition excluded {A : Type} (mk : string -> A -> Holding.t)
  (e : string * option A) : bool :=
  match snd e with
  | Some r => negb (included (mk (fst e) r))
  | None => true
  end.

Definition carriesChange (h : Holding.t) : bool :=
  match finiteChange h with Some _ => true | None => false end.

Definition changeOf (h : Holding.t) : number :=
  match finiteChange h with Some c => c | None => zero end.

(** The holdings that carry a finite [change_24h]. *)
Definition withChange (hs : list Holding.t) : list Holding.t :=
  filter carriesChange hs.


(** The top-level change of the API, [0] when absent or not finite. *)
Definition apiChange (data : PortfolioApiData.t) : number :=
  match PortfolioApiData.change_24h data with
  | Some c => if isFinite c then c else zero
  | None => zero
  end.

(** An allocation list of a snapshot ([undefined] counts as empty). *)
Definition allocation (o : option (list AssetAllocation.t))
  : list AssetAllocation.t :=
  match o with Some l => l | None => [] end.

Definition values (l : list AssetAllocation.t) : list number :=
  map AssetAllocation.value l.

Definition percentages (l : list AssetAllocation.t) : list number :=
  map AssetAllocation.percentage l.

(** Descending by value: no entry is followed (anywhere later) by an
    entry of greater value. *)
Definition sortedDescending (l : list AssetAllocation.t) : Prop :=
  StronglySorted
    (fun a b => lt (AssetAllocation.value a) (AssetAllocation.value b) = false)
    l.

(** The results of [calculateValues] other than the raw record counts. *)
Definition sameAggregates (a b : Calculated) : Prop :=
  totalValue a = totalValue b
  /\ spotValue a = spotValue b
  /\ marginValue a = marginValue b
  /\ futuresValue a = futuresValue b
  /\ uniqueAssetCount a = uniqueAssetCount b
  /\ assetAllocation a = assetAllocation b
  /\ sectorAllocation a = sectorAllocation b
  /\ averageChange a = averageChange b
  /\ processedSpotHoldings a = processedSpotHoldings b
  /\ processedMarginHoldings a = processedMarginHoldings b
  /\ processedFuturesHoldings a = processedFuturesHoldings b.

(** No [NaN] in a snapshot. *)
Definition entryNaNFree (e : AssetAllocation.t) : bool :=
  negb (isNaN (AssetAllocation.value e))
  && negb (isNaN (AssetAllocation.percentage e)).

Definition snapshotNaNFree (d : PortfolioData.t) : bool :=
  negb (isNaN (PortfolioData.total_value d))
  && negb (isNaN (PortfolioData.change_24h d))
  && negb (isNaN (PortfolioData.spot_value d))
  && negb (isNaN (PortfolioData.margin_value d))
  && negb (isNaN (PortfolioData.futures_value d))
  && forallb entryNaNFree (allocation (PortfolioData.asset_allocation d))
  && forallb entryNaNFree (allocation (PortfolioData.sector_allocation d)).

(** The shared accumulators after the accepted holdings [hs]. *)
Definition acceptShared (h : Holding.t) (sh : Shared) : Shared :=
  fst (accept h (sh, segment0)).

Definition acceptSegment (h : Holding.t) (sg : Segment) : Segment :=
  snd (accept h (shared0, sg)).

Definition runShared (hs : list Holding.t) (sh : Shared) : Shared :=
  fold_left (fun s h => acceptShared h s) hs sh.

Definition runSegment (hs : list Holding.t) (sg : Segment) : Segment :=
  fold_left (fun s h => acceptSegment h s) hs sg.

Definition totals (hs : list Holding.t) : list number :=
  map Holding.total_usd hs.

Definition weightedChanges (hs : list Holding.t) : list number :=
  map (fun h => changeOf h * Holding.total_usd h)%js hs.

Definition mapValues (m : list (string * number)) : list number := map snd m.

Definition allPositive (l : list number) : Prop :=
  Forall (fun v => gt v zero = true) l.

Definition valueNotNaN (a : AssetAllocation.t) : Prop :=
  isNaN (AssetAllocation.value a) = false.

(** The shared accumulators at the end of the three loops. *)
Definition finalShared (data : PortfolioApiData.t) : Shared :=
  runShared (includedHoldings data) shared0.

(** An input with one excluded record removed from one segment. *)
Inductive removeExcluded : PortfolioApiData.t -> PortfolioApiData.t -> Prop :=
| RemoveSpot (l1 l2 : entries SpotHoldingData.t) e m f c :
    excluded spotHolding e = true ->
    removeExcluded (PortfolioApiData.mk (Some (l1 ++ e :: l2)) m f c)
                   (PortfolioApiData.mk (Some (l1 ++ l2)) m f c)
| RemoveMargin (l1 l2 : entries MarginHoldingData.t) e s f c :
    excluded marginHolding e = true ->
    removeExcluded (PortfolioApiData.mk s (Some (l1 ++ e :: l2)) f c)
                   (PortfolioApiData.mk s (Some (l1 ++ l2)) f c)
| RemoveFutures (l1 l2 : entries FuturesHoldingData.t) e s m c :
    excluded futuresHolding e = true ->
    removeExcluded (PortfolioApiData.mk s m (Some (l1 ++ e :: l2)) c)
                   (PortfolioApiData.mk s m (Some (l1 ++ l2)) c).

(** Two snapshots agree on everything but [holdings_count] (whose
    fallback counts raw records). *)
Definition sameSnapshotValues (a b : PortfolioData.t) : Prop :=
  PortfolioData.total_value a = PortfolioData.total_value b
  /\ PortfolioData.change_24h a = PortfolioData.change_24h b
  /\ PortfolioData.spot_value a = PortfolioData.spot_value b
  /\ PortfolioData.margin_value a = PortfolioData.margin_value b
  /\ PortfolioData.futures_value a = PortfolioData.futures_value b
  /\ PortfolioData.asset_allocation a = PortfolioData.asset_allocation b
  /\ PortfolioData.sector_allocation a = PortfolioData.sector_allocation b
  /\ PortfolioData.last_updated a = PortfolioData.last_updated b.

(** The offset of the first occurrence of [pat] in [s]
    ([s.indexOf(pat)]). *)
Fixpoint indexOf (pat s : string) : option nat :=
  if prefix pat s then Some 0
  else match s with
       | EmptyString => None
       | String _ r => option_map S (indexOf pat r)
       end.

(** The fraction digits a formatter asks of [Intl.NumberFormat]
    (minimum, maximum). *)
Definition fractionDigits (d : Formatter.Display) : option (nat * nat) :=
  match d with
  | Formatter.NumberFormat o _ =>
      Some (Formatter.minimumFractionDigits o,
            Formatter.maximumFractionDigits o)
  | _ => None
  end.

(** The request did not end with [status === 'success']. *)
Definition isFailure (r : Controller.Response) : Prop :=
  match r with Controller.Success _ => False | _ => True end.

End Spec.

(* ================================================================== *)
(** ** Concrete inputs *)
(* ================================================================== *)

Module Examples.

Import Store.
Open Scope string_scope.

Definition spotRecord (total price_usd total_usd change_24h : option number)
  : SpotHoldingData.t :=
  SpotHoldingData.mk total total_usd price_usd change_24h
    None None None None None.

Definition spotOnly (es : entries SpotHoldingData.t) (change : option number)
  : PortfolioApiData.t :=
  PortfolioApiData.mk (Some es) None None change.

(** The example of the specification: 1 BTC at 50000 (+10%), 2 ETH at
    2000 (-5%). *)
Definition btcEth : PortfolioApiData.t :=
  spotOnly
    [ ("BTC_spot", Some (spotRecord (Some (ofZ 1)) (Some (ofZ 50000))
                           (Some (ofZ 50000)) (Some (ofZ 10))));
      ("ETH_spot", Some (spotRecord (Some (ofZ 2)) (Some (ofZ 2000))
                           (Some (ofZ 4000)) (Some (ofZ (-5))))) ]
    None.

(** Two holdings with the same change, 3%. *)
Definition sameChange : PortfolioApiData.t :=
  spotOnly
    [ ("BTC_spot", Some (spotRecord (Some (ofZ 1)) (Some (ofZ 50000))
                           (Some (ofZ 50000)) (Some (ofZ 3))));
      ("ETH_spot", Some (spotRecord (Some (ofZ 2)) (Some (ofZ 2000))
                           (Some (ofZ 4000)) (Some (ofZ 3)))) ]
    None.

(** One holding whose [total_usd] is [Infinity] (the JSON number [1e999]
    parses to it), with a change of 1%. *)
Definition infiniteTotal : PortfolioApiData.t :=
  spotOnly
    [ ("BTC_spot", Some (spotRecord (Some (ofZ 1)) (Some (ofZ 50000))
                           (Some PosInf) (Some (ofZ 1)))) ]
    None.


(** The malformed record [{amount: -1, price_usd: 100, total_usd: -100}]
    and a record with [amount = 0]. *)
Definition malformedRecord : SpotHoldingData.t :=
  spotRecord (Some (ofZ (-1))) (Some (ofZ 100)) (Some (ofZ (-100))) None.

Definition zeroAmountRecord : SpotHoldingData.t :=
  spotRecord (Some (ofZ 0)) (Some (ofZ 100)) (Some (ofZ 100)) (Some (ofZ 7)).

Definition btcEthWithMalformed : PortfolioApiData.t :=
  spotOnly
    [ ("BTC_spot", Some (spotRecord (Some (ofZ 1)) (Some (ofZ 50000))
                           (Some (ofZ 50000)) (Some (ofZ 10))));
      ("BAD_spot", Some malformedRecord);
      ("ETH_spot", Some (spotRecord (Some (ofZ 2)) (Some (ofZ 2000))
                           (Some (ofZ 4000)) (Some (ofZ (-5))))) ]
    None.

Definition btcEthWithZeroAmount : PortfolioApiData.t :=
  spotOnly
    [ ("BTC_spot", Some (spotRecord (Some (ofZ 1)) (Some (ofZ 50000))
                           (Some (ofZ 50000)) (Some (ofZ 10))));
      ("ETH_spot", Some (spotRecord (Some (ofZ 2)) (Some (ofZ 2000))
                           (Some (ofZ 4000)) (Some (ofZ (-5)))));
      ("DOGE_spot", Some zeroAmountRecord) ]
    None.

(** One BTC, as a response. *)
Definition oneBtc : PortfolioApiData.t :=
  spotOnly
    [ ("BTC_spot", Some (spotRecord (Some (ofZ 1)) (Some (ofZ 50000))
                           (Some (ofZ 50000)) (Some (ofZ 10)))) ]
    None.

(** The holding the page keeps for [oneBtc]. *)
Definition btcHolding : Holding.t :=
  Holding.mk "BTC" (ofZ 1) (ofZ 50000) (ofZ 50000) (Some (ofZ 10))
    None None None None None.

(** A runtime whose [Date] rejects every string. *)
Definition rejectingRuntime : Runtime.t :=
  Runtime.mk (fun _ => None) (fun _ => "").

(** A snapshot as a fetch at 10:15:30 stores it in an [en-US] locale. *)
Definition storedSnapshot : PortfolioData.t :=
  PortfolioData.mk (ofZ 50000) (ofZ 10) 1 (ofZ 50000) zero zero
    (Some [AssetAllocation.mk "BTC" (ofZ 50000) (ofZ 100)])
    (Some [AssetAllocation.mk "Store of Value" (ofZ 50000) (ofZ 100)])
    "10:15:30 AM".

(** The component at its first render, nothing cached. *)
Definition freshWorld : World := mkWorld (initialState "10:15:00 AM") emptyStorage.

End Examples.


(* ================================================================== *)
(** ** Further vocabulary *)
(* ================================================================== *)

Module Vocabulary.

Import Aggregator Spec.
Local Open Scope list_scope.

(** The holdings of a symbol, and their total value. *)
Definition hasSymbol (k : string) (h : Holding.t) : bool :=
  String.eqb k (Holding.symbol h).

Definition valueOfSymbol (k : string) (hs : list Holding.t) : number :=
  sum (totals (filter (hasSymbol k) hs)).

(** The names a sector can have. *)
Definition sectorNames : list string := "Other"%string :: map snd sectorMap.

(** The property names every object inherits from [Object.prototype]:
    for these, [sectorMap[asset]] is not a lookup in the table. *)
Definition inheritedNames : list string :=
  [ "constructor"; "hasOwnProperty"; "isPrototypeOf"; "propertyIsEnumerable";
    "toLocaleString"; "toString"; "valueOf"; "__proto__";
    "__defineGetter__"; "__defineSetter__"; "__lookupGetter__";
    "__lookupSetter__" ]%string.

(** No holding is named like an inherited property. *)
Definition plainSymbols (hs : list Holding.t) : bool :=
  forallb
    (fun h => negb (existsb (String.eqb (Holding.symbol h)) inheritedNames))
    hs.

(** Zero or positive (in particular not [NaN]). *)
Definition nonNegative (x : number) : Prop := x = zero \/ gt x zero = true.

(** The same records, possibly in another order. *)
Definition sameRecords {A : Type} (a b : option (entries A)) : Prop :=
  match a, b with
  | Some x, Some y => Permutation x y
  | None, None => True
  | _, _ => False
  end.

(** Accumulating the values [val x] under the keys [key x], as the loops
    do with [m.set(k, (m.get(k) || 0) + v)]. *)
Definition bumpAll {A : Type} (key : A -> string) (val : A -> number)
  (xs : list A) (m : list (string * number)) : list (string * number) :=
  fold_left (fun m x => bump (key x) (val x) m) xs m.

Definition matching {A : Type} (key : A -> string) (k : string) (x : A)
  : bool := String.eqb k (key x).

Definition keys (m : list (string * number)) : list string := map fst m.

(** Some stored text that is not empty is rejected by [JSON.parse]. *)
Definition malformed {A : Type} (item : option (Store.Item A)) : bool :=
  match item with Some Store.Malformed => true | _ => false end.

Definition anyMalformed (sto : Store.Storage) : bool :=
  malformed (Store.binance_portfolio_data sto)
  || malformed (Store.binance_spot_holdings sto)
  || malformed (Store.binance_margin_holdings sto)
  || malformed (Store.binance_futures_holdings sto).

(** Some key holds a text that is not empty. *)
Definition anyPresent (sto : Store.Storage) : bool :=
  CacheStore.present (Store.binance_portfolio_data sto)
  || CacheStore.present (Store.binance_spot_holdings sto)
  || CacheStore.present (Store.binance_margin_holdings sto)
  || CacheStore.present (Store.binance_futures_holdings sto).

(** The value stored under a key, when it parses. *)
Definition stored {A : Type} (item : option (Store.Item A)) : option A :=
  match item with Some (Store.Json a) => Some a | _ => None end.

(** The same data: snapshot and the three lists. *)
Definition sameData (a b : Store.State) : Prop :=
  Store.portfolioData a = Store.portfolioData b
  /\ Store.spotHoldings a = Store.spotHoldings b
  /\ Store.marginHoldings a = Store.marginHoldings b
  /\ Store.futuresHoldings a = Store.futuresHoldings b.

(** Values that [JSON.parse(JSON.stringify(v))] gives back unchanged:
    every number is finite ([JSON.stringify] writes [NaN] and the
    infinities as [null]). *)
Definition jsonNumber (x : number) : Prop := isFinite x = true.

Definition jsonOptional (o : option number) : Prop :=
  match o with Some x => jsonNumber x | None => True end.

Definition jsonHolding (h : Holding.t) : Prop :=
  jsonNumber (Holding.amount h)
  /\ jsonNumber (Holding.price_usd h)
  /\ jsonNumber (Holding.total_usd h)
  /\ jsonOptional (Holding.change_24h h)
  /\ jsonOptional (Holding.avg_buy_price h)
  /\ jsonOptional (Holding.pnl h)
  /\ jsonOptional (Holding.pnl_percentage h)
  /\ jsonOptional (Holding.first_buy_time h)
  /\ jsonOptional (Holding.last_buy_time h).

Definition jsonAllocation (o : option (list AssetAllocation.t)) : Prop :=
  Forall (fun e => jsonNumber (AssetAllocation.value e)
                   /\ jsonNumber (AssetAllocation.percentage e))
    (allocation o).

Definition jsonSnapshot (s : PortfolioData.t) : Prop :=
  jsonNumber (PortfolioData.total_value s)
  /\ jsonNumber (PortfolioData.change_24h s)
  /\ jsonNumber (PortfolioData.spot_value s)
  /\ jsonNumber (PortfolioData.margin_value s)
  /\ jsonNumber (PortfolioData.futures_value s)
  /\ jsonAllocation (PortfolioData.asset_allocation s)
  /\ jsonAllocation (PortfolioData.sector_allocation s).

End Vocabulary.

(* ================================================================== *)
(** ** Further concrete inputs *)
(* ================================================================== *)

Module Samples.

Import Store Examples.
Open Scope string_scope.

Definition btcEntry : string * option SpotHoldingData.t :=
  ("BTC_spot", Some (spotRecord (Some (ofZ 1)) (Some (ofZ 50000))
                       (Some (ofZ 50000)) (Some (ofZ 10)))).

Definition ethEntry : string * option SpotHoldingData.t :=
  ("ETH_spot", Some (spotRecord (Some (ofZ 2)) (Some (ofZ 2000))
                       (Some (ofZ 4000)) (Some (ofZ (-5))))).

(** A storage that holds the snapshot and the spot list of an earlier
    visit. *)
Definition cachedStorage : Storage :=
  mkStorage true (Some (Json storedSnapshot)) (Some (Json [btcHolding]))
    None None.

Definition cachedWorld : World :=
  mkWorld (initialState "10:15:00 AM") cachedStorage.

(** The same storage with a spot list that [JSON.parse] rejects. *)
Definition brokenStorage : Storage :=
  mkStorage true (Some (Json storedSnapshot)) (Some Malformed) None None.

Definition brokenWorld : World :=
  mkWorld (initialState "10:15:00 AM") brokenStorage.

(** The request failed before any response arrived. *)
Definition networkError : Controller.Response :=
  Controller.Thrown (Some "Network Error").

(** A runtime that reads every time text as the epoch. *)
Definition epochRuntime : Runtime.t :=
  Runtime.mk (fun _ => Some 0%Z) (fun _ => "12:00:00 AM").

(** A chat answer, and a [trim() === ''] that knows the empty text and a
    single blank. *)
Definition answer : Query.ApiResponse :=
  Query.mkApiResponse Query.StatusSuccess
    (Some (Query.mkData (Some "Your portfolio is worth $54,000.") None None)).

Definition blankText (s : string) : bool :=
  String.eqb s "" || String.eqb s " ".

End Samples.

(* ================================================================== *)
(** ** Vocabulary of the double-precision properties *)
(* ================================================================== *)

Module DoubleSpec.

Import Aggregator Spec.
Local Open Scope list_scope.

(** The included holdings, with the values [Double] computes for them. *)
Definition includedSpot (data : PortfolioApiData.t) : list Holding.t :=
  includedOf Double.spotHolding (PortfolioApiData.spot_holdings data).
Definition includedMargin (data : PortfolioApiData.t) : list Holding.t :=
  includedOf Double.marginHolding (PortfolioApiData.margin_holdings data).
Definition includedFutures (data : PortfolioApiData.t) : list Holding.t :=
  includedOf Double.futuresHolding (PortfolioApiData.futures_holdings data).

Definition includedHoldings (data : PortfolioApiData.t) : list Holding.t :=
  includedSpot data ++ includedMargin data ++ includedFutures data.

(** The accumulators after the accepted holdings [hs]. *)
Definition acceptShared (h : Holding.t) (sh : Shared) : Shared :=
  fst (Double.accept h (sh, segment0)).

Definition acceptSegment (h : Holding.t) (sg : Segment) : Segment :=
  snd (Double.accept h (shared0, sg)).

Definition runShared (hs : list Holding.t) (sh : Shared) : Shared :=
  fold_left (fun s h => acceptShared h s) hs sh.

Definition runSegment (hs : list Holding.t) (sg : Segment) : Segment :=
  fold_left (fun s h => acceptSegment h s) hs sg.

Definition finalShared (data : PortfolioApiData.t) : Shared :=
  runShared (includedHoldings data) shared0.


(** *** Rounding errors *)

(** One rounding changes a number of the normal range, [lo] to [hi], by
    a factor between [w = 1 - 2^-53] and [1 / w]; the smallest positive
    double is [tiny]. *)
Definition w : Q := 1 - Double.pow2 (-53).
Definition lo : Q := Double.pow2 (-1022).
Definition hi : Q := Double.pow2 1023.
Definition tiny : Q := Double.pow2 (-1074).

Definition W (k : nat) : Q := Qpower w (Z.of_nat k).

(** [p] is [s] up to [k] roundings: each of the two is at least [w^k]
    times the other.  The relative error is at most [1 / w^k - 1], about
    [k * 1.1e-16]. *)
Definition close (k : nat) (p s : Q) : Prop :=
  (0 <= s /\ W k * s <= p /\ W k * p <= s)%Q.







Definition safe (K : nat) (s : Q) : Prop :=
  (s == 0 \/ (lo <= W K * s /\ s <= W K * hi))%Q.








(** The items a loop hands to [bump], in order, and the maps they give. *)
Definition bumpAll (items : list (string * number))
  (m : list (string * number)) : list (string * number) :=
  fold_left (fun m kv => Double.bump (fst kv) (snd kv) m) items m.







(** Zero, a positive number or [+Infinity]. *)
Definition notNegative (x : number) : Prop :=
  x = PosInf \/ exists r : Qc, x = Fin r /\ (0 <= r)%Q.

(** A multiple of the smallest positive double. *)
Definition onGrid (x : number) : Prop :=
  match x with
  | Fin q => exists k : Z, (q == inject_Z k * tiny)%Q
  | _ => True
  end.

End DoubleSpec.

(* ================================================================== *)
(** ** Inputs for the double-precision properties *)
(* ================================================================== *)

Module DoubleExamples.

Import Examples.
Open Scope string_scope.







End DoubleExamples.
(* ================================================================== *)
(** * Properties *)
(* ================================================================== *)

(** ** Arithmetic of [number] *)

Section NumberFacts.

Lemma Qc_ltb_lt (a b : Qc) : Qc_ltb a b = true <-> (a < b)%Qc.
Proof.
  unfold Qc_ltb. rewrite Qclt_alt.
  destruct (a ?= b)%Qc; split; congruence.
Qed.

Lemma Qc_ltb_irrefl (a : Qc) : Qc_ltb a a = false.
Proof.
  destruct (Qc_ltb a a) eqn:E; [|reflexivity].
  apply Qc_ltb_lt in E. exfalso. revert E. apply Qcle_not_lt, Qcle_refl.
Qed.

Lemma Qc_eq_bool_refl (a : Qc) : Qc_eq_bool a a = true.
Proof.
  unfold Qc_eq_bool. destruct (Qc_eq_dec a a); congruence.
Qed.

Lemma Qc_eq_bool_false (a b : Qc) : Qc_eq_bool a b = false -> a <> b.
Proof.
  intros E ->. rewrite Qc_eq_bool_refl in E. discriminate.
Qed.

Lemma Qc_add_pos (a b : Qc) : (0 < a)%Qc -> (0 < b)%Qc -> (0 < a + b)%Qc.
Proof.
  intros Ha Hb.
  apply Qclt_le_trans with (y := (0 + b)%Qc).
  - now rewrite Qcplus_0_l.
  - apply Qcplus_le_compat; [now apply Qclt_le_weak | apply Qcle_refl].
Qed.

Lemma Qc_pos_neq0 (a : Qc) : (0 < a)%Qc -> a <> 0%Qc.
Proof.
  intros H E. symmetry in E. revert E. now apply Qclt_not_eq.
Qed.

Lemma add_comm (a b : number) : (a + b = b + a)%js.
Proof.
  destruct a, b; simpl; try reflexivity. now rewrite Qcplus_comm.
Qed.

Lemma add_assoc (a b c : number) : (a + (b + c) = a + b + c)%js.
Proof.
  destruct a, b, c; simpl; try reflexivity. now rewrite Qcplus_assoc.
Qed.

Lemma add_zero_l (a : number) : (zero + a)%js = a.
Proof.
  destruct a; simpl; try reflexivity. now rewrite Qcplus_0_l.
Qed.

Lemma add_zero_r (a : number) : (a + zero)%js = a.
Proof.
  rewrite add_comm. apply add_zero_l.
Qed.

(** [x > 0]: a positive rational or [+Infinity]. *)
Lemma gt_zero_cases (x : number) :
  gt x zero = true <-> (exists q, x = Fin q /\ (0 < q)%Qc) \/ x = PosInf.
Proof.
  unfold gt, zero. destruct x; simpl; split; intros H;
    try discriminate; try (right; reflexivity); try reflexivity.
  - left. exists q. split; [reflexivity | now apply Qc_ltb_lt].
  - destruct H as [(q' & E & Hq) | E]; [|discriminate].
    injection E as ->. now apply Qc_ltb_lt.
  - destruct H as [(q' & E & _) | E]; discriminate.
  - destruct H as [(q' & E & _) | E]; discriminate.
Qed.

Lemma gt_zero_add (a b : number) :
  gt a zero = true -> gt b zero = true -> gt (a + b)%js zero = true.
Proof.
  rewrite !gt_zero_cases.
  intros [(x & -> & Hx) | ->] [(y & -> & Hy) | ->]; simpl.
  - left. eexists. split; [reflexivity | now apply Qc_add_pos].
  - now right.
  - now right.
  - now right.
Qed.

Lemma gt_zero_truthy (a : number) : gt a zero = true -> truthy a = true.
Proof.
  rewrite gt_zero_cases. intros [(x & -> & Hx) | ->]; simpl; [|reflexivity].
  destruct (Qc_eq_bool x 0) eqn:E; [|reflexivity].
  apply Qc_eq_bool_correct in E. now apply Qc_pos_neq0 in Hx.
Qed.

Lemma gt_zero_orElse (a : number) : gt a zero = true -> orElse a zero = a.
Proof.
  intros H. unfold orElse. now rewrite gt_zero_truthy.
Qed.


Lemma positiveOrZero_gt (a : number) :
  gt a zero = true -> Aggregator.positiveOrZero a = a.
Proof.
  intros H. unfold Aggregator.positiveOrZero. now rewrite H.
Qed.

(** A finite sum of positive numbers has finite terms. *)
Lemma add_finite_inv (a b : number) :
  isFinite (a + b)%js = true -> isFinite a = true /\ isFinite b = true.
Proof.
  destruct a, b; simpl; intros H; try discriminate; auto.
Qed.

Lemma eqb_eq (a b : number) : eqb a b = true <-> a = b.
Proof.
  destruct a, b; simpl; split; intros H; try discriminate; try reflexivity.
  - now apply Qc_eq_bool_correct in H as ->.
  - injection H as ->. apply Qc_eq_bool_refl.
Qed.

End NumberFacts.

(** ** The loops of [calculateValues] *)

Section AggregatorFacts.

Import Aggregator Spec.
Local Open Scope list_scope.

Lemma accept_split (h : Holding.t) (sh : Shared) (sg : Segment) :
  accept h (sh, sg) = (acceptShared h sh, acceptSegment h sg).
Proof.
  unfold acceptShared, acceptSegment, accept.
  destruct (finiteChange h); reflexivity.
Qed.

Lemma processEntries_candidates {A : Type} (mk : string -> A -> Holding.t)
  (es : entries A) (st : Shared * Segment) :
  processEntries mk es st
  = fold_left (fun st h => step h st) (candidates mk es) st.
Proof.
  unfold processEntries, candidates. revert st.
  induction es as [|[k [r|]] es IH]; intros st; simpl; auto.
Qed.

Lemma fold_step_filter (hs : list Holding.t) (st : Shared * Segment) :
  fold_left (fun st h => step h st) hs st
  = fold_left (fun st h => accept h st) (filter included hs) st.
Proof.
  revert st. induction hs as [|h hs IH]; intros st; simpl; auto.
  unfold step at 2. destruct (included h); simpl; auto.
Qed.

Lemma fold_accept_split (hs : list Holding.t) (sh : Shared) (sg : Segment) :
  fold_left (fun st h => accept h st) hs (sh, sg)
  = (runShared hs sh, runSegment hs sg).
Proof.
  revert sh sg. induction hs as [|h hs IH]; intros sh sg; [reflexivity|].
  unfold runShared, runSegment. cbn [fold_left].
  rewrite accept_split. apply IH.
Qed.

Lemma processSegment_eq {A : Type} (mk : string -> A -> Holding.t)
  (field : option (entries A)) (sh : Shared) :
  processSegment mk field sh
  = (runShared (includedOf mk field) sh,
     runSegment (includedOf mk field) segment0,
     keyCount field).
Proof.
  unfold processSegment, includedOf, keyCount. destruct field as [es|].
  - now rewrite processEntries_candidates, fold_step_filter, fold_accept_split.
  - reflexivity.
Qed.

Lemma runShared_app (l1 l2 : list Holding.t) (sh : Shared) :
  runShared (l1 ++ l2) sh = runShared l2 (runShared l1 sh).
Proof. apply fold_left_app. Qed.

Lemma runShared_cons (h : Holding.t) (hs : list Holding.t) (sh : Shared) :
  runShared (h :: hs) sh = runShared hs (acceptShared h sh).
Proof. reflexivity. Qed.

Lemma runSegment_cons (h : Holding.t) (hs : list Holding.t) (sg : Segment) :
  runSegment (h :: hs) sg = runSegment hs (acceptSegment h sg).
Proof. reflexivity. Qed.

Lemma acceptSegment_eq (h : Holding.t) (sg : Segment) :
  acceptSegment h sg
  = mkSegment (segmentValue sg + Holding.total_usd h)%js (processed sg ++ [h]).
Proof.
  unfold acceptSegment, accept. destruct (finiteChange h); reflexivity.
Qed.

(** *** One segment *)

Lemma runSegment_processed (hs : list Holding.t) (sg : Segment) :
  processed (runSegment hs sg) = processed sg ++ hs.
Proof.
  revert sg. induction hs as [|h hs IH]; intros sg.
  - now rewrite app_nil_r.
  - rewrite runSegment_cons, IH, acceptSegment_eq. cbn [processed].
    now rewrite <- app_assoc.
Qed.

Lemma runSegment_value (hs : list Holding.t) (sg : Segment) :
  segmentValue (runSegment hs sg) = (segmentValue sg + sum (totals hs))%js.
Proof.
  revert sg. induction hs as [|h hs IH]; intros sg.
  - cbn. now rewrite add_zero_r.
  - rewrite runSegment_cons, IH, acceptSegment_eq.
    cbn [segmentValue totals map sum fold_right].
    now rewrite add_assoc.
Qed.

(** *** The weighted change *)

Lemma acceptShared_change (h : Holding.t) (sh : Shared) :
  totalWeightedChange (acceptShared h sh)
  = (if carriesChange h
     then totalWeightedChange sh + changeOf h * Holding.total_usd h
     else totalWeightedChange sh)%js
  /\ totalValueWithChange (acceptShared h sh)
     = (if carriesChange h
        then totalValueWithChange sh + Holding.total_usd h
        else totalValueWithChange sh)%js.
Proof.
  unfold acceptShared, accept, carriesChange, changeOf.
  destruct (finiteChange h); simpl; auto.
Qed.

Lemma runShared_change (hs : list Holding.t) (sh : Shared) :
  totalWeightedChange (runShared hs sh)
  = (totalWeightedChange sh + sum (weightedChanges (withChange hs)))%js
  /\ totalValueWithChange (runShared hs sh)
     = (totalValueWithChange sh + sum (totals (withChange hs)))%js.
Proof.
  revert sh. induction hs as [|h hs IH]; intros sh.
  - cbn. now rewrite !add_zero_r.
  - rewrite runShared_cons. destruct (IH (acceptShared h sh)) as [E1 E2].
    rewrite E1, E2. destruct (acceptShared_change h sh) as [-> ->].
    unfold withChange. cbn [filter].
    destruct (carriesChange h); [|split; reflexivity].
    cbn [weightedChanges totals map sum fold_right].
    now rewrite !add_assoc.
Qed.

(** *** The value map *)

Lemma bump_cons (k k' : string) (v v' : number) (m : list (string * number)) :
  bump k v ((k', v') :: m)
  = if String.eqb k k' then (k', orElse v' zero + v)%js :: m
    else (k', v') :: bump k v m.
Proof.
  unfold bump, getOrZero. cbn [mapGet mapSet].
  destruct (String.eqb k k'); reflexivity.
Qed.

Lemma bump_nil (k : string) (v : number) : bump k v [] = [(k, zero + v)%js].
Proof. reflexivity. Qed.

Lemma bump_sum (k : string) (v : number) (m : list (string * number)) :
  allPositive (mapValues m) ->
  sum (mapValues (bump k v m)) = (sum (mapValues m) + v)%js.
Proof.
  induction m as [|[k' v'] m IH]; intros Hm.
  - rewrite bump_nil. cbn [mapValues map snd sum fold_right].
    now rewrite add_zero_r.
  - inversion Hm as [|? ? Hv' Hm']; subst. rewrite bump_cons.
    destruct (String.eqb k k'); cbn [mapValues map snd sum fold_right].
    + rewrite (gt_zero_orElse v' Hv').
      now rewrite <- !add_assoc, (add_comm v).
    + fold (mapValues (bump k v m)). fold (mapValues m).
      fold (sum (mapValues (bump k v m))). fold (sum (mapValues m)).
      rewrite (IH Hm'). now rewrite add_assoc.
Qed.

Lemma bump_positive (k : string) (v : number) (m : list (string * number)) :
  gt v zero = true ->
  allPositive (mapValues m) -> allPositive (mapValues (bump k v m)).
Proof.
  intros Hv. induction m as [|[k' v'] m IH]; intros Hm.
  - rewrite bump_nil, add_zero_l. now repeat constructor.
  - inversion Hm as [|? ? Hv' Hm']; subst. rewrite bump_cons.
    destruct (String.eqb k k').
    + constructor; [|assumption].
      rewrite (gt_zero_orElse v' Hv'). now apply gt_zero_add.
    + constructor; [assumption | now apply IH].
Qed.

Lemma acceptShared_assetValues (h : Holding.t) (sh : Shared) :
  assetValues (acceptShared h sh)
  = bump (Holding.symbol h) (Holding.total_usd h) (assetValues sh).
Proof.
  unfold acceptShared, accept. destruct (finiteChange h); reflexivity.
Qed.

Lemma runShared_assetValues (hs : list Holding.t) (sh : Shared) :
  allPositive (totals hs) ->
  allPositive (mapValues (assetValues sh)) ->
  allPositive (mapValues (assetValues (runShared hs sh)))
  /\ sum (mapValues (assetValues (runShared hs sh)))
     = (sum (mapValues (assetValues sh)) + sum (totals hs))%js.
Proof.
  revert sh. induction hs as [|h hs IH]; intros sh Hhs Hsh.
  - cbn. now rewrite add_zero_r.
  - inversion Hhs as [|? ? Hh Hhs']; subst.
    rewrite runShared_cons.
    destruct (IH (acceptShared h sh) Hhs') as [P E].
    + rewrite acceptShared_assetValues. now apply bump_positive.
    + split; [exact P|]. rewrite E, acceptShared_assetValues.
      rewrite bump_sum by assumption.
      cbn [totals map sum fold_right]. now rewrite add_assoc.
Qed.

Lemma included_total_positive (h : Holding.t) :
  included h = true -> gt (Holding.total_usd h) zero = true.
Proof.
  unfold included. intros H. now apply andb_true_iff in H as [_ H].
Qed.

Lemma includedOf_positive {A : Type} (mk : string -> A -> Holding.t)
  (field : option (entries A)) :
  allPositive (totals (includedOf mk field)).
Proof.
  unfold allPositive, totals, includedOf. apply Forall_map, Forall_forall.
  destruct field as [es|]; [|intros ? []].
  intros h Hh. apply filter_In in Hh as [_ Hh].
  now apply included_total_positive.
Qed.

Lemma includedOf_included {A : Type} (mk : string -> A -> Holding.t)
  (field : option (entries A)) :
  Forall (fun h => included h = true) (includedOf mk field).
Proof.
  unfold includedOf. apply Forall_forall.
  destruct field as [es|]; [|intros ? []].
  intros h Hh. now apply filter_In in Hh as [_ Hh].
Qed.

Lemma includedHoldings_included (data : PortfolioApiData.t) :
  Forall (fun h => included h = true) (includedHoldings data).
Proof.
  unfold includedHoldings. rewrite !Forall_app.
  repeat split; apply includedOf_included.
Qed.

Lemma includedHoldings_positive (data : PortfolioApiData.t) :
  allPositive (totals (includedHoldings data)).
Proof.
  unfold allPositive, totals. apply Forall_map.
  eapply Forall_impl; [|apply includedHoldings_included].
  intros h. apply included_total_positive.
Qed.

(** *** [calculateValues] in closed form *)

Lemma runSegment0_value (hs : list Holding.t) :
  segmentValue (runSegment hs segment0) = sum (totals hs).
Proof. rewrite runSegment_value. apply add_zero_l. Qed.

Lemma runSegment0_processed (hs : list Holding.t) :
  processed (runSegment hs segment0) = hs.
Proof. now rewrite runSegment_processed. Qed.

Lemma calculateValues_eq (data : PortfolioApiData.t) :
  calculateValues data =
  let fs := finalShared data in
  let T := (sum (totals (includedSpot data))
            + sum (totals (includedMargin data))
            + sum (totals (includedFutures data)))%js in
  mkCalculated T
    (sum (totals (includedSpot data)))
    (sum (totals (includedMargin data)))
    (sum (totals (includedFutures data)))
    (List.length (uniqueAssets fs))
    (sort byValueDesc
       (if gt T zero then allocationOf T (assetValues fs) else []))
    (sort byValueDesc
       (if gt T zero then allocationOf T (sectorValuesOf (assetValues fs))
        else []))
    (keyCount (PortfolioApiData.spot_holdings data))
    (keyCount (PortfolioApiData.margin_holdings data))
    (keyCount (PortfolioApiData.futures_holdings data))
    (if gt (totalValueWithChange fs) zero
     then (totalWeightedChange fs / totalValueWithChange fs)%js else zero)
    (includedSpot data) (includedMargin data) (includedFutures data).
Proof.
  unfold calculateValues.
  rewrite processSegment_eq. cbv beta iota zeta.
  rewrite processSegment_eq. cbv beta iota zeta.
  rewrite processSegment_eq. cbv beta iota zeta.
  rewrite !runSegment0_value, !runSegment0_processed.
  rewrite <- !runShared_app.
  fold (includedSpot data) (includedMargin data) (includedFutures data).
  fold (includedHoldings data). fold (finalShared data).
  destruct (gt _ zero); reflexivity.
Qed.

End AggregatorFacts.

(** ** Sorting and sums *)

Section SortFacts.

Import Aggregator Spec.
Local Open Scope list_scope.

Lemma sum_app (l1 l2 : list number) :
  sum (l1 ++ l2) = (sum l1 + sum l2)%js.
Proof.
  induction l1 as [|a l1 IH]; cbn [app sum fold_right].
  - now rewrite add_zero_l.
  - fold (sum (l1 ++ l2)). fold (sum l1). now rewrite IH, add_assoc.
Qed.

Lemma sum_cons (a : number) (l : list number) :
  sum (a :: l) = (a + sum l)%js.
Proof. reflexivity. Qed.


Lemma sum_positive (l : list number) :
  allPositive l -> l <> [] -> gt (sum l) zero = true.
Proof.
  induction 1 as [|a l Ha Hl IH]; intros Hne; [congruence|].
  rewrite sum_cons. destruct l as [|b l].
  - cbn [sum fold_right]. now rewrite add_zero_r.
  - apply gt_zero_add; [assumption|]. apply IH. discriminate.
Qed.

(** A sum of positive numbers is [0] or positive. *)
Lemma sum_positive_cases (l : list number) :
  allPositive l ->
  (l = [] /\ sum l = zero) \/ (l <> [] /\ gt (sum l) zero = true).
Proof.
  intros H. destruct l as [|a l].
  - left. split; reflexivity.
  - right. split; [discriminate|]. apply sum_positive; [assumption|discriminate].
Qed.

(** *** The comparator of the allocation lists *)

Lemma gt_sub_lt (a b : number) : gt (b - a)%js zero = lt a b.
Proof.
  unfold gt, sub, zero.
  destruct a as [x| | |], b as [y| | |]; cbn [neg add lt]; try reflexivity.
  destruct (Qc_ltb x y) eqn:E.
  - apply Qc_ltb_lt. apply Qc_ltb_lt in E.
    exact (proj1 (Qclt_minus_iff x y) E).
  - destruct (Qc_ltb 0 (y + - x)) eqn:E'; [|reflexivity].
    apply Qc_ltb_lt in E'. apply (proj2 (Qclt_minus_iff x y)) in E'.
    apply Qc_ltb_lt in E'. congruence.
Qed.

Lemma lt_asym (a b : number) : lt a b = true -> lt b a = false.
Proof.
  destruct a as [x| | |], b as [y| | |]; cbn [lt]; try congruence.
  intros H. apply Qc_ltb_lt in H.
  destruct (Qc_ltb y x) eqn:E; [|reflexivity].
  apply Qc_ltb_lt in E. exfalso. revert E.
  now apply Qcle_not_lt, Qclt_le_weak.
Qed.

Lemma lt_false_trans (a b c : number) :
  isNaN b = false -> lt a b = false -> lt b c = false -> lt a c = false.
Proof.
  destruct a as [x| | |], b as [y| | |], c as [z| | |]; cbn [lt isNaN];
    try congruence.
  intros _ H1 H2.
  destruct (Qc_ltb x z) eqn:E; [|reflexivity].
  apply Qc_ltb_lt in E. exfalso.
  assert (Hyx : (y <= x)%Qc).
  { apply Qcnot_lt_le. intros H. apply Qc_ltb_lt in H. congruence. }
  assert (Hzy : (z <= y)%Qc).
  { apply Qcnot_lt_le. intros H. apply Qc_ltb_lt in H. congruence. }
  revert E. apply Qcle_not_lt. now apply Qcle_trans with (y := y).
Qed.


(** *** [sort] *)

Lemma insertSorted_perm {A : Type} (cmp : A -> A -> number) (x : A)
  (l : list A) : Permutation (insertSorted cmp x l) (x :: l).
Proof.
  induction l as [|y l IH]; cbn [insertSorted]; [reflexivity|].
  destruct (gt (cmp x y) zero); [|reflexivity].
  rewrite IH. apply perm_swap.
Qed.

Lemma sort_perm {A : Type} (cmp : A -> A -> number) (l : list A) :
  Permutation (sort cmp l) l.
Proof.
  induction l as [|x l IH]; [reflexivity|].
  unfold sort. cbn [fold_right]. fold (sort cmp l).
  rewrite insertSorted_perm. now constructor.
Qed.

Lemma insertSorted_sorted (x : AssetAllocation.t) (l : list AssetAllocation.t) :
  Forall valueNotNaN l ->
  sortedDescending l -> sortedDescending (insertSorted byValueDesc x l).
Proof.
  unfold sortedDescending.
  induction l as [|y l IH]; intros Hn Hs; cbn [insertSorted].
  - repeat constructor.
  - inversion Hn as [|? ? Hy Hn']; subst.
    apply StronglySorted_inv in Hs as [Hs Hy'].
    unfold byValueDesc at 1. rewrite gt_sub_lt.
    destruct (lt (AssetAllocation.value x) (AssetAllocation.value y)) eqn:E.
    + constructor; [now apply IH|].
      eapply Permutation_Forall.
      * symmetry. apply insertSorted_perm.
      * constructor; [now apply lt_asym | assumption].
    + constructor; [now constructor|].
      constructor; [assumption|].
      eapply Forall_impl; [|exact Hy'].
      intros z Hz. now apply lt_false_trans with (b := AssetAllocation.value y).
Qed.

Lemma sort_sorted (l : list AssetAllocation.t) :
  Forall valueNotNaN l -> sortedDescending (sort byValueDesc l).
Proof.
  induction l as [|x l IH]; intros Hn.
  - constructor.
  - inversion Hn as [|? ? Hx Hn']; subst.
    unfold sort. cbn [fold_right]. fold (sort byValueDesc l).
    apply insertSorted_sorted; [|now apply IH].
    eapply Permutation_Forall; [|exact Hn'].
    symmetry. apply sort_perm.
Qed.

Lemma values_sort (l : list AssetAllocation.t) :
  Permutation (values (sort byValueDesc l)) (values l).
Proof. apply Permutation_map, sort_perm. Qed.

(** *** [allocationOf] on a map of positive values *)

Lemma allocationOf_positive (T : number) (m : list (string * number)) :
  allPositive (mapValues m) ->
  allocationOf T m
  = map (fun kv => AssetAllocation.mk (fst kv) (snd kv)
                     (snd kv / T * ofZ 100)%js) m.
Proof.
  unfold allocationOf.
  induction m as [|[k v] m IH]; intros Hm; [reflexivity|].
  inversion Hm as [|? ? Hv Hm']; subst.
  cbn [flat_map map fst snd]. cbn [snd] in Hv. rewrite Hv.
  cbn [app]. now rewrite IH.
Qed.

Lemma allocationOf_values (T : number) (m : list (string * number)) :
  allPositive (mapValues m) -> values (allocationOf T m) = mapValues m.
Proof.
  intros Hm. rewrite allocationOf_positive by assumption.
  unfold values, mapValues. rewrite map_map. reflexivity.
Qed.

Lemma allocationOf_percentages (T : number) (m : list (string * number)) :
  allPositive (mapValues m) ->
  percentages (allocationOf T m)
  = map (fun v => (v / T * ofZ 100)%js) (mapValues m).
Proof.
  intros Hm. rewrite allocationOf_positive by assumption.
  unfold percentages, mapValues. rewrite !map_map. reflexivity.
Qed.

(** *** [sectorValuesOf] keeps the total *)

Lemma sectorValues_fold (m acc : list (string * number)) :
  allPositive (mapValues m) ->
  allPositive (mapValues acc) ->
  let sv :=
    fold_left
      (fun sv kv =>
         if gt (snd kv) zero then bump (mapAssetToSector (fst kv)) (snd kv) sv
         else sv)
      m acc in
  allPositive (mapValues sv)
  /\ sum (mapValues sv) = (sum (mapValues acc) + sum (mapValues m))%js.
Proof.
  revert acc. induction m as [|[k v] m IH]; intros acc Hm Hacc.
  - cbn. now rewrite add_zero_r.
  - inversion Hm as [|? ? Hv Hm']; subst. cbn [snd] in Hv.
    cbn [fold_left fst snd]. rewrite Hv.
    destruct (IH (bump (mapAssetToSector k) v acc) Hm') as [P E].
    + now apply bump_positive.
    + split; [exact P|]. cbv zeta in E. rewrite E.
      rewrite bump_sum by assumption.
      cbn [mapValues map snd]. fold (mapValues m).
      rewrite sum_cons. now rewrite add_assoc.
Qed.

Lemma sectorValuesOf_sum (m : list (string * number)) :
  allPositive (mapValues m) ->
  allPositive (mapValues (sectorValuesOf m))
  /\ sum (mapValues (sectorValuesOf m)) = sum (mapValues m).
Proof.
  intros Hm. destruct (sectorValues_fold m [] Hm) as [P E]; [constructor|].
  split; [exact P|]. unfold sectorValuesOf. cbv zeta in E. rewrite E.
  apply add_zero_l.
Qed.

End SortFacts.

(** ** The snapshot of a successful fetch *)

Section SnapshotFacts.

Import Aggregator Spec.
Local Open Scope list_scope.

Lemma totals_app (l1 l2 : list Holding.t) :
  totals (l1 ++ l2) = totals l1 ++ totals l2.
Proof. apply map_app. Qed.

(** [calculatedTotalValue] is the sum over all included holdings. *)
Lemma total_eq_sum (data : PortfolioApiData.t) :
  (sum (totals (includedSpot data)) + sum (totals (includedMargin data))
   + sum (totals (includedFutures data)))%js
  = sum (totals (includedHoldings data)).
Proof.
  unfold includedHoldings. now rewrite !totals_app, !sum_app, add_assoc.
Qed.

Lemma finalShared_assetValues (data : PortfolioApiData.t) :
  allPositive (mapValues (assetValues (finalShared data)))
  /\ sum (mapValues (assetValues (finalShared data)))
     = sum (totals (includedHoldings data)).
Proof.
  destruct (runShared_assetValues (includedHoldings data) shared0) as [P E].
  - apply includedHoldings_positive.
  - constructor.
  - split; [exact P|]. unfold finalShared. rewrite E. apply add_zero_l.
Qed.

Lemma finalShared_change (data : PortfolioApiData.t) :
  totalWeightedChange (finalShared data)
  = sum (weightedChanges (withChange (includedHoldings data)))
  /\ totalValueWithChange (finalShared data)
     = sum (totals (withChange (includedHoldings data))).
Proof.
  destruct (runShared_change (includedHoldings data) shared0) as [E1 E2].
  unfold finalShared. rewrite E1, E2. cbn [shared0 totalWeightedChange
    totalValueWithChange]. now rewrite !add_zero_l.
Qed.

Lemma positiveOrZero_sum (l : list number) :
  allPositive l -> positiveOrZero (sum l) = sum l.
Proof.
  intros H. destruct (sum_positive_cases l H) as [[_ E] | [_ E]].
  - now rewrite E.
  - now apply positiveOrZero_gt.
Qed.

Lemma includedSegments_positive (data : PortfolioApiData.t) :
  allPositive (totals (includedSpot data))
  /\ allPositive (totals (includedMargin data))
  /\ allPositive (totals (includedFutures data)).
Proof. repeat split; apply includedOf_positive. Qed.

(** The fields of the snapshot, in closed form. *)
Lemma snapshot_total_value (data : PortfolioApiData.t) (now : string) :
  PortfolioData.total_value (aggregate data now)
  = sum (totals (includedHoldings data)).
Proof.
  unfold aggregate. rewrite calculateValues_eq. cbn.
  rewrite total_eq_sum. apply positiveOrZero_sum, includedHoldings_positive.
Qed.

Lemma snapshot_segment_values (data : PortfolioApiData.t) (now : string) :
  PortfolioData.spot_value (aggregate data now)
  = sum (totals (includedSpot data))
  /\ PortfolioData.margin_value (aggregate data now)
     = sum (totals (includedMargin data))
  /\ PortfolioData.futures_value (aggregate data now)
     = sum (totals (includedFutures data)).
Proof.
  unfold aggregate. rewrite calculateValues_eq. cbn.
  destruct (includedSegments_positive data) as (Hs & Hm & Hf).
  now rewrite !positiveOrZero_sum.
Qed.

Lemma snapshot_asset_allocation (data : PortfolioApiData.t) (now : string) :
  let T := sum (totals (includedHoldings data)) in
  allocation (PortfolioData.asset_allocation (aggregate data now))
  = sort byValueDesc
      (if gt T zero then allocationOf T (assetValues (finalShared data))
       else []).
Proof.
  unfold aggregate. rewrite calculateValues_eq. cbn.
  now rewrite total_eq_sum.
Qed.

Lemma snapshot_sector_allocation (data : PortfolioApiData.t) (now : string) :
  let T := sum (totals (includedHoldings data)) in
  allocation (PortfolioData.sector_allocation (aggregate data now))
  = sort byValueDesc
      (if gt T zero
       then allocationOf T (sectorValuesOf (assetValues (finalShared data)))
       else []).
Proof.
  unfold aggregate. rewrite calculateValues_eq. cbn.
  now rewrite total_eq_sum.
Qed.

Lemma snapshot_change (data : PortfolioApiData.t) (now : string) :
  let hs := withChange (includedHoldings data) in
  let average :=
    if gt (sum (totals hs)) zero
    then (sum (weightedChanges hs) / sum (totals hs))%js else zero in
  PortfolioData.change_24h (aggregate data now)
  = if isFinite average then average else apiChange data.
Proof.
  unfold aggregate. rewrite calculateValues_eq. cbn.
  destruct (finalShared_change data) as [-> ->].
  unfold apiChange, toNumber.
  destruct (isFinite _); [reflexivity|].
  destruct (PortfolioApiData.change_24h data) as [c|]; reflexivity.
Qed.

End SnapshotFacts.

(** ** Finite numbers and allocation lists *)

Section AllocationClaims.

Import Aggregator Spec.
Local Open Scope list_scope.

Lemma div_fin (x y : Qc) :
  y <> 0%Qc -> (Fin x / Fin y)%js = Fin (x / y)%Qc.
Proof.
  intros Hy. cbn [div]. destruct (Qc_eq_bool y 0) eqn:E; [|reflexivity].
  now apply Qc_eq_bool_correct in E.
Qed.

Lemma finite_cases (v : number) : isFinite v = true -> exists q, v = Fin q.
Proof. destruct v; try discriminate. intros _. now exists q. Qed.

Lemma sum_finite (l : list number) :
  Forall (fun v => isFinite v = true) l -> exists q, sum l = Fin q.
Proof.
  induction 1 as [|a l Ha _ [s IH]].
  - now exists 0%Qc.
  - apply finite_cases in Ha as [x ->]. rewrite sum_cons, IH.
    now exists (x + s)%Qc.
Qed.

End AllocationClaims.

(** ** The portfolio-level 24h change *)

Section ChangeClaims.

Import Aggregator Spec.
Local Open Scope list_scope.



End ChangeClaims.

(** ** Excluded records *)

Section ExclusionClaims.

Import Aggregator Spec.
Local Open Scope list_scope.

Lemma candidates_app {A : Type} (mk : string -> A -> Holding.t)
  (l1 l2 : entries A) :
  candidates mk (l1 ++ l2) = candidates mk l1 ++ candidates mk l2.
Proof. apply flat_map_app. Qed.

Lemma includedOf_remove {A : Type} (mk : string -> A -> Holding.t)
  (l1 l2 : entries A) (e : string * option A) :
  excluded mk e = true ->
  includedOf mk (Some (l1 ++ e :: l2)) = includedOf mk (Some (l1 ++ l2)).
Proof.
  intros He. unfold includedOf.
  rewrite !candidates_app, !filter_app. f_equal.
  change (e :: l2) with ([e] ++ l2). rewrite candidates_app, filter_app.
  unfold excluded in He. unfold candidates at 1. cbn [flat_map].
  destruct e as [k [r|]]; cbn [fst snd] in *; [|reflexivity].
  cbn [app filter]. apply negb_true_iff in He. now rewrite He.
Qed.

(** A record whose amount coerces to [0] does not pass the guard. *)
Lemma zero_amount_not_included (h : Holding.t) :
  Holding.amount h = zero -> included h = false.
Proof.
  intros E. unfold included. now rewrite E.
Qed.

Lemma removeExcluded_included (data data' : PortfolioApiData.t) :
  removeExcluded data data' ->
  includedSpot data = includedSpot data'
  /\ includedMargin data = includedMargin data'
  /\ includedFutures data = includedFutures data'
  /\ PortfolioApiData.change_24h data = PortfolioApiData.change_24h data'.
Proof.
  unfold includedSpot, includedMargin, includedFutures.
  destruct 1; cbn [PortfolioApiData.spot_holdings
    PortfolioApiData.margin_holdings PortfolioApiData.futures_holdings
    PortfolioApiData.change_24h];
    rewrite includedOf_remove by assumption; auto.
Qed.

Lemma sameAggregates_snapshot (data data' : PortfolioApiData.t) (now : string) :
  sameAggregates (calculateValues data) (calculateValues data') ->
  PortfolioApiData.change_24h data = PortfolioApiData.change_24h data' ->
  sameSnapshotValues (aggregate data now) (aggregate data' now).
Proof.
  intros (E1 & E2 & E3 & E4 & _ & E6 & E7 & E8 & _) Ec.
  unfold sameSnapshotValues, aggregate, validatedData.
  cbn [PortfolioData.total_value PortfolioData.change_24h
       PortfolioData.spot_value PortfolioData.margin_value
       PortfolioData.futures_value PortfolioData.asset_allocation
       PortfolioData.sector_allocation PortfolioData.last_updated].
  rewrite E1, E2, E3, E4, E6, E7, E8, Ec. repeat split; reflexivity.
Qed.

Lemma sameSnapshotValues_NaNFree (a b : PortfolioData.t) :
  sameSnapshotValues a b -> snapshotNaNFree a = snapshotNaNFree b.
Proof.
  intros (E1 & E2 & E3 & E4 & E5 & E6 & E7 & _).
  unfold snapshotNaNFree. now rewrite E1, E2, E3, E4, E5, E6, E7.
Qed.

(** C8.  A record that is skipped (not an object, or rejected by the
    guard [amount > 0], [amount] and [price_usd] finite, [total_usd > 0])
    contributes nothing: with it or without it, [calculateValues] returns
    the same total, segment values, count of unique symbols, allocations,
    weighted change and processed lists, the snapshots agree on every
    value, and so one is free of [NaN] exactly when the other is. *)
Theorem excluded_record_contributes_nothing
  (data data' : PortfolioApiData.t) (now : string) :
  removeExcluded data data' ->
  sameAggregates (calculateValues data) (calculateValues data')
  /\ sameSnapshotValues (aggregate data now) (aggregate data' now)
  /\ snapshotNaNFree (aggregate data now)
     = snapshotNaNFree (aggregate data' now).
Proof.
  intros H. destruct (removeExcluded_included data data' H) as (Es & Em & Ef & Ec).
  assert (S : sameAggregates (calculateValues data) (calculateValues data')).
  { rewrite !calculateValues_eq. cbv zeta. unfold finalShared, includedHoldings.
    rewrite Es, Em, Ef. unfold sameAggregates.
    cbn [totalValue spotValue marginValue futuresValue uniqueAssetCount
         assetAllocation sectorAllocation averageChange
         processedSpotHoldings processedMarginHoldings
         processedFuturesHoldings].
    repeat split; reflexivity. }
  pose proof (sameAggregates_snapshot data data' now S Ec) as V.
  split; [exact S|]. split; [exact V|].
  now apply sameSnapshotValues_NaNFree.
Qed.

(** When nothing passes the guard, the snapshot is all zeros: no [NaN]. *)
Lemma nothing_included_snapshot (data : PortfolioApiData.t) (now : string) :
  includedHoldings data = [] ->
  let s := aggregate data now in
  PortfolioData.total_value s = zero
  /\ PortfolioData.change_24h s = zero
  /\ PortfolioData.spot_value s = zero
  /\ PortfolioData.margin_value s = zero
  /\ PortfolioData.futures_value s = zero
  /\ PortfolioData.asset_allocation s = Some []
  /\ PortfolioData.sector_allocation s = Some []
  /\ snapshotNaNFree s = true.
Proof.
  intros E. cbv zeta.
  assert (E' := E). unfold includedHoldings in E'.
  apply app_eq_nil in E' as [Es E']. apply app_eq_nil in E' as [Em Ef].
  unfold aggregate. rewrite calculateValues_eq. cbv zeta.
  unfold finalShared. rewrite E, Es, Em, Ef. cbn. repeat split; reflexivity.
Qed.

End ExclusionClaims.

(** ** Symbols of record keys *)

Section KeyClaims.

Import Keys Spec.
Local Open Scope string_scope.

Lemma split_not_nil (sep : ascii) (s : string) : split sep s <> [].
Proof.
  destruct s as [|c r]; cbn [split]; [discriminate|].
  destruct (Ascii.eqb c sep); [discriminate|].
  destruct (split sep r); discriminate.
Qed.

Lemma symbolOfKey_cons (c : ascii) (r : string) :
  symbolOfKey (String c r)
  = if Ascii.eqb c "_" then "" else String c (symbolOfKey r).
Proof.
  unfold symbolOfKey. cbn [split].
  destruct (Ascii.eqb c "_"); [reflexivity|].
  pose proof (split_not_nil "_" r) as H.
  destruct (split "_" r); [contradiction | reflexivity].
Qed.

Lemma symbolOfKey_prefix (key : string) :
  exists rest,
    key = symbolOfKey key ++ rest
    /\ (rest = "" \/ exists r, rest = String "_" r).
Proof.
  induction key as [|c r (rest & E & H)].
  - exists "". split; [reflexivity | now left].
  - rewrite symbolOfKey_cons. destruct (Ascii.eqb c "_") eqn:Ec.
    + apply Ascii.eqb_eq in Ec as ->. exists (String "_" r).
      split; [reflexivity | right; now exists r].
    + exists rest. split; [|exact H]. cbn [append]. now rewrite <- E.
Qed.

Lemma symbolOfKey_no_underscore (key : string) (n : nat) :
  String.get n (symbolOfKey key) <> Some "_"%char.
Proof.
  revert n. induction key as [|c r IH]; intros n.
  - destruct n; discriminate.
  - rewrite symbolOfKey_cons. destruct (Ascii.eqb c "_") eqn:Ec.
    + destruct n; discriminate.
    + destruct n as [|n]; cbn [String.get].
      * intros E. injection E as ->. now rewrite Ascii.eqb_refl in Ec.
      * apply IH.
Qed.

Lemma replaceFirst_unfold (pat rep s : string) :
  replaceFirst pat rep s
  = if prefix pat s then rep ++ dropStr (String.length pat) s
    else match s with
         | EmptyString => EmptyString
         | String c r => String c (replaceFirst pat rep r)
         end.
Proof. destruct s; reflexivity. Qed.

Lemma indexOf_unfold (pat s : string) :
  indexOf pat s
  = if prefix pat s then Some 0
    else match s with
         | EmptyString => None
         | String _ r => option_map S (indexOf pat r)
         end.
Proof. destruct s; reflexivity. Qed.

(** [replace(pat, '')] removes the occurrence [indexOf] finds. *)
Lemma replaceFirst_indexOf (pat s : string) :
  replaceFirst pat "" s
  = match indexOf pat s with
    | Some n => takeStr n s ++ dropStr (n + String.length pat) s
    | None => s
    end.
Proof.
  induction s as [|c r IH]; rewrite replaceFirst_unfold, indexOf_unfold;
    destruct (prefix pat _) eqn:P; try reflexivity.
  rewrite IH. destruct (indexOf pat r) as [n|]; reflexivity.
Qed.

(** [indexOf] finds the first occurrence, if there is one. *)
Lemma indexOf_first (pat s : string) :
  match indexOf pat s with
  | Some n => occursAt pat s n /\ forall m, m < n -> ~ occursAt pat s m
  | None => forall n, ~ occursAt pat s n
  end.
Proof.
  unfold occursAt.
  induction s as [|c r IH]; rewrite indexOf_unfold;
    destruct (prefix pat _) eqn:P.
  - split; [split; [apply Nat.le_refl | exact P] | intros m Hm; lia].
  - intros n [Hn H]. cbn in Hn. assert (n = 0) as -> by lia.
    cbn [dropStr] in H. congruence.
  - split; [split; [apply Nat.le_0_l | exact P] | intros m Hm; lia].
  - destruct (indexOf pat r) as [n|]; cbn [option_map].
    + destruct IH as [[Hn Ho] Hfirst]. split.
      * split; [cbn; lia | exact Ho].
      * intros [|m] Hm [Hle H].
        -- cbn [dropStr] in H. congruence.
        -- apply (Hfirst m); [lia|]. split; [cbn in Hle; lia | exact H].
    + intros [|n] [Hle H].
      * cbn [dropStr] in H. congruence.
      * apply (IH n). split; [cbn in Hle; lia | exact H].
Qed.

(** C4, as the code has it.  The symbol of a key is the part of the key
    before its first underscore (the whole key when it has none); for a
    futures record the first occurrence of ["USDT"] in that part, wherever
    it is, is removed, and a part without ["USDT"] is left unchanged. *)
Theorem symbol_of_key (key : string) :
  let s := symbolOfKey key in
  (exists rest,
     key = s ++ rest /\ (rest = "" \/ exists r, rest = String "_" r))
  /\ (forall n, String.get n s <> Some "_"%char)
  /\ futuresSymbolOfKey key
     = match indexOf "USDT" s with
       | Some n => takeStr n s ++ dropStr (n + 4) s
       | None => s
       end
  /\ match indexOf "USDT" s with
     | Some n =>
         occursAt "USDT" s n /\ forall m, m < n -> ~ occursAt "USDT" s m
     | None => forall n, ~ occursAt "USDT" s n
     end.
Proof.
  cbv zeta. split; [apply symbolOfKey_prefix|].
  split; [apply symbolOfKey_no_underscore|].
  split; [apply replaceFirst_indexOf | apply indexOf_first].
Qed.

End KeyClaims.

(** *** Where the code agrees with the suffix rule *)

Section SuffixRule.

Import Keys Spec.
Local Open Scope string_scope.

Lemma prefix_same (s : string) : prefix s s = true.
Proof.
  induction s as [|c r IH]; [reflexivity|].
  cbn [prefix]. destruct (ascii_dec c c); [exact IH | contradiction].
Qed.

Lemma prefix_same_length (pat s : string) :
  prefix pat s = true -> String.length s = String.length pat -> s = pat.
Proof.
  revert s. induction pat as [|c p IH]; intros [|d r]; cbn; try congruence.
  destruct (ascii_dec c d) as [->|]; [|discriminate].
  intros P L. f_equal. apply IH; [exact P | lia].
Qed.

Lemma stripSuffix_unfold (suf s : string) :
  stripSuffix suf s
  = if String.eqb s suf then EmptyString
    else match s with
         | EmptyString => EmptyString
         | String c r => String c (stripSuffix suf r)
         end.
Proof. destruct s; reflexivity. Qed.

Lemma eqb_prefix (pat s : string) :
  String.eqb s pat = true -> prefix pat s = true.
Proof.
  intros E. apply String.eqb_eq in E as ->. apply prefix_same.
Qed.

Lemma stripSuffix_absent (pat s : string) :
  indexOf pat s = None -> stripSuffix pat s = s.
Proof.
  induction s as [|c r IH]; rewrite indexOf_unfold, stripSuffix_unfold;
    destruct (prefix pat _) eqn:P; try discriminate.
  - intros _. now destruct (String.eqb "" pat).
  - destruct (String.eqb (String c r) pat) eqn:E.
    + apply eqb_prefix in E. congruence.
    + destruct (indexOf pat r); [discriminate|].
      intros _. now rewrite IH.
Qed.

Lemma stripSuffix_trailing (pat s : string) (n : nat) :
  indexOf pat s = Some n ->
  n + String.length pat = String.length s ->
  stripSuffix pat s = takeStr n s
  /\ dropStr (n + String.length pat) s = "".
Proof.
  revert n. induction s as [|c r IH]; intros n;
    rewrite indexOf_unfold, stripSuffix_unfold;
    destruct (prefix pat _) eqn:P; try discriminate.
  - intros E L. injection E as <-. cbn in L.
    destruct pat; [|discriminate]. split; reflexivity.
  - intros E L. injection E as <-. cbn [Nat.add] in L.
    symmetry in L. rewrite (prefix_same_length _ _ P L).
    rewrite String.eqb_refl. split; [reflexivity|].
    cbn [Nat.add]. clear. induction pat; [reflexivity | assumption].
  - destruct (indexOf pat r) as [m|] eqn:I; [|discriminate].
    intros E L. injection E as <-. cbn in L.
    destruct (IH m eq_refl) as [E1 E2]; [lia|].
    destruct (String.eqb (String c r) pat) eqn:E.
    + apply eqb_prefix in E. congruence.
    + cbn [takeStr Nat.add dropStr]. now rewrite E1, E2.
Qed.

(** When ["USDT"] does not occur in the symbol, or occurs first as its
    last four characters, removing the first occurrence is stripping the
    trailing suffix. *)
Lemma futures_symbol_suffix_rule (key : string) :
  let s := symbolOfKey key in
  (indexOf "USDT" s = None
   \/ exists n, indexOf "USDT" s = Some n /\ n + 4 = String.length s) ->
  futuresSymbolOfKey key = stripSuffix "USDT" s.
Proof.
  cbv zeta. unfold futuresSymbolOfKey. rewrite replaceFirst_indexOf.
  intros [E | (n & E & L)]; rewrite E.
  - now rewrite stripSuffix_absent.
  - destruct (stripSuffix_trailing "USDT" _ n E L) as [-> ->].
    clear. induction (takeStr n (symbolOfKey key)); cbn; congruence.
Qed.

End SuffixRule.

(** ** Formatters *)

Section FormatterClaims.

Import Formatter Spec.
Local Open Scope string_scope.

(** C9, as the code has it.  The quantity formatter asks for 2 fraction
    digits when the value itself (not its absolute value) is at least
    [0.1] and for 6 otherwise, so for every negative value; the currency,
    percentage and quantity formatters map [NaN] and the infinities to
    ["$0.00"], to ["-"] (table) or ["0.00%"] (page), and to ["0"]; the
    date formatter maps [NaN] and a missing timestamp to the empty string
    and an infinite timestamp to the text of an invalid date.  All are
    total functions. *)
Theorem formatter_digits_and_defaults (q : Qc) (v : number) :
  ((Q2Qc (1 # 10) <= q)%Qc ->
   fractionDigits (HoldingsTable.formatNumber (Fin q)) = Some (2, 2))
  /\ ((q < Q2Qc (1 # 10))%Qc ->
      fractionDigits (HoldingsTable.formatNumber (Fin q)) = Some (6, 6))
  /\ (isFinite v = false ->
      HoldingsTable.formatCurrency v = Text "$0.00"
      /\ Page.formatCurrency v = Text "$0.00"
      /\ HoldingsTable.formatPercentage (Some v) = Text "-"
      /\ Page.formatPercentage v = Text "0.00%"
      /\ HoldingsTable.formatNumber v = Text "0")
  /\ HoldingsTable.formatPercentage None = Text "-"
  /\ HoldingsTable.formatDate None = Text ""
  /\ HoldingsTable.formatDate (Some NaN) = Text ""
  /\ HoldingsTable.formatDate (Some PosInf) = Text "Invalid Date"
  /\ HoldingsTable.formatDate (Some NegInf) = Text "Invalid Date".
Proof.
  split; [|split; [|split]].
  - intros H. unfold HoldingsTable.formatNumber, HoldingsTable.formatNumberWith.
    cbn [isFinite negb lt ofFrac].
    destruct (Qc_ltb q (Q2Qc (1 # 10))) eqn:E; [|reflexivity].
    apply Qc_ltb_lt in E. exfalso. revert E. now apply Qcle_not_lt.
  - intros H. unfold HoldingsTable.formatNumber, HoldingsTable.formatNumberWith.
    cbn [isFinite negb lt ofFrac].
    apply Qc_ltb_lt in H. now rewrite H.
  - intros H.
    unfold HoldingsTable.formatCurrency, Page.formatCurrency,
      HoldingsTable.formatPercentage, Page.formatPercentage,
      HoldingsTable.formatNumber, HoldingsTable.formatNumberWith.
    rewrite H. cbn [negb]. repeat split; reflexivity.
  - repeat split; reflexivity.
Qed.

End FormatterClaims.

(** ** Cache and refresh controller *)

Section RefreshClaims.

Import Store CacheStore Controller Spec.
Local Open Scope string_scope.

(** After [saveDataToCache(s, a, b, c)] on a working storage,
    [loadCachedData] installs [a], [b], [c] and the snapshot [s] with
    [last_updated] rewritten by [markCached], and returns [true].  (The
    function returns no storage: loading writes nothing back.) *)
Lemma load_after_save (rt : Runtime.t) (s : PortfolioData.t)
  (a b c : list Holding.t) (sto : Storage) (st : State) :
  available sto = true ->
  loadCachedData rt (saveDataToCache s a b c sto) st
  = (mkState (markCached rt s) a b c (isLoading st) (isRefreshing st)
       (error st), true).
Proof.
  intros H. unfold saveDataToCache. rewrite H. reflexivity.
Qed.

Lemma markCached_fields (rt : Runtime.t) (d : PortfolioData.t) :
  let d' := markCached rt d in
  PortfolioData.total_value d' = PortfolioData.total_value d
  /\ PortfolioData.change_24h d' = PortfolioData.change_24h d
  /\ PortfolioData.holdings_count d' = PortfolioData.holdings_count d
  /\ PortfolioData.spot_value d' = PortfolioData.spot_value d
  /\ PortfolioData.margin_value d' = PortfolioData.margin_value d
  /\ PortfolioData.futures_value d' = PortfolioData.futures_value d
  /\ PortfolioData.asset_allocation d' = PortfolioData.asset_allocation d
  /\ PortfolioData.sector_allocation d' = PortfolioData.sector_allocation d
  /\ PortfolioData.last_updated d'
     = Runtime.toLocaleTimeString rt
         (Runtime.dateParse rt (PortfolioData.last_updated d))
       ++ " (cached)".
Proof. cbv zeta. repeat split; reflexivity. Qed.

(** C5, at the snapshot a fetch at 10:15:30 stores.  On a runtime whose
    [Date] does not parse the time text ["10:15:30 AM"], loading what was
    just saved yields the holdings lists and every other field of the
    snapshot unchanged, but [last_updated] is ["Invalid Date (cached)"]
    and not ["10:15:30 AM (cached)"]. *)
Theorem cached_time_is_invalid_date (rt : Runtime.t) :
  Runtime.dateParse rt "10:15:30 AM" = None ->
  let sto :=
    saveDataToCache Examples.storedSnapshot [Examples.btcHolding] [] []
      emptyStorage in
  let st := fst (loadCachedData rt sto (initialState "10:20:00 AM")) in
  PortfolioData.last_updated (portfolioData st) = "Invalid Date (cached)"
  /\ PortfolioData.last_updated (portfolioData st)
     <> PortfolioData.last_updated Examples.storedSnapshot ++ " (cached)"
  /\ PortfolioData.total_value (portfolioData st)
     = PortfolioData.total_value Examples.storedSnapshot
  /\ PortfolioData.asset_allocation (portfolioData st)
     = PortfolioData.asset_allocation Examples.storedSnapshot
  /\ spotHoldings st = [Examples.btcHolding]
  /\ snd (loadCachedData rt sto (initialState "10:20:00 AM")) = true.
Proof.
  intros H. cbv zeta. rewrite load_after_save by reflexivity.
  cbn [fst snd portfolioData spotHoldings].
  destruct (markCached_fields rt Examples.storedSnapshot)
    as (E1 & _ & _ & _ & _ & _ & E7 & _ & E9).
  rewrite E1, E7, E9.
  cbn [PortfolioData.last_updated Examples.storedSnapshot].
  rewrite H. cbn. repeat split; try reflexivity. discriminate.
Qed.

(** *** A successful fetch *)

(** What a successful fetch leaves: the state is replaced by the results
    of the aggregation; the storage receives the new snapshot, but the
    holdings lists of the render that created the callback. *)
Lemma fetch_success (now : string) (render : State) (background : bool)
  (data : PortfolioApiData.t) (w : World) :
  available (storage w) = true ->
  let w' := fetchPortfolioData now render background (Success data) w in
  portfolioData (state w') = Aggregator.aggregate data now
  /\ spotHoldings (state w') = includedSpot data
  /\ marginHoldings (state w') = includedMargin data
  /\ futuresHoldings (state w') = includedFutures data
  /\ error (state w') = None
  /\ binance_portfolio_data (storage w')
     = Some (Json (Aggregator.aggregate data now))
  /\ binance_spot_holdings (storage w') = Some (Json (spotHoldings render))
  /\ binance_margin_holdings (storage w') = Some (Json (marginHoldings render))
  /\ binance_futures_holdings (storage w')
     = Some (Json (futuresHoldings render)).
Proof.
  intros H. cbv zeta.
  unfold fetchPortfolioData, fetchSettle, saveDataToCache.
  cbn [storage state]. rewrite H.
  rewrite calculateValues_eq. cbv zeta.
  cbn [Aggregator.processedSpotHoldings Aggregator.processedMarginHoldings
       Aggregator.processedFuturesHoldings].
  unfold Aggregator.aggregate. rewrite calculateValues_eq. cbv zeta.
  destruct background; repeat split; reflexivity.
Qed.

(** C6, at the first fetch of a fresh page.  The page mounts with nothing
    cached and the API answers with one BTC holding: the state holds that
    holding and no error, but the list written to the cache is the empty
    list of the first render, not the list just processed. *)
Theorem first_fetch_caches_stale_lists (rt : Runtime.t) :
  let w :=
    mount rt "10:15:30 AM" (Success Examples.oneBtc) Examples.freshWorld in
  spotHoldings (state w) = [Examples.btcHolding]
  /\ error (state w) = None
  /\ binance_spot_holdings (storage w) = Some (Json [])
  /\ binance_spot_holdings (storage w) <> Some (Json (spotHoldings (state w))).
Proof.
  cbv zeta. unfold mount, Examples.freshWorld.
  cbn [state storage loadCachedData emptyStorage available negb loadItem
       binance_portfolio_data binance_spot_holdings binance_margin_holdings
       binance_futures_holdings present orb].
  destruct (fetch_success "10:15:30 AM" (initialState "10:15:00 AM") false
              Examples.oneBtc
              (mkWorld (initialState "10:15:00 AM") emptyStorage) eq_refl)
    as (_ & E2 & _ & _ & E5 & _ & E7 & _).
  rewrite E2, E5, E7. repeat split; try reflexivity. discriminate.
Qed.

(** *** A failed fetch *)

(** A failed foreground fetch whose render has [total_value === 0]
    installs the fallback sample, whose total is [34567.89]. *)
Lemma failed_foreground_fetch_no_data (now : string) (render : State)
  (r : Response) (w : World) :
  isFailure r ->
  eqb (PortfolioData.total_value (portfolioData render)) zero = true ->
  let w' := fetchPortfolioData now render false r w in
  portfolioData (state w') = fallbackData now
  /\ spotHoldings (state w') = fallbackSpot
  /\ marginHoldings (state w') = fallbackMargin
  /\ futuresHoldings (state w') = fallbackFutures
  /\ error (state w') = Some (errorMessage r)
  /\ PortfolioData.total_value (portfolioData (state w')) = ofFrac 3456789 100
  /\ storage w' = storage w.
Proof.
  intros Hr H. cbv zeta. unfold fetchPortfolioData, fetchSettle.
  destruct r; [contradiction| |]; rewrite H; repeat split; reflexivity.
Qed.

(** A failed foreground fetch whose render has another [total_value]
    only sets the error. *)
Lemma failed_foreground_fetch_with_data (now : string) (render : State)
  (r : Response) (w : World) :
  isFailure r ->
  eqb (PortfolioData.total_value (portfolioData render)) zero = false ->
  let w' := fetchPortfolioData now render false r w in
  portfolioData (state w') = portfolioData (state w)
  /\ spotHoldings (state w') = spotHoldings (state w)
  /\ marginHoldings (state w') = marginHoldings (state w)
  /\ futuresHoldings (state w') = futuresHoldings (state w)
  /\ error (state w') = Some (errorMessage r)
  /\ storage w' = storage w.
Proof.
  intros Hr H. cbv zeta. unfold fetchPortfolioData, fetchSettle.
  destruct r; [contradiction| |]; rewrite H; repeat split; reflexivity.
Qed.

(** A failed background refresh changes neither the data nor the error
    banner. *)
Lemma failed_background_fetch (now : string) (render : State)
  (r : Response) (w : World) :
  isFailure r ->
  let w' := fetchSettle now render true r w in
  portfolioData (state w') = portfolioData (state w)
  /\ spotHoldings (state w') = spotHoldings (state w)
  /\ marginHoldings (state w') = marginHoldings (state w)
  /\ futuresHoldings (state w') = futuresHoldings (state w)
  /\ error (state w') = error (state w)
  /\ storage w' = storage w.
Proof.
  intros Hr. cbv zeta. unfold fetchSettle.
  destruct r; [contradiction| |]; repeat split; reflexivity.
Qed.

(** C7, at a foreground fetch that fails after a later refresh succeeded.
    The page mounts with nothing cached and starts its foreground fetch;
    before that fetch ends, the timer's background refresh (created by the
    same first render) succeeds with one BTC holding, which is shown and
    cached; then the foreground fetch fails.  Its [portfolioData] is still
    that of the first render, with [total_value] 0, so the fallback sample
    replaces the data that exists. *)
Theorem stale_failure_overwrites_data :
  let render := initialState "10:15:00 AM" in
  let pending := mkWorld (fetchStart false render) emptyStorage in
  let refreshed :=
    fetchPortfolioData "10:15:30 AM" render true (Success Examples.oneBtc)
      pending in
  let failed :=
    fetchSettle "10:16:00 AM" render false (Thrown (Some "Network Error"))
      refreshed in
  eqb (PortfolioData.total_value (portfolioData (state refreshed))) (ofZ 50000)
  = true
  /\ spotHoldings (state refreshed) = [Examples.btcHolding]
  /\ present (binance_portfolio_data (storage refreshed)) = true
  /\ portfolioData (state failed) = fallbackData "10:16:00 AM"
  /\ spotHoldings (state failed) = fallbackSpot
  /\ error (state failed) = Some "Network Error".
Proof.
  cbv zeta. repeat split; reflexivity.
Qed.

End RefreshClaims.

(** ** Instances and counterexamples *)

Section Instances.

Import Aggregator Spec Examples.
Local Open Scope list_scope.


(** C8 at the malformed record of the specification,
    [{amount: -1, price_usd: 100, total_usd: -100}], placed between the
    two holdings of its example. *)
Lemma malformed_record_contributes_nothing :
  removeExcluded btcEthWithMalformed btcEth
  /\ sameAggregates (calculateValues btcEthWithMalformed)
       (calculateValues btcEth)
  /\ sameSnapshotValues (aggregate btcEthWithMalformed "")
       (aggregate btcEth "")
  /\ snapshotNaNFree (aggregate btcEthWithMalformed "")
     = snapshotNaNFree (aggregate btcEth "").
Proof.
  assert (H : removeExcluded btcEthWithMalformed btcEth).
  { exact (RemoveSpot
             [ ("BTC_spot"%string,
                Some (spotRecord (Some (ofZ 1)) (Some (ofZ 50000))
                        (Some (ofZ 50000)) (Some (ofZ 10)))) ]
             [ ("ETH_spot"%string,
                Some (spotRecord (Some (ofZ 2)) (Some (ofZ 2000))
                        (Some (ofZ 4000)) (Some (ofZ (-5))))) ]
             ("BAD_spot"%string, Some malformedRecord)
             None None None eq_refl). }
  split; [exact H|].
  exact (excluded_record_contributes_nothing btcEthWithMalformed btcEth "" H).
Defined.

(** The malformed record alone, and a record with [amount = 0], are
    excluded; a snapshot of nothing but the malformed record has no
    [NaN]. *)
Example malformed_and_zero_amount_excluded :
  excluded spotHolding ("BAD_spot"%string, Some malformedRecord) = true
  /\ excluded spotHolding ("DOGE_spot"%string, Some zeroAmountRecord) = true
  /\ snapshotNaNFree
       (aggregate (spotOnly [("BAD_spot"%string, Some malformedRecord)] None)
          "") = true.
Proof. vm_compute. repeat split; reflexivity. Qed.

End Instances.

Section KeyInstances.

Import Keys Spec.
Local Open Scope string_scope.

(** C4 at the keys of the code's comments. *)
Lemma symbol_of_usual_keys :
  symbolOfKey "BTC_spot" = "BTC"
  /\ futuresSymbolOfKey "BTCUSDT_futures" = "BTC".
Proof.
  split; [reflexivity|].
  rewrite (proj1 (proj2 (proj2 (symbol_of_key "BTCUSDT_futures")))).
  reflexivity.
Defined.

(** C4 fails at a futures key whose symbol starts with ["USDT"]: the part
    before the underscore does not end in ["USDT"], yet it is changed. *)
Lemma futures_symbol_of_leading_usdt :
  futuresSymbolOfKey "USDTBUSD_futures" = "BUSD"
  /\ stripSuffix "USDT" (symbolOfKey "USDTBUSD_futures") = "USDTBUSD"
  /\ futuresSymbolOfKey "USDTBUSD_futures"
     <> stripSuffix "USDT" (symbolOfKey "USDTBUSD_futures").
Proof.
  split; [reflexivity|]. split; [reflexivity|]. discriminate.
Qed.

End KeyInstances.

Section FormatterInstances.

Import Formatter Spec.
Local Open Scope string_scope.

(** C9 at [-5], at [0.5] and at [NaN]. *)
Lemma formatter_digits_instances :
  fractionDigits (HoldingsTable.formatNumber (ofZ (-5))) = Some (6, 6)
  /\ fractionDigits (HoldingsTable.formatNumber (ofFrac 1 2)) = Some (2, 2)
  /\ HoldingsTable.formatCurrency NaN = Text "$0.00".
Proof.
  split; [|split].
  - apply (proj1 (proj2 (formatter_digits_and_defaults
                           (Q2Qc (inject_Z (-5))) NaN))).
    vm_compute. reflexivity.
  - apply (proj1 (formatter_digits_and_defaults (Q2Qc (1 # 2)) NaN)).
    vm_compute. discriminate.
  - apply (proj1 (proj2 (proj2 (formatter_digits_and_defaults 0%Qc NaN)))).
    reflexivity.
Defined.

(** C9 fails at the quantity [-5], whose absolute value is at least 0.1
    and which is rendered with 6 digits, and at an infinite timestamp,
    which is not rendered as the empty string. *)
Lemma formatter_negative_and_infinite :
  fractionDigits (HoldingsTable.formatNumber (ofZ (-5))) <> Some (2, 2)
  /\ HoldingsTable.formatDate (Some PosInf) <> Text "".
Proof. split; discriminate. Qed.

End FormatterInstances.

Section RefreshInstances.

Import Store CacheStore Controller Spec.
Local Open Scope string_scope.

(** C5 on a runtime whose [Date] rejects the stored time text. *)
Lemma cached_time_on_rejecting_runtime :
  Runtime.dateParse Examples.rejectingRuntime "10:15:30 AM" = None
  /\ PortfolioData.last_updated
       (portfolioData
          (fst (loadCachedData Examples.rejectingRuntime
                  (saveDataToCache Examples.storedSnapshot
                     [Examples.btcHolding] [] [] emptyStorage)
                  (initialState "10:20:00 AM"))))
     = "Invalid Date (cached)".
Proof.
  split; [reflexivity|].
  exact (proj1 (cached_time_is_invalid_date Examples.rejectingRuntime eq_refl)).
Defined.

End RefreshInstances.

(** ** The value map and the set of symbols *)

Section MapFacts.

Import Aggregator Spec Vocabulary.
Local Open Scope list_scope.

Lemma mapGet_bump_same (k : string) (v : number) (m : list (string * number)) :
  mapGet k (bump k v m) = Some (getOrZero k m + v)%js.
Proof.
  unfold bump. generalize (getOrZero k m + v)%js as x. intros x.
  induction m as [|[k' v'] m IH]; cbn [mapSet mapGet].
  - now rewrite String.eqb_refl.
  - destruct (String.eqb k k') eqn:E; cbn [mapGet]; rewrite E; auto.
Qed.

Lemma mapGet_bump_other (k k' : string) (v : number)
  (m : list (string * number)) :
  String.eqb k' k = false -> mapGet k' (bump k v m) = mapGet k' m.
Proof.
  intros Hk. unfold bump. generalize (getOrZero k m + v)%js as x. intros x.
  induction m as [|[k2 v2] m IH]; cbn [mapSet mapGet].
  - now rewrite Hk.
  - destruct (String.eqb k k2) eqn:E; cbn [mapGet].
    + apply String.eqb_eq in E as <-. now rewrite Hk.
    + destruct (String.eqb k' k2); auto.
Qed.

Lemma keys_bump (k : string) (v : number) (m : list (string * number)) :
  keys (bump k v m)
  = if existsb (String.eqb k) (keys m) then keys m else keys m ++ [k].
Proof.
  unfold bump, keys. generalize (getOrZero k m + v)%js as x. intros x.
  induction m as [|[k' v'] m IH]; cbn [mapSet map fst existsb]; [reflexivity|].
  destruct (String.eqb k k') eqn:E; cbn [map fst orb]; [reflexivity|].
  rewrite IH. now destruct (existsb (String.eqb k) (map fst m)).
Qed.

Lemma existsb_eqb_In (k : string) (l : list string) :
  existsb (String.eqb k) l = true <-> In k l.
Proof.
  rewrite existsb_exists. split.
  - intros (x & Hx & E). apply String.eqb_eq in E. now subst.
  - intros H. exists k. split; [assumption | apply String.eqb_refl].
Qed.

Lemma existsb_eqb_not_In (k : string) (l : list string) :
  existsb (String.eqb k) l = false <-> ~ In k l.
Proof.
  rewrite <- existsb_eqb_In. destruct (existsb (String.eqb k) l); split;
    congruence.
Qed.

Lemma keys_bump_NoDup (k : string) (v : number) (m : list (string * number)) :
  NoDup (keys m) -> NoDup (keys (bump k v m)).
Proof.
  intros H. rewrite keys_bump.
  destruct (existsb (String.eqb k) (keys m)) eqn:E; [assumption|].
  apply existsb_eqb_not_In in E.
  apply NoDup_app; [assumption | repeat constructor; intros [] | ].
  intros x Hx [<-|[]]. contradiction.
Qed.

Lemma keys_bump_length (k : string) (v : number) (m : list (string * number)) :
  List.length (bump k v m) <= S (List.length m).
Proof.
  assert (E : List.length (bump k v m) = List.length (keys (bump k v m)))
    by (unfold keys; now rewrite length_map).
  rewrite E, keys_bump.
  destruct (existsb (String.eqb k) (keys m)); unfold keys;
    rewrite ?length_app, length_map; cbn; lia.
Qed.

Lemma mapGet_positive (k : string) (v : number) (m : list (string * number)) :
  allPositive (mapValues m) -> mapGet k m = Some v -> gt v zero = true.
Proof.
  induction m as [|[k' v'] m IH]; cbn [mapGet]; [discriminate|].
  intros Hm. inversion Hm as [|? ? Hv Hm']; subst.
  destruct (String.eqb k k'); [|now apply IH].
  intros E. now injection E as <-.
Qed.

Lemma mapGet_In (k : string) (v : number) (m : list (string * number)) :
  mapGet k m = Some v -> In (k, v) m.
Proof.
  induction m as [|[k' v'] m IH]; cbn [mapGet]; [discriminate|].
  destruct (String.eqb k k') eqn:E.
  - apply String.eqb_eq in E as ->. intros H. injection H as ->. now left.
  - intros H. right. now apply IH.
Qed.

Lemma In_mapGet (k : string) (v : number) (m : list (string * number)) :
  NoDup (keys m) -> In (k, v) m -> mapGet k m = Some v.
Proof.
  unfold keys. induction m as [|[k' v'] m IH]; [intros _ []|].
  cbn [map fst]. intros Hn [E | H].
  - injection E as -> ->. cbn [mapGet]. now rewrite String.eqb_refl.
  - inversion Hn as [|? ? Hk Hn']; subst. cbn [mapGet].
    destruct (String.eqb k k') eqn:E; [|now apply IH].
    apply String.eqb_eq in E as ->. exfalso. apply Hk.
    change k' with (fst (k', v)). now apply in_map.
Qed.

Lemma mapGet_None_keys (k : string) (m : list (string * number)) :
  mapGet k m = None <-> ~ In k (keys m).
Proof.
  unfold keys. induction m as [|[k' v'] m IH]; cbn [mapGet map fst].
  - split; [intros _ [] | reflexivity].
  - destruct (String.eqb k k') eqn:E.
    + apply String.eqb_eq in E as ->. split; [discriminate|].
      intros H. exfalso. apply H. now left.
    + rewrite IH. apply String.eqb_neq in E. split.
      * intros H [E'|H']; [congruence | contradiction].
      * intros H H'. apply H. now right.
Qed.

(** *** Accumulation under keys *)

Lemma bumpAll_cons {A : Type} (key : A -> string) (val : A -> number)
  (x : A) (xs : list A) (m : list (string * number)) :
  bumpAll key val (x :: xs) m = bumpAll key val xs (bump (key x) (val x) m).
Proof. reflexivity. Qed.

Lemma bumpAll_positive {A : Type} (key : A -> string) (val : A -> number)
  (xs : list A) (m : list (string * number)) :
  allPositive (map val xs) -> allPositive (mapValues m) ->
  allPositive (mapValues (bumpAll key val xs m)).
Proof.
  revert m. induction xs as [|x xs IH]; intros m Hx Hm; [assumption|].
  inversion Hx as [|? ? Hv Hx']; subst. rewrite bumpAll_cons.
  apply IH; [assumption | now apply bump_positive].
Qed.

Lemma bumpAll_NoDup {A : Type} (key : A -> string) (val : A -> number)
  (xs : list A) (m : list (string * number)) :
  NoDup (keys m) -> NoDup (keys (bumpAll key val xs m)).
Proof.
  revert m. induction xs as [|x xs IH]; intros m Hm; [assumption|].
  rewrite bumpAll_cons. now apply IH, keys_bump_NoDup.
Qed.

Lemma bumpAll_length {A : Type} (key : A -> string) (val : A -> number)
  (xs : list A) (m : list (string * number)) :
  List.length (bumpAll key val xs m) <= List.length xs + List.length m.
Proof.
  revert m. induction xs as [|x xs IH]; intros m; [cbn; lia|].
  rewrite bumpAll_cons. specialize (IH (bump (key x) (val x) m)).
  pose proof (keys_bump_length (key x) (val x) m). cbn [List.length]. lia.
Qed.

(** What is stored under [k] after the loop: what was there plus the
    values of the items of key [k]. *)
Lemma mapGet_bumpAll {A : Type} (key : A -> string) (val : A -> number)
  (k : string) (xs : list A) (m : list (string * number)) :
  allPositive (map val xs) -> allPositive (mapValues m) ->
  mapGet k (bumpAll key val xs m)
  = match mapGet k m with
    | Some v => Some (v + sum (map val (filter (matching key k) xs)))%js
    | None =>
        if existsb (matching key k) xs
        then Some (sum (map val (filter (matching key k) xs)))
        else None
    end.
Proof.
  revert m. induction xs as [|x xs IH]; intros m Hx Hm.
  - cbn. destruct (mapGet k m); [now rewrite add_zero_r | reflexivity].
  - inversion Hx as [|? ? Hv Hx']; subst. rewrite bumpAll_cons.
    rewrite IH by (try assumption; now apply bump_positive).
    cbn [filter existsb]. destruct (matching key k x) eqn:E;
      unfold matching in E.
    + apply String.eqb_eq in E as <-. rewrite mapGet_bump_same.
      unfold getOrZero. cbn [map orb]. rewrite sum_cons.
      destruct (mapGet k m) as [v|] eqn:G.
      * rewrite (gt_zero_orElse v) by (eapply mapGet_positive; eauto).
        now rewrite add_assoc.
      * now rewrite add_zero_l.
    + rewrite mapGet_bump_other by assumption. cbn [orb]. reflexivity.
Qed.

Lemma keys_bumpAll {A : Type} (key : A -> string) (val : A -> number)
  (k : string) (xs : list A) (m : list (string * number)) :
  In k (keys (bumpAll key val xs m)) <-> In k (keys m) \/ In k (map key xs).
Proof.
  revert m. induction xs as [|x xs IH]; intros m.
  - cbn. tauto.
  - rewrite bumpAll_cons, IH, keys_bump. cbn [map In].
    destruct (existsb (String.eqb (key x)) (keys m)) eqn:E.
    + apply existsb_eqb_In in E. split; [tauto|].
      intros [H | [<- | H]]; auto.
    + rewrite in_app_iff. cbn [In]. tauto.
Qed.

(** *** The set of symbols *)

Lemma setAdd_NoDup (s : string) (u : list string) :
  NoDup u -> NoDup (setAdd s u).
Proof.
  intros H. unfold setAdd. destruct (existsb (String.eqb s) u) eqn:E;
    [assumption|].
  apply existsb_eqb_not_In in E.
  apply NoDup_app; [assumption | repeat constructor; intros [] |].
  intros x Hx [<-|[]]. contradiction.
Qed.

Lemma setAdd_In (s x : string) (u : list string) :
  In x (setAdd s u) <-> x = s \/ In x u.
Proof.
  unfold setAdd. destruct (existsb (String.eqb s) u) eqn:E.
  - apply existsb_eqb_In in E. split; [tauto|]. intros [->|H]; auto.
  - rewrite in_app_iff. cbn [In]. split.
    + intros [H | [<- | []]]; auto.
    + intros [-> | H]; auto.
Qed.

Lemma acceptShared_uniqueAssets (h : Holding.t) (sh : Shared) :
  uniqueAssets (acceptShared h sh)
  = setAdd (Holding.symbol h) (uniqueAssets sh).
Proof.
  unfold acceptShared, accept. destruct (finiteChange h); reflexivity.
Qed.

Lemma runShared_uniqueAssets (hs : list Holding.t) (sh : Shared) :
  NoDup (uniqueAssets sh) ->
  NoDup (uniqueAssets (runShared hs sh))
  /\ forall s, In s (uniqueAssets (runShared hs sh))
               <-> In s (uniqueAssets sh) \/ In s (map Holding.symbol hs).
Proof.
  revert sh. induction hs as [|h hs IH]; intros sh Hn.
  - cbn. split; [assumption | intros s; tauto].
  - rewrite runShared_cons.
    destruct (IH (acceptShared h sh)) as [N M].
    + rewrite acceptShared_uniqueAssets. now apply setAdd_NoDup.
    + split; [exact N|]. intros s. rewrite M, acceptShared_uniqueAssets,
        setAdd_In. cbn [map In]. split.
      * intros [[-> | H] | H]; auto.
      * intros [H | [<- | H]]; auto.
Qed.

Lemma runShared_assetValues_bumpAll (hs : list Holding.t) (sh : Shared) :
  assetValues (runShared hs sh)
  = bumpAll Holding.symbol Holding.total_usd hs (assetValues sh).
Proof.
  revert sh. induction hs as [|h hs IH]; intros sh; [reflexivity|].
  now rewrite runShared_cons, IH, acceptShared_assetValues, bumpAll_cons.
Qed.

Lemma sectorValuesOf_bumpAll (m : list (string * number)) :
  allPositive (mapValues m) ->
  sectorValuesOf m
  = bumpAll (fun kv => mapAssetToSector (fst kv)) snd m [].
Proof.
  unfold sectorValuesOf, bumpAll. generalize (@nil (string * number)).
  induction m as [|[k v] m IH]; intros acc Hm; [reflexivity|].
  inversion Hm as [|? ? Hv Hm']; subst. cbn [snd] in Hv.
  cbn [fold_left fst snd]. rewrite Hv. now apply IH.
Qed.

End MapFacts.

(** ** More on the snapshot *)

Section SnapshotExtras.

Import Aggregator Spec Vocabulary.
Local Open Scope list_scope.

Lemma finalShared_uniqueAssets (data : PortfolioApiData.t) :
  NoDup (uniqueAssets (finalShared data))
  /\ forall s, In s (uniqueAssets (finalShared data))
               <-> In s (map Holding.symbol (includedHoldings data)).
Proof.
  destruct (runShared_uniqueAssets (includedHoldings data) shared0) as [N M].
  - constructor.
  - split; [exact N|]. intros s. unfold finalShared. rewrite M. cbn. tauto.
Qed.

Lemma same_members_same_length (l l' : list string) :
  NoDup l -> NoDup l' -> (forall x, In x l <-> In x l') ->
  List.length l = List.length l'.
Proof.
  intros N N' H. apply Permutation_length. now apply NoDup_Permutation.
Qed.

Lemma uniqueAssets_count (data : PortfolioApiData.t) :
  List.length (uniqueAssets (finalShared data))
  = List.length
      (nodup string_dec (map Holding.symbol (includedHoldings data))).
Proof.
  destruct (finalShared_uniqueAssets data) as [N M].
  apply same_members_same_length; [assumption | apply NoDup_nodup |].
  intros x. rewrite M. symmetry. apply nodup_In.
Qed.

Lemma snapshot_holdings_count (data : PortfolioApiData.t) (now : string) :
  PortfolioData.holdings_count (aggregate data now)
  = match includedHoldings data with
    | [] =>
        keyCount (PortfolioApiData.spot_holdings data)
        + keyCount (PortfolioApiData.margin_holdings data)
        + keyCount (PortfolioApiData.futures_holdings data)
    | _ :: _ =>
        List.length
          (nodup string_dec (map Holding.symbol (includedHoldings data)))
    end.
Proof.
  unfold aggregate. rewrite calculateValues_eq. cbv zeta.
  cbn [validatedData PortfolioData.holdings_count uniqueAssetCount].
  rewrite uniqueAssets_count.
  destruct (includedHoldings data) as [|h hs] eqn:E; [reflexivity|].
  destruct (nodup string_dec (map Holding.symbol (h :: hs))) as [|x l] eqn:N.
  - exfalso. assert (H : In (Holding.symbol h)
                           (nodup string_dec (map Holding.symbol (h :: hs)))).
    { apply nodup_In. now left. }
    rewrite N in H. destruct H.
  - reflexivity.
Qed.

(** X1.  [holdings_count] is the number of distinct symbols among the
    included holdings of the three segments; only when nothing is
    included is it the number of raw records. *)
Theorem holdings_count_counts_distinct_symbols
  (data : PortfolioApiData.t) (now : string) :
  PortfolioData.holdings_count (aggregate data now)
  = match includedHoldings data with
    | [] =>
        keyCount (PortfolioApiData.spot_holdings data)
        + keyCount (PortfolioApiData.margin_holdings data)
        + keyCount (PortfolioApiData.futures_holdings data)
    | _ :: _ =>
        List.length
          (nodup string_dec (map Holding.symbol (includedHoldings data)))
    end.
Proof. apply snapshot_holdings_count. Qed.

(** The value map at the end of the loops. *)
Lemma finalShared_map (data : PortfolioApiData.t) :
  let m := assetValues (finalShared data) in
  NoDup (keys m)
  /\ (forall k, In k (keys m)
                <-> In k (map Holding.symbol (includedHoldings data)))
  /\ (forall k v, In (k, v) m -> v = valueOfSymbol k (includedHoldings data)).
Proof.
  cbv zeta. unfold finalShared. rewrite runShared_assetValues_bumpAll.
  cbn [shared0 assetValues].
  split; [apply bumpAll_NoDup; constructor|]. split.
  - intros k. rewrite keys_bumpAll. cbn. tauto.
  - intros k v H. apply In_mapGet in H; [|apply bumpAll_NoDup; constructor].
    rewrite mapGet_bumpAll in H;
      [|apply includedHoldings_positive | constructor].
    cbn [mapGet] in H.
    destruct (existsb _ _); [|discriminate]. now injection H as <-.
Qed.

Lemma allocationOf_assets (T : number) (m : list (string * number)) :
  allPositive (mapValues m) ->
  map AssetAllocation.asset (allocationOf T m) = keys m.
Proof.
  intros Hm. rewrite allocationOf_positive by assumption.
  unfold keys. rewrite map_map. reflexivity.
Qed.

Lemma allocationOf_In (T : number) (m : list (string * number))
  (e : AssetAllocation.t) :
  allPositive (mapValues m) ->
  In e (allocationOf T m) ->
  In (AssetAllocation.asset e, AssetAllocation.value e) m.
Proof.
  intros Hm. rewrite allocationOf_positive by assumption.
  intros H. apply in_map_iff in H as ([k v] & <- & H). exact H.
Qed.

Lemma sorted_allocation_facts (b : bool) (T : number)
  (m : list (string * number)) :
  allPositive (mapValues m) -> NoDup (keys m) ->
  let l := sort byValueDesc (if b then allocationOf T m else []) in
  NoDup (map AssetAllocation.asset l)
  /\ (forall e, In e l ->
        In (AssetAllocation.asset e, AssetAllocation.value e) m)
  /\ (b = true -> forall k, In k (keys m) ->
        In k (map AssetAllocation.asset l))
  /\ List.length l <= List.length m
  /\ (b = true -> Permutation (values l) (mapValues m)).
Proof.
  intros Hm Hn. cbv zeta.
  set (l0 := if b then allocationOf T m else []).
  assert (P : Permutation (sort byValueDesc l0) l0) by apply sort_perm.
  split; [|split; [|split; [|split]]].
  - eapply Permutation_NoDup.
    + symmetry. apply Permutation_map. exact P.
    + unfold l0. destruct b; [|constructor].
      now rewrite allocationOf_assets.
  - intros e He. eapply Permutation_in in He; [|exact P].
    unfold l0 in He. destruct b; [|destruct He].
    now apply (allocationOf_In T).
  - intros -> k Hk. eapply Permutation_in.
    + symmetry. apply Permutation_map. exact P.
    + unfold l0. now rewrite allocationOf_assets.
  - rewrite (Permutation_length P). unfold l0. destruct b; [|cbn; lia].
    rewrite allocationOf_positive by assumption. now rewrite length_map.
  - intros ->. unfold l0 in *. rewrite <- (allocationOf_values T m Hm).
    apply Permutation_map. exact P.
Qed.


Lemma apiChange_finite (data : PortfolioApiData.t) :
  isFinite (apiChange data) = true.
Proof.
  unfold apiChange. destruct (PortfolioApiData.change_24h data) as [c|];
    [|reflexivity].
  destruct (isFinite c) eqn:E; [exact E | reflexivity].
Qed.

Lemma sum_nonNegative (l : list number) :
  allPositive l -> nonNegative (sum l).
Proof.
  intros H. destruct (sum_positive_cases l H) as [[_ E] | [_ E]];
    [now left | now right].
Qed.

(** X3.  Whatever the input, the snapshot's [change_24h] is a finite
    number, its four values are zero or positive (never [NaN], never
    negative), [total_value] is 0 exactly when no holding is included, and
    every entry of both allocation lists has a positive value. *)
Theorem snapshot_is_well_formed (data : PortfolioApiData.t) (now : string) :
  let s := aggregate data now in
  isFinite (PortfolioData.change_24h s) = true
  /\ nonNegative (PortfolioData.total_value s)
  /\ nonNegative (PortfolioData.spot_value s)
  /\ nonNegative (PortfolioData.margin_value s)
  /\ nonNegative (PortfolioData.futures_value s)
  /\ (PortfolioData.total_value s = zero <-> includedHoldings data = [])
  /\ allPositive (values (allocation (PortfolioData.asset_allocation s)))
  /\ allPositive (values (allocation (PortfolioData.sector_allocation s))).
Proof.
  cbv zeta.
  destruct (snapshot_segment_values data now) as (-> & -> & ->).
  destruct (includedSegments_positive data) as (Hs & Hm & Hf).
  rewrite snapshot_total_value, snapshot_change, snapshot_asset_allocation,
    snapshot_sector_allocation. cbv zeta.
  pose proof (includedHoldings_positive data) as Hi.
  destruct (finalShared_assetValues data) as [P _].
  destruct (sectorValuesOf_sum _ P) as [P' _].
  repeat split; try (now apply sum_nonNegative).
  - match goal with
    | |- isFinite (if isFinite ?a then _ else _) = true =>
        destruct (isFinite a) eqn:E; [exact E | apply apiChange_finite]
    end.
  - intros Z. destruct (sum_positive_cases _ Hi) as [[E _] | [_ G]].
    + unfold totals in E. now apply map_eq_nil in E.
    + rewrite Z in G. discriminate.
  - intros ->. reflexivity.
  - destruct (gt _ zero); [|constructor].
    unfold allPositive.
    eapply Permutation_Forall; [symmetry; apply values_sort|].
    now rewrite allocationOf_values.
  - destruct (gt _ zero); [|constructor].
    unfold allPositive.
    eapply Permutation_Forall; [symmetry; apply values_sort|].
    now rewrite allocationOf_values.
Qed.

Lemma candidates_length {A : Type} (mk : string -> A -> Holding.t)
  (es : entries A) : List.length (candidates mk es) <= List.length es.
Proof.
  unfold candidates.
  induction es as [|[k [r|]] es IH]; cbn [flat_map snd fst app List.length];
    lia.
Qed.

Lemma includedOf_length {A : Type} (mk : string -> A -> Holding.t)
  (field : option (entries A)) :
  List.length (includedOf mk field) <= keyCount field.
Proof.
  unfold includedOf, keyCount. destruct field as [es|]; [|cbn; lia].
  pose proof (filter_length_le included (candidates mk es)).
  pose proof (candidates_length mk es). lia.
Qed.

(** X4.  Every holding [calculateValues] hands to the three lists passed
    the guard (positive finite amount, finite price, positive value), and
    a list is never longer than the raw record count of its segment. *)
Theorem processed_holdings_pass_the_guard (data : PortfolioApiData.t) :
  let cv := calculateValues data in
  Forall (fun h => included h = true)
    (processedSpotHoldings cv ++ processedMarginHoldings cv
     ++ processedFuturesHoldings cv)
  /\ List.length (processedSpotHoldings cv) <= spotCoinsCount cv
  /\ List.length (processedMarginHoldings cv) <= marginCoinsCount cv
  /\ List.length (processedFuturesHoldings cv) <= futuresCoinsCount cv.
Proof.
  cbv zeta. rewrite calculateValues_eq. cbv zeta.
  cbn [processedSpotHoldings processedMarginHoldings processedFuturesHoldings
       spotCoinsCount marginCoinsCount futuresCoinsCount].
  split; [apply includedHoldings_included|].
  repeat split; apply includedOf_length.
Qed.

End SnapshotExtras.

(** ** Sectors and record order *)

Section AllocationExtras.

Import Aggregator Spec Vocabulary.
Local Open Scope list_scope.

Lemma Permutation_filter_same {A : Type} (f : A -> bool) (l l' : list A) :
  Permutation l l' -> Permutation (filter f l) (filter f l').
Proof.
  induction 1 as [| x l l' _ IH | x y l | l l' l'' _ IH1 _ IH2]; cbn [filter].
  - constructor.
  - destruct (f x); [now constructor | assumption].
  - destruct (f x), (f y); try reflexivity. apply perm_swap.
  - now rewrite IH1.
Qed.

Lemma lookup_In (k v : string) (m : list (string * string)) :
  lookup k m = Some v -> In v (map snd m).
Proof.
  induction m as [|[k' v'] m IH]; cbn [lookup map snd]; [discriminate|].
  destruct (String.eqb k k').
  - intros E. injection E as ->. now left.
  - intros E. right. now apply IH.
Qed.

Lemma mapAssetToSector_name (asset : string) :
  In (mapAssetToSector asset) sectorNames.
Proof.
  unfold mapAssetToSector, sectorNames.
  destruct (lookup asset sectorMap) as [s|] eqn:E.
  - right. now apply lookup_In with (k := asset).
  - now left.
Qed.

(** X5.  For holdings whose symbols are not names of inherited object
    properties, the sector allocation groups the asset allocation: its
    names are pairwise distinct and are sectors of the table or ["Other"],
    the sector of every asset entry has its entry, and there are never
    more sector entries than asset entries. *)
Theorem sector_allocation_groups_assets
  (data : PortfolioApiData.t) (now : string) :
  plainSymbols (includedHoldings data) = true ->
  let s := aggregate data now in
  let assets := allocation (PortfolioData.asset_allocation s) in
  let sectors := allocation (PortfolioData.sector_allocation s) in
  NoDup (map AssetAllocation.asset sectors)
  /\ List.length sectors <= List.length assets
  /\ (forall e, In e sectors -> In (AssetAllocation.asset e) sectorNames)
  /\ (forall a, In a assets ->
        In (mapAssetToSector (AssetAllocation.asset a))
           (map AssetAllocation.asset sectors)).
Proof.
  intros _. cbv zeta.
  rewrite snapshot_asset_allocation, snapshot_sector_allocation.
  cbv zeta.
  destruct (finalShared_assetValues data) as [P _].
  destruct (finalShared_map data) as (N & _ & _).
  destruct (sectorValuesOf_sum _ P) as [P' _].
  set (T := sum (totals (includedHoldings data))).
  set (m := assetValues (finalShared data)) in *.
  assert (E : sectorValuesOf m
              = bumpAll (fun kv => mapAssetToSector (fst kv)) snd m [])
    by now apply sectorValuesOf_bumpAll.
  assert (N' : NoDup (keys (sectorValuesOf m))).
  { rewrite E. apply bumpAll_NoDup. constructor. }
  destruct (sorted_allocation_facts (gt T zero) T m P N)
    as (_ & A2 & A3 & _ & A5).
  destruct (sorted_allocation_facts (gt T zero) T (sectorValuesOf m) P' N')
    as (S1 & S2 & S3 & S4 & _).
  split; [exact S1|]. split; [|split].
  - destruct (gt T zero) eqn:G; [|cbn; lia].
    specialize (A5 eq_refl). apply Permutation_length in A5.
    unfold values, mapValues in A5. rewrite !length_map in A5.
    rewrite A5. etransitivity; [exact S4|]. rewrite E.
    pose proof (bumpAll_length (fun kv => mapAssetToSector (fst kv)) snd m [])
      as L. cbn [List.length] in L. lia.
  - intros e He. specialize (S2 e He).
    apply In_mapGet in S2; [|assumption].
    rewrite E in S2. rewrite mapGet_bumpAll in S2;
      [|exact P | constructor].
    cbn [mapGet] in S2.
    destruct (existsb _ m) eqn:X; [|discriminate].
    apply existsb_exists in X as (kv & _ & X). unfold matching in X.
    apply String.eqb_eq in X as ->. apply mapAssetToSector_name.
  - intros a Ha. specialize (A2 a Ha).
    destruct (gt T zero) eqn:G; [|destruct Ha].
    apply S3; [reflexivity|]. rewrite E. apply keys_bumpAll. right.
    apply in_map_iff. exists (AssetAllocation.asset a, AssetAllocation.value a).
    split; [reflexivity | exact A2].
Qed.

End AllocationExtras.

Section OrderExtras.

Import Aggregator Spec Vocabulary.
Local Open Scope list_scope.

Lemma includedOf_sameRecords {A : Type} (mk : string -> A -> Holding.t)
  (a b : option (entries A)) :
  sameRecords a b ->
  Permutation (includedOf mk a) (includedOf mk b)
  /\ keyCount a = keyCount b.
Proof.
  unfold sameRecords, includedOf, keyCount.
  destruct a as [x|], b as [y|]; try contradiction; [|auto].
  intros H. split; [|now apply Permutation_length].
  apply Permutation_filter_same. unfold candidates.
  now apply Permutation_flat_map.
Qed.

Lemma nodup_length_permutation (l l' : list string) :
  Permutation l l' ->
  List.length (nodup string_dec l) = List.length (nodup string_dec l').
Proof.
  intros H. apply same_members_same_length; try apply NoDup_nodup.
  intros x. rewrite !nodup_In. split; apply Permutation_in;
    [assumption | now symmetry].
Qed.

(** X7.  The order of the records inside a segment (the key order of the
    API's JSON objects) decides neither which holdings are included nor
    how many distinct assets are counted: for the same records in any
    order, the included holdings are the same up to their order, and
    [holdings_count] is the same. *)
Theorem snapshot_ignores_record_order
  (s s' : option (entries SpotHoldingData.t))
  (m m' : option (entries MarginHoldingData.t))
  (f f' : option (entries FuturesHoldingData.t))
  (c : option number) (now : string) :
  sameRecords s s' -> sameRecords m m' -> sameRecords f f' ->
  let d := PortfolioApiData.mk s m f c in
  let d' := PortfolioApiData.mk s' m' f' c in
  Permutation (includedHoldings d) (includedHoldings d')
  /\ PortfolioData.holdings_count (aggregate d now)
     = PortfolioData.holdings_count (aggregate d' now).
Proof.
  intros Hs Hm Hf. cbv zeta.
  destruct (includedOf_sameRecords spotHolding s s' Hs) as [Ps Ks].
  destruct (includedOf_sameRecords marginHolding m m' Hm) as [Pm Km].
  destruct (includedOf_sameRecords futuresHolding f f' Hf) as [Pf Kf].
  set (d := PortfolioApiData.mk s m f c).
  set (d' := PortfolioApiData.mk s' m' f' c).
  assert (Pi : Permutation (includedHoldings d) (includedHoldings d')).
  { unfold includedHoldings. repeat apply Permutation_app; assumption. }
  split; [exact Pi|].
  rewrite !snapshot_holdings_count.
  destruct (includedHoldings d) as [|h hs] eqn:E.
  - apply Permutation_nil in Pi. rewrite Pi.
    unfold d, d'. cbn [PortfolioApiData.spot_holdings
      PortfolioApiData.margin_holdings PortfolioApiData.futures_holdings].
    now rewrite Ks, Km, Kf.
  - destruct (includedHoldings d') as [|h' hs'] eqn:E'.
    + symmetry in Pi. apply Permutation_nil in Pi. discriminate.
    + apply nodup_length_permutation. now apply Permutation_map.
Qed.

End OrderExtras.

(** ** More on the cache and the refresh controller *)

Section CacheExtras.

Import Store CacheStore Controller Spec Vocabulary.
Local Open Scope string_scope.

(** X9.  On a working storage and for data whose numbers are all finite
    (so that JSON keeps them), [loadCachedData] after
    [saveDataToCache(s, a, b, c)] reports a cache, installs the lists [a],
    [b], [c] as they were saved and the snapshot [s] with every field but
    [last_updated] unchanged; [last_updated] is the runtime's time text of
    the saved [last_updated] followed by [" (cached)"]; the loading flags
    and the error are not touched. *)
Theorem cache_round_trip (rt : Runtime.t) (s : PortfolioData.t)
  (a b c : list Holding.t) (sto : Storage) (st : State) :
  available sto = true ->
  jsonSnapshot s -> Forall jsonHolding (a ++ b ++ c)%list ->
  let r := loadCachedData rt (saveDataToCache s a b c sto) st in
  let d := portfolioData (fst r) in
  snd r = true
  /\ spotHoldings (fst r) = a
  /\ marginHoldings (fst r) = b
  /\ futuresHoldings (fst r) = c
  /\ PortfolioData.total_value d = PortfolioData.total_value s
  /\ PortfolioData.change_24h d = PortfolioData.change_24h s
  /\ PortfolioData.holdings_count d = PortfolioData.holdings_count s
  /\ PortfolioData.spot_value d = PortfolioData.spot_value s
  /\ PortfolioData.margin_value d = PortfolioData.margin_value s
  /\ PortfolioData.futures_value d = PortfolioData.futures_value s
  /\ PortfolioData.asset_allocation d = PortfolioData.asset_allocation s
  /\ PortfolioData.sector_allocation d = PortfolioData.sector_allocation s
  /\ PortfolioData.last_updated d
     = Runtime.toLocaleTimeString rt
         (Runtime.dateParse rt (PortfolioData.last_updated s))
       ++ " (cached)"
  /\ isLoading (fst r) = isLoading st
  /\ isRefreshing (fst r) = isRefreshing st
  /\ error (fst r) = error st.
Proof.
  intros H _ _. cbv zeta. rewrite load_after_save by assumption.
  cbn [fst snd portfolioData spotHoldings marginHoldings futuresHoldings
       isLoading isRefreshing error].
  destruct (markCached_fields rt s)
    as (E1 & E2 & E3 & E4 & E5 & E6 & E7 & E8 & E9).
  repeat split; assumption.
Qed.


(** X11.  [loadCachedData] never changes the loading flags or the error,
    and each of the snapshot and the three lists is afterwards either
    what it was or what is stored under its key (the snapshot with its
    [last_updated] marked). *)
Theorem load_changes_only_cached_data (rt : Runtime.t) (sto : Storage)
  (st : State) :
  let st' := fst (loadCachedData rt sto st) in
  isLoading st' = isLoading st
  /\ isRefreshing st' = isRefreshing st
  /\ error st' = error st
  /\ (portfolioData st' = portfolioData st
      \/ exists d, stored (binance_portfolio_data sto) = Some d
                   /\ portfolioData st' = markCached rt d)
  /\ (spotHoldings st' = spotHoldings st
      \/ stored (binance_spot_holdings sto) = Some (spotHoldings st'))
  /\ (marginHoldings st' = marginHoldings st
      \/ stored (binance_margin_holdings sto) = Some (marginHoldings st'))
  /\ (futuresHoldings st' = futuresHoldings st
      \/ stored (binance_futures_holdings sto) = Some (futuresHoldings st')).
Proof.
  destruct sto as [[] [[d|]|] [[a|]|] [[b|]|] [[c|]|]]; cbn;
    repeat split; auto; right; eauto.
Qed.

End CacheExtras.

Section ControllerExtras.

Import Store CacheStore Controller Spec Vocabulary.
Local Open Scope string_scope.

(** X13.  A background refresh that fails leaves the snapshot, the three
    lists and the storage as they are and does not touch [isLoading]; it
    ends with [isRefreshing] false and with no error, so it also removes
    the error of an earlier failed foreground fetch. *)
Theorem failed_background_refresh (now : string) (render : State)
  (r : Response) (w : World) :
  isFailure r ->
  let w' := fetchPortfolioData now render true r w in
  sameData (state w') (state w)
  /\ storage w' = storage w
  /\ error (state w') = None
  /\ isRefreshing (state w') = false
  /\ isLoading (state w') = isLoading (state w).
Proof.
  intros Hr. cbv zeta. unfold fetchPortfolioData, fetchSettle, sameData.
  destruct r; [contradiction| |]; repeat split; reflexivity.
Qed.

(** X14.  A foreground fetch that fails sets the error to the failure's
    message (never empty for a non-success status), ends with [isLoading]
    false, leaves the storage alone and, exactly when the [total_value] of
    its render's snapshot is 0, replaces the snapshot and the three lists
    by the fallback sample; otherwise the data stay as they are. *)
Theorem failed_foreground_fetch (now : string) (render : State)
  (r : Response) (w : World) :
  isFailure r ->
  let w' := fetchPortfolioData now render false r w in
  error (state w') = Some (errorMessage r)
  /\ (forall m, r = ErrorStatus m -> nonEmpty (errorMessage r) = true)
  /\ isLoading (state w') = false
  /\ isRefreshing (state w') = isRefreshing (state w)
  /\ storage w' = storage w
  /\ if eqb (PortfolioData.total_value (portfolioData render)) zero
     then portfolioData (state w') = fallbackData now
          /\ spotHoldings (state w') = fallbackSpot
          /\ marginHoldings (state w') = fallbackMargin
          /\ futuresHoldings (state w') = fallbackFutures
     else sameData (state w') (state w).
Proof.
  intros Hr. cbv zeta. unfold fetchPortfolioData, fetchSettle, sameData.
  destruct r as [data | m | m]; [contradiction| |];
    destruct (eqb (PortfolioData.total_value (portfolioData render)) zero);
    repeat split; try reflexivity;
    try (intros m' E; injection E as <-; destruct m as [[|c s]|]; reflexivity);
    try (intros m' E; discriminate).
Qed.

(** X15.  A fetch that succeeds replaces the snapshot by the aggregated
    one and the lists by the included holdings of the three segments,
    clears the error and the flag of its kind; the storage, when it can be
    written, receives the new snapshot and the lists of the render that
    created the callback, and is left alone when it cannot be written. *)
Theorem successful_fetch (now : string) (render : State) (background : bool)
  (data : PortfolioApiData.t) (w : World) :
  let w' := fetchPortfolioData now render background (Success data) w in
  portfolioData (state w') = Aggregator.aggregate data now
  /\ spotHoldings (state w') = includedSpot data
  /\ marginHoldings (state w') = includedMargin data
  /\ futuresHoldings (state w') = includedFutures data
  /\ error (state w') = None
  /\ (if background then isRefreshing (state w') else isLoading (state w'))
     = false
  /\ storage w'
     = if available (storage w)
       then mkStorage true (Some (Json (Aggregator.aggregate data now)))
              (Some (Json (spotHoldings render)))
              (Some (Json (marginHoldings render)))
              (Some (Json (futuresHoldings render)))
       else storage w.
Proof.
  cbv zeta. unfold fetchPortfolioData, fetchSettle, saveDataToCache.
  cbn [storage state]. unfold Aggregator.aggregate.
  rewrite calculateValues_eq. cbv zeta.
  cbn [Aggregator.processedSpotHoldings Aggregator.processedMarginHoldings
       Aggregator.processedFuturesHoldings].
  destruct background, (available (storage w)); repeat split; reflexivity.
Qed.

Lemma load_usable (rt : Runtime.t) (sto : Storage) (st : State)
  (d : PortfolioData.t) :
  available sto = true -> anyMalformed sto = false ->
  stored (binance_portfolio_data sto) = Some d ->
  loadCachedData rt sto st
  = (mkState (markCached rt d)
       (match stored (binance_spot_holdings sto) with
        | Some l => l | None => spotHoldings st end)
       (match stored (binance_margin_holdings sto) with
        | Some l => l | None => marginHoldings st end)
       (match stored (binance_futures_holdings sto) with
        | Some l => l | None => futuresHoldings st end)
       (isLoading st) (isRefreshing st) (error st), true).
Proof.
  destruct sto as [[] [[d'|]|] [[a|]|] [[b|]|] [[c|]|]]; cbn;
    intros H1 H2 H3; try discriminate; injection H3 as ->; reflexivity.
Qed.

(** X16.  When the page mounts on a readable cache that holds a snapshot
    and the first fetch fails, the cached snapshot (marked as cached) and
    the cached lists stay on the page, no error is shown, [isLoading] is
    not touched and the storage is unchanged. *)
Theorem mount_keeps_cache_when_fetch_fails (rt : Runtime.t) (now : string)
  (r : Response) (w : World) (d : PortfolioData.t) :
  available (storage w) = true ->
  anyMalformed (storage w) = false ->
  stored (binance_portfolio_data (storage w)) = Some d ->
  isFailure r ->
  let w' := mount rt now r w in
  portfolioData (state w') = markCached rt d
  /\ (forall l, stored (binance_spot_holdings (storage w)) = Some l ->
        spotHoldings (state w') = l)
  /\ (forall l, stored (binance_margin_holdings (storage w)) = Some l ->
        marginHoldings (state w') = l)
  /\ (forall l, stored (binance_futures_holdings (storage w)) = Some l ->
        futuresHoldings (state w') = l)
  /\ error (state w') = None
  /\ isLoading (state w') = isLoading (state w)
  /\ storage w' = storage w.
Proof.
  intros H1 H2 H3 Hr. cbv zeta. unfold mount.
  rewrite (load_usable rt (storage w) (state w) d H1 H2 H3).
  unfold fetchPortfolioData, fetchSettle.
  destruct r; [contradiction| |]; cbn;
    repeat split; try reflexivity; intros l E; now rewrite E.
Qed.

(** X17.  When the page mounts on a cache whose snapshot parses but whose
    spot list does not, the cached snapshot is installed, yet
    [loadCachedData] reports no cache and the first fetch runs in the
    foreground; if it fails while the first render's [total_value] is 0,
    the fallback sample replaces the cached snapshot and the error is
    shown. *)
Theorem mount_with_malformed_list_falls_back (rt : Runtime.t) (now : string)
  (r : Response) (w : World) (d : PortfolioData.t) :
  available (storage w) = true ->
  stored (binance_portfolio_data (storage w)) = Some d ->
  binance_spot_holdings (storage w) = Some Malformed ->
  isFailure r ->
  eqb (PortfolioData.total_value (portfolioData (state w))) zero = true ->
  let loaded := loadCachedData rt (storage w) (state w) in
  let w' := mount rt now r w in
  portfolioData (fst loaded) = markCached rt d
  /\ snd loaded = false
  /\ portfolioData (state w') = fallbackData now
  /\ spotHoldings (state w') = fallbackSpot
  /\ error (state w') = Some (errorMessage r).
Proof.
  intros H1 H2 H3 Hr H0. cbv zeta. unfold mount.
  destruct w as [st sto]. cbn [storage state] in *.
  destruct sto as [av [[d'|]|] sp mg fu]; cbn in H1, H2, H3; subst;
    try discriminate.
  injection H2 as ->. cbn [loadCachedData available negb loadItem
    binance_portfolio_data binance_spot_holdings fst snd].
  unfold fetchPortfolioData, fetchSettle. cbn [state storage].
  destruct r; [contradiction| |]; rewrite H0; repeat split; reflexivity.
Qed.

(** X18.  When nothing is cached, or the storage cannot be read, mounting
    is the foreground fetch of the first render on the untouched state. *)
Theorem mount_without_cache_fetches_in_foreground (rt : Runtime.t)
  (now : string) (r : Response) (w : World) :
  available (storage w) = false \/ anyPresent (storage w) = false ->
  mount rt now r w = fetchPortfolioData now (state w) false r w.
Proof.
  intros H. unfold mount. destruct w as [st sto]. cbn [state storage] in *.
  destruct sto as [[] [[d|]|] [[a|]|] [[b|]|] [[c|]|]];
    destruct H as [H|H]; cbn in H; try discriminate; reflexivity.
Qed.

End ControllerExtras.

(** ** Keys built from symbols *)

Section KeyExtras.

Import Keys Spec.
Local Open Scope string_scope.

Lemma symbolOfKey_app (s u : string) :
  (forall n, String.get n s <> Some "_"%char) ->
  symbolOfKey (s ++ u) = s ++ symbolOfKey u.
Proof.
  induction s as [|c r IH]; intros H; [reflexivity|].
  cbn [append]. rewrite symbolOfKey_cons.
  destruct (Ascii.eqb c "_") eqn:E.
  - apply Ascii.eqb_eq in E as ->. exfalso. now apply (H 0).
  - f_equal. apply IH. intros n. apply (H (S n)).
Qed.

Lemma get_app_no_underscore (s t : string) :
  (forall n, String.get n s <> Some "_"%char) ->
  (forall n, String.get n t <> Some "_"%char) ->
  forall n, String.get n (s ++ t) <> Some "_"%char.
Proof.
  induction s as [|c r IH]; intros Hs Ht n; [apply Ht|].
  cbn [append]. destruct n as [|n]; cbn [String.get].
  - apply (Hs 0).
  - apply IH; [|assumption]. intros k. apply (Hs (S k)).
Qed.

(** X19.  Extraction undoes the construction of a spot or margin key: for
    a symbol without underscore, the symbol of the key
    [symbol + "_" + anything] is the symbol. *)
Theorem symbol_of_constructed_key (symbol rest : string) :
  (forall n, String.get n symbol <> Some "_"%char) ->
  symbolOfKey (symbol ++ String "_" rest) = symbol.
Proof.
  intros H. rewrite symbolOfKey_app by assumption.
  rewrite symbolOfKey_cons. cbn. clear.
  induction symbol; cbn; congruence.
Qed.

(** ["USDT"] does not overlap itself: it cannot start inside a text and
    end in a following ["USDT"]. *)
Lemma prefix_usdt_app (s : string) :
  s <> "" -> prefix "USDT" s = false -> prefix "USDT" (s ++ "USDT") = false.
Proof.
  destruct s as [|a [|b [|c [|d r]]]]; intros Hne H; [congruence| | | |];
    cbn [append prefix] in *;
    repeat match goal with
           | |- context [ascii_dec ?x ?y] =>
               destruct (ascii_dec x y); try subst; try discriminate;
               try reflexivity
           | H : context [ascii_dec ?x ?y] |- _ =>
               destruct (ascii_dec x y); try subst; try discriminate;
               try congruence
           end.
  destruct r; discriminate.
Qed.

Lemma indexOf_app_usdt (s : string) :
  indexOf "USDT" s = None ->
  indexOf "USDT" (s ++ "USDT") = Some (String.length s).
Proof.
  induction s as [|c r IH]; [reflexivity|].
  rewrite indexOf_unfold. destruct (prefix "USDT" (String c r)) eqn:P;
    [discriminate|].
  destruct (indexOf "USDT" r) eqn:I; [discriminate|]. intros _.
  rewrite indexOf_unfold.
  rewrite (prefix_usdt_app (String c r)) by (try discriminate; assumption).
  cbn [append]. rewrite IH by reflexivity. reflexivity.
Qed.

Lemma takeStr_app (s t : string) : takeStr (String.length s) (s ++ t) = s.
Proof. induction s; cbn; congruence. Qed.

Lemma dropStr_app (s t : string) : dropStr (String.length s) (s ++ t) = t.
Proof. induction s; cbn; congruence. Qed.

Lemma dropStr_add (n k : nat) (s : string) :
  dropStr (n + k) s = dropStr k (dropStr n s).
Proof.
  revert s. induction n as [|n IH]; intros s; [reflexivity|].
  destruct s; cbn [Nat.add dropStr]; [now destruct k | apply IH].
Qed.

(** X20.  Extraction undoes the construction of a futures key: for a
    symbol without underscore in which ["USDT"] does not occur, the
    futures symbol of the key [symbol + "USDT_" + anything] is the
    symbol. *)
Theorem futures_symbol_of_constructed_key (symbol rest : string) :
  (forall n, String.get n symbol <> Some "_"%char) ->
  indexOf "USDT" symbol = None ->
  futuresSymbolOfKey (symbol ++ "USDT" ++ String "_" rest) = symbol.
Proof.
  intros Hu Hi. unfold futuresSymbolOfKey.
  assert (E : symbolOfKey (symbol ++ "USDT" ++ String "_" rest)
              = symbol ++ "USDT").
  { rewrite symbolOfKey_app by assumption. reflexivity. }
  rewrite E, replaceFirst_indexOf, indexOf_app_usdt by assumption.
  rewrite takeStr_app, dropStr_add, dropStr_app. cbn.
  clear. induction symbol; cbn; congruence.
Qed.

(** X21.  Removing the first ["USDT"] is removing a trailing ["USDT"]
    suffix whenever ["USDT"] does not occur in the symbol or occurs first
    as its last four characters; the two differ only for a symbol with an
    earlier occurrence. *)
Theorem futures_symbol_is_suffix_strip (key : string) :
  let s := symbolOfKey key in
  (indexOf "USDT" s = None
   \/ exists n, indexOf "USDT" s = Some n /\ n + 4 = String.length s) ->
  futuresSymbolOfKey key = stripSuffix "USDT" s.
Proof. apply futures_symbol_suffix_rule. Qed.

End KeyExtras.

(** ** Chart data and composition bars *)

Section ChartExtras.

Import Aggregator Spec Vocabulary Chart.
Local Open Scope list_scope.

Lemma pushSlice_fields (label : string) (value : number) (color : string)
  (count : nat) (d : Dataset) :
  labels (pushSlice label value color count d)
  = labels d ++ (if gt value zero then [label] else [])
  /\ data (pushSlice label value color count d)
     = data d ++ (if gt value zero then [value] else [])
  /\ colors (pushSlice label value color count d)
     = colors d ++ (if gt value zero then [color] else [])
  /\ coinCounts (pushSlice label value color count d)
     = coinCounts d ++ (if gt value zero then [count] else []).
Proof.
  unfold pushSlice. destruct (gt value zero); cbn;
    rewrite ?app_nil_r; repeat split; reflexivity.
Qed.

Lemma not_positive_finiteOrZero (v : number) :
  gt v zero = false ->
  exists q, finiteOrZero v = Fin q /\ (q <= 0)%Qc.
Proof.
  destruct v as [q| | |]; cbn; intros H; try discriminate.
  - exists q. split; [reflexivity|]. apply Qcnot_lt_le. intros L.
    apply Qc_ltb_lt in L. unfold gt, zero in H. cbn in H. congruence.
  - exists 0%Qc. split; [reflexivity | apply Qcle_refl].
  - exists 0%Qc. split; [reflexivity | apply Qcle_refl].
Qed.

Lemma nonpositive_sum_not_positive (a b c : Qc) :
  (a <= 0)%Qc -> (b <= 0)%Qc -> (c <= 0)%Qc ->
  gt (Fin a + Fin b + Fin c)%js zero = false.
Proof.
  intros Ha Hb Hc. cbn [add]. unfold gt, zero. cbn [lt].
  destruct (Qc_ltb 0 (a + b + c)) eqn:E; [|reflexivity].
  apply Qc_ltb_lt in E. exfalso. revert E. apply Qcle_not_lt.
  replace 0%Qc with (0 + 0 + 0)%Qc by ring.
  repeat apply Qcplus_le_compat; assumption.
Qed.

(** X22.  The chart's four arrays and its tooltip percentages always have
    the same length, at most three; an investment chart is drawn exactly
    when the sum of the finite segment values is positive, and then it
    has at least one slice and only slices of positive value. *)
Theorem chart_arrays_are_aligned (pd : PortfolioData.t)
  (spotHoldings marginHoldings futuresHoldings : list Holding.t) :
  match config pd spotHoldings marginHoldings futuresHoldings with
  | Investment d percentages =>
      gt (totalInvestmentValue pd) zero = true
      /\ List.length (labels d) = List.length (data d)
      /\ List.length (colors d) = List.length (data d)
      /\ List.length (coinCounts d) = List.length (data d)
      /\ List.length percentages = List.length (data d)
      /\ 1 <= List.length (data d) <= 3
      /\ allPositive (data d)
  | NoDataAvailable => gt (totalInvestmentValue pd) zero = false
  end.
Proof.
  unfold config. destruct (gt (totalInvestmentValue pd) zero) eqn:G;
    [|reflexivity].
  split; [reflexivity|]. rewrite length_map.
  unfold pushSlice.
  destruct (gt (PortfolioData.spot_value pd) zero) eqn:G1,
           (gt (PortfolioData.margin_value pd) zero) eqn:G2,
           (gt (PortfolioData.futures_value pd) zero) eqn:G3;
    cbn; repeat split; try lia; repeat constructor; try assumption.
  exfalso. unfold totalInvestmentValue in G.
  apply not_positive_finiteOrZero in G1 as (a & Ea & Ha).
  apply not_positive_finiteOrZero in G2 as (b & Eb & Hb).
  apply not_positive_finiteOrZero in G3 as (c & Ec & Hc).
  rewrite Ea, Eb, Ec, nonpositive_sum_not_positive in G by assumption.
  discriminate.
Qed.


End ChartExtras.

(** ** The portfolio query *)

Section QueryExtras.

Import Query.
Local Open Scope string_scope.

(** X25.  [handlePortfolioQuery] always resolves to a result, of status
    success or error: success exactly when the API answered with status
    success; every other ending (error status, unexpected status, thrown
    exception) gives an error result whose response is ["Error: "]
    followed by its message; an API answer with a non-blank response text
    is passed on unchanged; and, the default reply being non-blank, the
    response text of a success result is never blank. *)
Theorem query_result_is_normalized (blank : string -> bool) (o : Outcome) :
  let r := handlePortfolioQuery blank o in
  (resultStatus r = ResultSuccess
   <-> exists api, o = Resolved api /\ status api = StatusSuccess)
  /\ (resultStatus r = ResultError ->
      exists m, resultData r = mkData (Some ("Error: " ++ m)) (Some m) None)
  /\ (forall api d t,
        o = Resolved api -> status api = StatusSuccess ->
        data api = Some d -> response d = Some t -> blank t = false ->
        r = mkResult ResultSuccess d)
  /\ (blank noClearResponse = false ->
      resultStatus r = ResultSuccess ->
      exists t, response (resultData r) = Some t /\ blank t = false).
Proof.
  cbv zeta. split; [|split; [|split]].
  - destruct o as [[st d] | [m|]]; cbn.
    + destruct st; cbn.
      * split; [intros _; eexists; split; reflexivity|]. intros _.
        destruct d as [[[t|] [m|] e]|]; cbn; try reflexivity;
          repeat (match goal with
                  | |- context [blank ?x] => destruct (blank x)
                  end; cbn; try reflexivity).
      * split; [discriminate|]. intros (api & E & S).
        injection E as <-. discriminate.
      * split; [discriminate|]. intros (api & E & S).
        injection E as <-. discriminate.
    + split; [discriminate | intros (api & E & _); discriminate].
    + split; [discriminate | intros (api & E & _); discriminate].
  - destruct o as [[st d] | [m|]]; cbn.
    + destruct st; cbn.
      * destruct d as [[[t|] [m|] e]|]; cbn;
          repeat (match goal with
                  | |- context [blank ?x] => destruct (blank x)
                  end; cbn); discriminate.
      * intros _. eexists. reflexivity.
      * intros _. eexists. reflexivity.
    + intros _. eexists. reflexivity.
    + intros _. eexists. reflexivity.
  - intros api d t -> S D R B. cbn. rewrite S, D. unfold usable.
    now rewrite R, B.
  - intros B. destruct o as [[st d] | [m|]]; cbn; try discriminate.
    destruct st; cbn; try discriminate. intros _.
    destruct d as [[[t|] [m|] e]|]; cbn;
      repeat (match goal with
              | |- context [if blank ?x then _ else _] =>
                  destruct (blank x) eqn:?
              end; cbn); eauto.
Qed.

End QueryExtras.

(** ** Formatters and the empty portfolio *)

Section FormatExtras.

Import Formatter.
Local Open Scope list_scope.

Lemma percent_finite (v : number) :
  isFinite v = true -> isFinite (v / ofZ 100)%js = true.
Proof.
  destruct v as [q| | |]; intros H; try discriminate.
  unfold ofZ. rewrite div_fin; [reflexivity|].
  intros E. apply (f_equal (fun x => Qc_eq_bool x 0)) in E.
  vm_compute in E. discriminate.
Qed.

(** X26.  No formatter of the table or of the page hands a non-finite
    number to [Intl.NumberFormat]: whenever the currency, quantity or
    percentage formatter returns a formatted number, that number is
    finite and is formatted with equal minimum and maximum fraction
    digits; the percentage formatters format a hundredth of their
    argument, the table's with an explicit sign and the page's
    without. *)
Theorem formatters_format_finite_numbers (v : number) (decimals : nat)
  (o : NumberFormatOptions) (x : number) :
  (HoldingsTable.formatCurrency v = NumberFormat o x
   \/ Page.formatCurrency v = NumberFormat o x
   \/ HoldingsTable.formatNumberWith decimals v = NumberFormat o x ->
   x = v /\ isFinite x = true
   /\ minimumFractionDigits o = maximumFractionDigits o)
  /\ (HoldingsTable.formatPercentage (Some v) = NumberFormat o x ->
      x = (v / ofZ 100)%js /\ isFinite x = true
      /\ o = mkOptions Percent 2 2 true)
  /\ (Page.formatPercentage v = NumberFormat o x ->
      x = (v / ofZ 100)%js /\ isFinite x = true
      /\ o = mkOptions Percent 2 2 false).
Proof.
  unfold HoldingsTable.formatCurrency, Page.formatCurrency,
    HoldingsTable.formatNumberWith, HoldingsTable.formatPercentage,
    Page.formatPercentage.
  destruct (isFinite v) eqn:F; cbn [negb].
  - pose proof (percent_finite v F) as P.
    split; [|split]; [intros [H | [H | H]] | intros H | intros H];
      injection H as <- <-; repeat split; assumption.
  - split; [|split]; [intros [H | [H | H]] | intros H | intros H];
      discriminate.
Qed.

End FormatExtras.

Section EmptyExtras.

Import Aggregator Spec Vocabulary.
Local Open Scope list_scope.

(** X27.  A response without any included holding (no records, or only
    malformed ones) gives a snapshot whose four values and change are 0
    and whose two allocation lists are present and empty. *)
Theorem empty_portfolio_snapshot (data : PortfolioApiData.t) (now : string) :
  includedHoldings data = [] ->
  let s := aggregate data now in
  PortfolioData.total_value s = zero
  /\ PortfolioData.spot_value s = zero
  /\ PortfolioData.margin_value s = zero
  /\ PortfolioData.futures_value s = zero
  /\ PortfolioData.change_24h s = zero
  /\ PortfolioData.asset_allocation s = Some []
  /\ PortfolioData.sector_allocation s = Some [].
Proof.
  intros E. cbv zeta.
  pose proof E as E'. unfold includedHoldings in E'.
  apply app_eq_nil in E' as [E1 E']. apply app_eq_nil in E' as [E2 E3].
  destruct (snapshot_segment_values data now) as (-> & -> & ->).
  rewrite snapshot_total_value, snapshot_change. cbv zeta.
  rewrite E, E1, E2, E3.
  do 5 (split; [reflexivity|]).
  unfold aggregate. rewrite calculateValues_eq.
  cbn [validatedData PortfolioData.asset_allocation
       PortfolioData.sector_allocation assetAllocation sectorAllocation].
  rewrite E1, E2, E3. split; reflexivity.
Qed.

End EmptyExtras.

(** ** Instances of the further properties *)

Section ExtraInstances.

Import Aggregator Store CacheStore Controller Spec Vocabulary Examples
  Samples.
Local Open Scope list_scope.

(** X5 at the example of the specification: BTC is a store of value
    and ETH a smart contract platform. *)
Lemma sectors_of_btcEth :
  plainSymbols (includedHoldings btcEth) = true
  /\ NoDup (map AssetAllocation.asset
              (allocation (PortfolioData.sector_allocation
                             (aggregate btcEth ""))))
  /\ map AssetAllocation.asset
       (allocation (PortfolioData.sector_allocation (aggregate btcEth "")))
     = ["Store of Value"%string; "Smart Contract Platform"%string].
Proof.
  assert (P : plainSymbols (includedHoldings btcEth) = true)
    by (vm_compute; reflexivity).
  split; [exact P|]. split.
  - exact (proj1 (sector_allocation_groups_assets btcEth "" P)).
  - vm_compute. reflexivity.
Defined.

(** X7 at the two records of the example in both orders. *)
Lemma snapshot_of_swapped_records :
  sameRecords (Some [btcEntry; ethEntry]) (Some [ethEntry; btcEntry])
  /\ PortfolioData.holdings_count
       (aggregate
          (PortfolioApiData.mk (Some [btcEntry; ethEntry]) None None None) "")
     = PortfolioData.holdings_count
         (aggregate
            (PortfolioApiData.mk (Some [ethEntry; btcEntry]) None None None)
            "").
Proof.
  assert (P : sameRecords (Some [btcEntry; ethEntry])
                (Some [ethEntry; btcEntry])) by apply perm_swap.
  split; [exact P|].
  exact (proj2 (snapshot_ignores_record_order
                  (Some [btcEntry; ethEntry]) (Some [ethEntry; btcEntry])
                  None None None None None "" P I I)).
Defined.

(** X9 at a stored snapshot and one holding. *)
Lemma cache_round_trip_of_storedSnapshot :
  let r := loadCachedData epochRuntime
             (saveDataToCache storedSnapshot [btcHolding] [] [] emptyStorage)
             (initialState "") in
  available emptyStorage = true
  /\ jsonSnapshot storedSnapshot
  /\ Forall jsonHolding [btcHolding]
  /\ snd r = true
  /\ spotHoldings (fst r) = [btcHolding]
  /\ PortfolioData.last_updated (portfolioData (fst r))
     = "12:00:00 AM (cached)"%string.
Proof.
  cbv zeta.
  assert (J : jsonSnapshot storedSnapshot) by (vm_compute; repeat constructor).
  assert (K : Forall jsonHolding ([btcHolding] ++ [] ++ []))
    by (vm_compute; repeat constructor).
  destruct (cache_round_trip epochRuntime storedSnapshot [btcHolding] [] []
              emptyStorage (initialState "") eq_refl J K)
    as (R1 & R2 & _ & _ & _ & _ & _ & _ & _ & _ & _ & _ & R3 & _).
  split; [reflexivity|]. split; [exact J|]. split; [exact K|].
  split; [exact R1|]. split; [exact R2 | exact R3].
Defined.

(** The empty text under the snapshot's key is skipped: with a spot list
    under its key, [loadCachedData] installs the list and returns
    [true]. *)
Example load_skips_empty_text :
  let parse := fun _ : string => Some storedSnapshot in
  let sto :=
    mkStorage true (slot parse (Some ""%string)) (Some (Json [btcHolding]))
      None None in
  slot parse (Some ""%string) = None
  /\ loadCachedData epochRuntime sto (initialState "")
     = (setSpotHoldings [btcHolding] (initialState ""), true).
Proof. split; reflexivity. Qed.

(** X13 at a network error during a refresh of a cached page. *)
Lemma failed_refresh_of_cachedWorld :
  let w' := fetchPortfolioData "" (state cachedWorld) true networkError
              cachedWorld in
  isFailure networkError
  /\ storage w' = storage cachedWorld
  /\ error (state w') = None.
Proof.
  cbv zeta. split; [exact I|].
  destruct (failed_background_refresh "" (state cachedWorld) networkError
              cachedWorld I) as (_ & R1 & R2 & _).
  split; [exact R1 | exact R2].
Defined.

(** X14 at a network error during the first fetch of a fresh page. *)
Lemma failed_fetch_of_freshWorld :
  let w' := fetchPortfolioData "" (state freshWorld) false networkError
              freshWorld in
  isFailure networkError
  /\ error (state w') = Some "Network Error"%string
  /\ isLoading (state w') = false.
Proof.
  cbv zeta. split; [exact I|].
  destruct (failed_foreground_fetch "" (state freshWorld) networkError
              freshWorld I) as (R1 & _ & R2 & _).
  split; [exact R1 | exact R2].
Defined.

(** X16 at a cached page whose first fetch fails. *)
Lemma mount_of_cachedWorld :
  let w' := mount epochRuntime "" networkError cachedWorld in
  available (storage cachedWorld) = true
  /\ anyMalformed (storage cachedWorld) = false
  /\ stored (binance_portfolio_data (storage cachedWorld))
     = Some storedSnapshot
  /\ isFailure networkError
  /\ portfolioData (state w') = markCached epochRuntime storedSnapshot
  /\ error (state w') = None.
Proof.
  cbv zeta. do 3 (split; [reflexivity|]). split; [exact I|].
  destruct (mount_keeps_cache_when_fetch_fails epochRuntime "" networkError
              cachedWorld storedSnapshot eq_refl eq_refl eq_refl I)
    as (R1 & _ & _ & _ & R2 & _).
  split; [exact R1 | exact R2].
Defined.

(** X17 at a cache whose spot list does not parse. *)
Lemma mount_of_brokenWorld :
  let w' := mount epochRuntime "" networkError brokenWorld in
  binance_spot_holdings (storage brokenWorld) = Some Malformed
  /\ isFailure networkError
  /\ portfolioData (state w') = fallbackData ""
  /\ error (state w') = Some "Network Error"%string.
Proof.
  cbv zeta. split; [reflexivity|]. split; [exact I|].
  assert (Z : eqb (PortfolioData.total_value
                     (portfolioData (state brokenWorld))) zero = true)
    by (vm_compute; reflexivity).
  destruct (mount_with_malformed_list_falls_back epochRuntime ""
              networkError brokenWorld storedSnapshot
              eq_refl eq_refl eq_refl I Z)
    as (_ & _ & R1 & _ & R2).
  split; [exact R1 | exact R2].
Defined.

(** X18 at a fresh page. *)
Lemma mount_of_freshWorld :
  anyPresent (storage freshWorld) = false
  /\ mount epochRuntime "" networkError freshWorld
     = fetchPortfolioData "" (state freshWorld) false networkError
         freshWorld.
Proof.
  split; [reflexivity|].
  apply (mount_without_cache_fetches_in_foreground epochRuntime ""
           networkError freshWorld).
  right. reflexivity.
Defined.

(** X27 at a response whose only record is malformed. *)
Lemma snapshot_of_malformed_only :
  let data := spotOnly [("BAD_spot"%string, Some malformedRecord)] None in
  includedHoldings data = []
  /\ PortfolioData.total_value (aggregate data "") = zero
  /\ PortfolioData.asset_allocation (aggregate data "") = Some [].
Proof.
  cbv zeta.
  assert (E : includedHoldings
                (spotOnly [("BAD_spot"%string, Some malformedRecord)] None)
              = []) by (vm_compute; reflexivity).
  split; [exact E|].
  destruct (empty_portfolio_snapshot
              (spotOnly [("BAD_spot"%string, Some malformedRecord)] None)
              "" E) as (R1 & _ & _ & _ & _ & R2 & _).
  split; [exact R1 | exact R2].
Defined.

End ExtraInstances.

Section KeyInstances.

Import Keys Spec.
Local Open Scope string_scope.

Lemma no_underscore_in_BTC (n : nat) :
  String.get n "BTC" <> Some "_"%char.
Proof.
  do 3 (destruct n as [|n]; [discriminate|]). discriminate.
Qed.

(** X19 at the key ["BTC_spot"]. *)
Lemma symbol_of_BTC_spot :
  (forall n, String.get n "BTC" <> Some "_"%char)
  /\ symbolOfKey "BTC_spot" = "BTC".
Proof.
  split; [exact no_underscore_in_BTC|].
  exact (symbol_of_constructed_key "BTC" "spot" no_underscore_in_BTC).
Defined.

(** X20 at the key ["BTCUSDT_perp"]. *)
Lemma futures_symbol_of_BTCUSDT_perp :
  indexOf "USDT" "BTC" = None
  /\ futuresSymbolOfKey "BTCUSDT_perp" = "BTC".
Proof.
  split; [reflexivity|].
  exact (futures_symbol_of_constructed_key "BTC" "perp"
           no_underscore_in_BTC eq_refl).
Defined.

(** X21 at the key ["BTCUSDT_perp"], where ["USDT"] first occurs as the
    last four characters of the symbol. *)
Lemma futures_suffix_of_BTCUSDT_perp :
  indexOf "USDT" (symbolOfKey "BTCUSDT_perp") = Some 3
  /\ futuresSymbolOfKey "BTCUSDT_perp" = stripSuffix "USDT" "BTCUSDT".
Proof.
  split; [reflexivity|].
  apply (futures_symbol_is_suffix_strip "BTCUSDT_perp").
  right. exists 3. split; reflexivity.
Defined.

End KeyInstances.

Section QueryInstances.

Import Query Samples.
Local Open Scope string_scope.

(** X25 at an answer with a response text. *)
Lemma query_result_of_answer :
  blankText noClearResponse = false
  /\ handlePortfolioQuery blankText (Resolved answer)
     = mkResult ResultSuccess
         (mkData (Some "Your portfolio is worth $54,000.") None None).
Proof.
  split; [reflexivity|].
  exact (proj1 (proj2 (proj2 (query_result_is_normalized blankText
                                (Resolved answer))))
           answer
           (mkData (Some "Your portfolio is worth $54,000.") None None)
           "Your portfolio is worth $54,000."
           eq_refl eq_refl eq_refl eq_refl eq_refl).
Defined.

End QueryInstances.

Section FormatInstances.

Import Formatter.

(** X26 at the amount 1234.5. *)
Lemma currency_of_1234_5 :
  HoldingsTable.formatCurrency (ofFrac 12345 10)
  = NumberFormat (mkOptions (Currency "USD") 2 2 false) (ofFrac 12345 10)
  /\ isFinite (ofFrac 12345 10) = true.
Proof.
  split; [reflexivity|].
  exact (proj1 (proj2 (proj1 (formatters_format_finite_numbers
                                (ofFrac 12345 10) 6
                                (mkOptions (Currency "USD") 2 2 false)
                                (ofFrac 12345 10))
                         (or_introl eq_refl)))).
Defined.

End FormatInstances.

(** ** Rounding to the nearest double *)

Section RoundingFacts.

Import Double.
Local Open Scope Q_scope.

Lemma pow2_pos (k : Z) : 0 < pow2 k.
Proof. apply Qpower_0_lt. reflexivity. Qed.

Lemma pow2_add (a b : Z) : pow2 (a + b) == pow2 a * pow2 b.
Proof. apply Qpower_plus. discriminate. Qed.


Lemma pow2_Z (k : Z) : (0 <= k)%Z -> pow2 k == inject_Z (2 ^ k).
Proof. intros H. symmetry. apply (Zpower_Qpower 2 k H). Qed.


Lemma nearest_ge (k : Z) (x : Q) : inject_Z k <= x -> (k <= nearest x)%Z.
Proof.
  intros H. apply Qfloor_resp_le in H. rewrite Qfloor_Z in H.
  unfold nearest. destruct (Qcompare _ _); [destruct (Z.even _)| |]; lia.
Qed.


Lemma normalExponent_lt (q : Q) :
  0 < q -> q < pow2 (normalExponent q + 1).
Proof.
  intros Hq. unfold normalExponent.
  set (n := Qnum q). set (d := Qden q).
  destruct (Qle_bool (pow2 (Z.log2 n - Z.log2 (Z.pos d))) q) eqn:E.
  - clear E.
    assert (Hn : (0 < n)%Z).
    { unfold Qlt in Hq. cbn in Hq. subst n. lia. }
    destruct (Z.log2_spec n Hn) as [_ Un].
    destruct (Z.log2_spec (Z.pos d) eq_refl) as [Ld _].
    pose proof (Z.log2_nonneg n) as Nn.
    pose proof (Z.log2_nonneg (Z.pos d)) as Nd.
    set (a := Z.log2 n) in *. set (b := Z.log2 (Z.pos d)) in *.
    replace (a - b + 1)%Z with (Z.succ a + - b)%Z by lia.
    rewrite pow2_add. unfold pow2 at 2. rewrite Qpower_opp.
    fold (pow2 b). rewrite !pow2_Z by lia.
    assert (P : 0 < inject_Z (2 ^ b)).
    { rewrite <- pow2_Z by lia. apply pow2_pos. }
    apply Qlt_shift_div_l; [exact P|].
    unfold Qlt, Qmult. cbn [Qnum Qden inject_Z]. fold n d.
    rewrite Pos.mul_1_r, Z.mul_1_r.
    assert (0 < 2 ^ b)%Z by (apply Z.pow_pos_nonneg; lia).
    apply Z.le_lt_trans with (m := (n * Z.pos d)%Z).
    + apply Z.mul_le_mono_nonneg_l; lia.
    + apply Z.mul_lt_mono_pos_r; lia.
  - replace (Z.log2 n - Z.log2 (Z.pos d) - 1 + 1)%Z
      with (Z.log2 n - Z.log2 (Z.pos d))%Z by lia.
    apply Qnot_le_lt. intros H. apply Qle_bool_iff in H. congruence.
Qed.

Lemma exponent_ge (q : Q) : (-1022 <= exponent q)%Z.
Proof. unfold exponent. lia. Qed.






Lemma roundPositive_nonneg (q : Q) : 0 <= q -> 0 <= roundPositive q.
Proof.
  intros Hq. unfold roundPositive.
  pose proof (pow2_pos (exponent q - 52)) as P.
  apply Qmult_le_0_compat; [|lra].
  change 0 with (inject_Z 0). rewrite <- Zle_Qle. apply nearest_ge.
  change (inject_Z 0) with 0. apply Qle_shift_div_l; lra.
Qed.


(** Every result is a multiple of the smallest subnormal. *)
Lemma roundPositive_grid (q : Q) :
  exists k : Z, roundPositive q == inject_Z k * pow2 (-1074).
Proof.
  unfold roundPositive. pose proof (exponent_ge q) as E.
  set (e := exponent q) in *. set (m := nearest _).
  exists (m * 2 ^ (e + 1022))%Z.
  rewrite inject_Z_mult, <- pow2_Z by lia.
  replace (e - 52)%Z with ((e + 1022) + -1074)%Z by lia.
  rewrite pow2_add. ring.
Qed.


End RoundingFacts.

(** ** [binary64] *)

Section Binary64Facts.

Import Double DoubleSpec.
Local Open Scope Q_scope.

Lemma this_Q2Qc (q : Q) : this (Q2Qc q) == q.
Proof. apply Qred_correct. Qed.

Lemma this_opp (q : Qc) : this (- q)%Qc == - q.
Proof. apply Qred_correct. Qed.

Lemma this_add (a b : Qc) : this (a + b)%Qc == a + b.
Proof. apply Qred_correct. Qed.




Lemma Qc_pos_compare (q : Qc) : 0 < q -> (q ?= 0)%Qc = Gt.
Proof. intros H. apply Qgt_alt. exact H. Qed.



Lemma binary64_pos (q : Qc) : 0 < q -> binary64 q = roundOrOverflow q.
Proof. intros H. unfold binary64. now rewrite Qc_pos_compare. Qed.



(** A positive number rounds to a number that is not negative, or
    overflows. *)
Lemma binary64_nonneg (q : Qc) :
  0 < q ->
  binary64 q = PosInf \/ exists r : Qc, binary64 q = Fin r /\ 0 <= r.
Proof.
  intros H. rewrite (binary64_pos q H). unfold roundOrOverflow.
  destruct (Qle_bool _ _); [now left|]. right.
  eexists. split; [reflexivity|]. rewrite this_Q2Qc.
  apply roundPositive_nonneg. lra.
Qed.



Lemma binary64_grid (q : Qc) : onGrid (binary64 q).
Proof.
  assert (G : forall x : Q, onGrid (roundOrOverflow x)).
  { intros x. unfold roundOrOverflow. destruct (Qle_bool _ _); [exact I|].
    cbn [onGrid]. destruct (roundPositive_grid x) as [k E]. exists k.
    now rewrite this_Q2Qc. }
  unfold binary64. destruct (q ?= 0)%Qc.
  - exists 0%Z. reflexivity.
  - pose proof (G (- q)%Qc) as N.
    destruct (roundOrOverflow _); cbn [onGrid neg] in *; try exact I.
    destruct N as [k E]. exists (- k)%Z. rewrite this_opp, inject_Z_opp.
    rewrite E. ring.
  - apply G.
Qed.

(** The rounding at some known doubles: 0.1, a tie that goes down to
    the even neighbour and one that goes up, the halfway point below the
    smallest positive double, the largest double and the overflow
    threshold. *)
Example binary64_known_values :
  binary64 (Q2Qc (1 # 10))
  = Fin (Q2Qc (3602879701896397 # 36028797018963968))
  /\ binary64 (Q2Qc (1 + pow2 (-53))) = Fin (Q2Qc 1)
  /\ binary64 (Q2Qc (1 + 3 * pow2 (-53))) = Fin (Q2Qc (1 + pow2 (-51)))
  /\ binary64 (Q2Qc (pow2 (-1075))) = zero
  /\ binary64 (Q2Qc (3 * pow2 (-1075))) = Fin (Q2Qc (pow2 (-1073)))
  /\ binary64 (Q2Qc (pow2 1024 - pow2 971))
     = Fin (Q2Qc (pow2 1024 - pow2 971))
  /\ binary64 (Q2Qc (pow2 1024 - pow2 970)) = PosInf
  /\ binary64 (Q2Qc (- (pow2 1024 - pow2 970))) = NegInf.
Proof.
  repeat split; try (apply eqb_eq; vm_compute; reflexivity);
    vm_compute; reflexivity.
Qed.

End Binary64Facts.

(** ** Accumulated rounding errors *)

Section ErrorFacts.

Import Double DoubleSpec.
Local Open Scope Q_scope.

Lemma w_bounds : 0 < w /\ w < 1.
Proof. split; vm_compute; reflexivity. Qed.

Lemma W_S (k : nat) : W (S k) == W k * w.
Proof.
  unfold W. rewrite Nat2Z.inj_succ, <- Z.add_1_r.
  rewrite Qpower_plus; [reflexivity|].
  intros E. destruct w_bounds as [P _]. rewrite E in P. discriminate.
Qed.

Lemma W_bounds (k : nat) : 0 < W k /\ W k <= 1.
Proof.
  destruct w_bounds as [P L].
  induction k as [|k [IH1 IH2]].
  - split; [reflexivity | apply Qle_refl].
  - rewrite W_S. split; nra.
Qed.

Lemma W_add (j k : nat) : W (j + k) == W j * W k.
Proof.
  induction j as [|j IH].
  - cbn [Nat.add]. change (W 0) with 1. ring.
  - cbn [Nat.add]. rewrite !W_S, IH. ring.
Qed.


(** *** [close] *)














Lemma close_trans (j k : nat) (p q s : Q) :
  close j p q -> close k q s -> close (j + k) p s.
Proof.
  intros C1 C2. 
  destruct (W_bounds j) as [Wj Lj]. destruct (W_bounds k) as [Wk Lk].
  destruct C1 as (A & B & C). destruct C2 as (D & E & F).
  unfold close. rewrite W_add. split; [exact D|]. split.
  - assert (W j * (W k * s) <= W j * q) by nra. lra.
  - assert (W k * (W j * p) <= W k * q) by nra. lra.
Qed.

(** *** Roundings that stay in the normal range *)


Lemma safe_between (K : nat) (a s b : Q) :
  lo <= W K * a -> b <= W K * hi -> a <= s -> s <= b -> safe K s.
Proof.
  intros A B L U. right. destruct (W_bounds K) as [P _]. split; nra.
Qed.

Lemma Fin_eq (a b : Qc) : a == b -> Fin a = Fin b.
Proof. intros E. f_equal. now apply Qc_is_canon. Qed.









End ErrorFacts.

(** ** The loops of [calculateValues] in double precision *)

Section DoubleAggregatorFacts.

Import Aggregator DoubleSpec.
Local Open Scope list_scope.

Lemma double_accept_split (h : Holding.t) (sh : Shared) (sg : Segment) :
  Double.accept h (sh, sg) = (acceptShared h sh, acceptSegment h sg).
Proof.
  unfold acceptShared, acceptSegment, Double.accept.
  destruct (finiteChange h); reflexivity.
Qed.

Lemma double_processEntries_candidates {A : Type}
  (mk : string -> A -> Holding.t) (es : entries A) (st : Shared * Segment) :
  Double.processEntries mk es st
  = fold_left (fun st h => Double.step h st) (Spec.candidates mk es) st.
Proof.
  unfold Double.processEntries, Spec.candidates. revert st.
  induction es as [|[k [r|]] es IH]; intros st; simpl; auto.
Qed.

Lemma double_fold_step_filter (hs : list Holding.t) (st : Shared * Segment) :
  fold_left (fun st h => Double.step h st) hs st
  = fold_left (fun st h => Double.accept h st) (filter included hs) st.
Proof.
  revert st. induction hs as [|h hs IH]; intros st; simpl; auto.
  unfold Double.step at 2. destruct (included h); simpl; auto.
Qed.

Lemma double_fold_accept_split (hs : list Holding.t) (sh : Shared)
  (sg : Segment) :
  fold_left (fun st h => Double.accept h st) hs (sh, sg)
  = (runShared hs sh, runSegment hs sg).
Proof.
  revert sh sg. induction hs as [|h hs IH]; intros sh sg; [reflexivity|].
  unfold runShared, runSegment. cbn [fold_left].
  rewrite double_accept_split. apply IH.
Qed.

Lemma double_processSegment_eq {A : Type} (mk : string -> A -> Holding.t)
  (field : option (entries A)) (sh : Shared) :
  Double.processSegment mk field sh
  = (runShared (Spec.includedOf mk field) sh,
     runSegment (Spec.includedOf mk field) segment0,
     keyCount field).
Proof.
  unfold Double.processSegment, Spec.includedOf, keyCount.
  destruct field as [es|].
  - now rewrite double_processEntries_candidates, double_fold_step_filter,
      double_fold_accept_split.
  - reflexivity.
Qed.

Lemma double_runShared_app (l1 l2 : list Holding.t) (sh : Shared) :
  runShared (l1 ++ l2) sh = runShared l2 (runShared l1 sh).
Proof. apply fold_left_app. Qed.

Lemma double_acceptSegment_eq (h : Holding.t) (sg : Segment) :
  acceptSegment h sg
  = mkSegment (Double.add (segmentValue sg) (Holding.total_usd h))
      (processed sg ++ [h]).
Proof.
  unfold acceptSegment, Double.accept. destruct (finiteChange h); reflexivity.
Qed.

Lemma double_runSegment_processed (hs : list Holding.t) (sg : Segment) :
  processed (runSegment hs sg) = processed sg ++ hs.
Proof.
  revert sg. induction hs as [|h hs IH]; intros sg.
  - now rewrite app_nil_r.
  - unfold runSegment. cbn [fold_left]. fold (runSegment hs (acceptSegment h sg)).
    rewrite IH, double_acceptSegment_eq. cbn [processed].
    now rewrite <- app_assoc.
Qed.

(** The value of a segment is the sum of its holdings, added from the
    left. *)
Lemma double_runSegment_value (hs : list Holding.t) (sg : Segment) :
  segmentValue (runSegment hs sg)
  = fold_left Double.add (Spec.totals hs) (segmentValue sg).
Proof.
  revert sg. induction hs as [|h hs IH]; intros sg; [reflexivity|].
  unfold runSegment. cbn [fold_left]. fold (runSegment hs (acceptSegment h sg)).
  rewrite IH, double_acceptSegment_eq. reflexivity.
Qed.




Lemma double_calculateValues_eq (data : PortfolioApiData.t) :
  Double.calculateValues data =
  let fs := finalShared data in
  let T :=
    Double.add
      (Double.add (Double.sum (Spec.totals (includedSpot data)))
         (Double.sum (Spec.totals (includedMargin data))))
      (Double.sum (Spec.totals (includedFutures data))) in
  mkCalculated T
    (Double.sum (Spec.totals (includedSpot data)))
    (Double.sum (Spec.totals (includedMargin data)))
    (Double.sum (Spec.totals (includedFutures data)))
    (List.length (uniqueAssets fs))
    (sort Double.byValueDesc
       (if gt T zero then Double.allocationOf T (assetValues fs) else []))
    (sort Double.byValueDesc
       (if gt T zero
        then Double.allocationOf T (Double.sectorValuesOf (assetValues fs))
        else []))
    (keyCount (PortfolioApiData.spot_holdings data))
    (keyCount (PortfolioApiData.margin_holdings data))
    (keyCount (PortfolioApiData.futures_holdings data))
    (if gt (totalValueWithChange fs) zero
     then Double.div (totalWeightedChange fs) (totalValueWithChange fs)
     else zero)
    (includedSpot data) (includedMargin data) (includedFutures data).
Proof.
  unfold Double.calculateValues.
  rewrite double_processSegment_eq. cbv beta iota zeta.
  rewrite double_processSegment_eq. cbv beta iota zeta.
  rewrite double_processSegment_eq. cbv beta iota zeta.
  rewrite !double_runSegment_value, !double_runSegment_processed.
  rewrite <- !double_runShared_app.
  fold (includedSpot data) (includedMargin data) (includedFutures data).
  fold (includedHoldings data). fold (finalShared data).
  cbn [segment0 segmentValue processed app].
  fold (Double.sum (Spec.totals (includedSpot data))).
  fold (Double.sum (Spec.totals (includedMargin data))).
  fold (Double.sum (Spec.totals (includedFutures data))).
  destruct (gt _ zero); reflexivity.
Qed.

End DoubleAggregatorFacts.

(** ** Sums in double precision *)

Section DoubleSums.

Import Aggregator Double DoubleSpec.
Local Open Scope Q_scope.










End DoubleSums.

(** ** Value maps in double precision *)

Section DoubleMaps.

Import Aggregator Double DoubleSpec.
Local Open Scope Q_scope.

Lemma double_bump_cons (k k' : string) (v v' : number)
  (m : list (string * number)) :
  Double.bump k v ((k', v') :: m)
  = if String.eqb k k' then (k', Double.add (orElse v' zero) v) :: m
    else (k', v') :: Double.bump k v m.
Proof.
  unfold Double.bump, getOrZero. cbn [mapGet mapSet].
  destruct (String.eqb k k'); reflexivity.
Qed.

Lemma double_bump_nil (k : string) (v : number) :
  Double.bump k v [] = [(k, Double.add zero v)].
Proof. reflexivity. Qed.

Lemma gt_fin_pos (p : Qc) : 0 < p -> gt (Fin p) zero = true.
Proof. intros H. unfold gt, zero. cbn [lt]. apply Qc_ltb_lt. exact H. Qed.














End DoubleMaps.

(** ** What the snapshot keeps whatever the rounding *)

Section DoubleStructure.

Import Aggregator Double DoubleSpec.
Local Open Scope Q_scope.

Lemma round_grid (x : number) : onGrid (round x).
Proof. destruct x; cbn [round onGrid]; try exact I. apply binary64_grid. Qed.


(** *** The comparator *)




(** *** The value maps hold doubles *)

Lemma double_bump_grid (k : string) (v : number) (m : list (string * number)) :
  Forall onGrid (Spec.mapValues m) ->
  Forall onGrid (Spec.mapValues (Double.bump k v m)).
Proof.
  induction m as [|[k' v'] m IH]; intros H.
  - rewrite double_bump_nil. constructor; [apply round_grid | constructor].
  - inversion H as [|? ? Hv Hm]; subst. rewrite double_bump_cons.
    destruct (String.eqb k k'); constructor; try assumption.
    + apply round_grid.
    + now apply IH.
Qed.



(** *** Sums of positive numbers *)

Lemma notNegative_positiveOrZero (x : number) :
  notNegative x -> positiveOrZero x = x.
Proof.
  unfold positiveOrZero. intros [-> | (r & -> & Hr)]; [reflexivity|].
  destruct (gt (Fin r) zero) eqn:G; [reflexivity|].
  apply Fin_eq. apply Qle_lt_or_eq in Hr as [Hr | Hr].
  - rewrite (gt_fin_pos r Hr) in G. discriminate.
  - exact Hr.
Qed.

Lemma notNegative_zero : notNegative zero.
Proof. right. exists 0%Qc. split; [reflexivity | apply Qle_refl]. Qed.

Lemma double_add_notNegative (x y : number) :
  notNegative x -> notNegative y -> notNegative (Double.add x y).
Proof.
  unfold Double.add.
  intros [-> | (r & -> & Hr)] [-> | (t & -> & Ht)];
    cbn [JsNumber.add round]; try (left; reflexivity).
  assert (N : 0 <= (r + t)%Qc) by (rewrite this_add; lra).
  apply Qle_lt_or_eq in N as [N | N].
  - destruct (binary64_nonneg _ N) as [-> | (q & -> & Hq)];
      [now left | right; now exists q].
  - assert (Z : (r + t)%Qc = 0%Qc) by (apply Qc_is_canon; symmetry; exact N).
    rewrite Z. apply notNegative_zero.
Qed.

Lemma positive_notNegative (v : number) : gt v zero = true -> notNegative v.
Proof.
  intros H. apply gt_zero_cases in H as [(q & -> & Hq) | ->]; [|now left].
  right. exists q. split; [reflexivity|]. apply Qlt_le_weak. exact Hq.
Qed.

Lemma double_fold_notNegative (l : list number) (z : number) :
  Spec.allPositive l -> notNegative z ->
  notNegative (fold_left Double.add l z).
Proof.
  revert z. induction l as [|v l IH]; intros z Hl Hz; [exact Hz|].
  inversion Hl as [|? ? Hv Hl']; subst. cbn [fold_left].
  apply IH; [exact Hl'|]. apply double_add_notNegative; [exact Hz|].
  now apply positive_notNegative.
Qed.

Lemma double_sum_notNegative (l : list number) :
  Spec.allPositive l -> notNegative (Double.sum l).
Proof.
  intros H. apply double_fold_notNegative; [exact H | apply notNegative_zero].
Qed.

(** *** The fields of the snapshot *)

Lemma double_includedSegments_positive (data : PortfolioApiData.t) :
  Spec.allPositive (Spec.totals (includedSpot data))
  /\ Spec.allPositive (Spec.totals (includedMargin data))
  /\ Spec.allPositive (Spec.totals (includedFutures data)).
Proof. repeat split; apply includedOf_positive. Qed.

Lemma double_snapshot_values (data : PortfolioApiData.t) (now : string) :
  let s := Double.aggregate data now in
  PortfolioData.spot_value s = Double.sum (Spec.totals (includedSpot data))
  /\ PortfolioData.margin_value s
     = Double.sum (Spec.totals (includedMargin data))
  /\ PortfolioData.futures_value s
     = Double.sum (Spec.totals (includedFutures data))
  /\ PortfolioData.total_value s
     = Double.add
         (Double.add (Double.sum (Spec.totals (includedSpot data)))
            (Double.sum (Spec.totals (includedMargin data))))
         (Double.sum (Spec.totals (includedFutures data))).
Proof.
  cbv zeta. unfold Double.aggregate. rewrite double_calculateValues_eq.
  cbv zeta. cbn [validatedData totalValue spotValue marginValue futuresValue
    PortfolioData.spot_value PortfolioData.margin_value
    PortfolioData.futures_value PortfolioData.total_value].
  destruct (double_includedSegments_positive data) as (Hs & Hm & Hf).
  pose proof (double_sum_notNegative _ Hs) as Ns.
  pose proof (double_sum_notNegative _ Hm) as Nm.
  pose proof (double_sum_notNegative _ Hf) as Nf.
  rewrite !notNegative_positiveOrZero; try assumption.
  - repeat split.
  - now repeat apply double_add_notNegative.
Qed.



Lemma double_sectorValuesOf_grid (m : list (string * number)) :
  Forall onGrid (Spec.mapValues (Double.sectorValuesOf m)).
Proof.
  unfold Double.sectorValuesOf.
  assert (G : forall acc,
             Forall onGrid (Spec.mapValues acc) ->
             Forall onGrid
               (Spec.mapValues
                  (fold_left
                     (fun sv kv =>
                        if gt (snd kv) zero
                        then Double.bump (mapAssetToSector (fst kv)) (snd kv) sv
                        else sv) m acc))).
  { induction m as [|kv m IH]; intros acc H; [exact H|].
    cbn [fold_left]. apply IH. destruct (gt (snd kv) zero); [|exact H].
    now apply double_bump_grid. }
  apply G. constructor.
Qed.

End DoubleStructure.

(** ** The snapshot follows the exact values *)

Section DoubleBounds.

Import Aggregator Double DoubleSpec.
Local Open Scope Q_scope.





(** *** The exact maps *)







(** *** Percentages *)




End DoubleBounds.

(** ** The snapshot in double precision *)

Section DoubleSnapshot.

Import Aggregator DoubleSpec.
Local Open Scope list_scope.
Local Open Scope Q_scope.

















End DoubleSnapshot.

(** ** The weighted change in double precision *)

Section DoubleChange.

Import Aggregator DoubleSpec.
Local Open Scope list_scope.
Local Open Scope Q_scope.







(** *** Negation commutes with the rounded operations *)









(** *** One positive change for every value *)



End DoubleChange.

(** ** The claims that depend on the rounding *)

Section DoubleClaims.

Import Aggregator DoubleSpec.
Local Open Scope list_scope.
Local Open Scope Q_scope.






(** *** The uniform change *)




End DoubleClaims.

(** ** The chart and the composition bars of a snapshot *)

Section DoubleChart.

Import Aggregator DoubleSpec Chart.
Local Open Scope list_scope.
Local Open Scope Q_scope.





(** X24.  The width of a composition bar is never [NaN], and in the
    snapshot of a fetch without included holdings the three widths are
    0. *)
Theorem composition_bar_widths (data : PortfolioApiData.t) (now : string) :
  let s := Double.aggregate data now in
  (forall part total, isNaN (View.barWidth part total) = false)
  /\ (includedHoldings data = [] ->
      View.spotWidth s = zero /\ View.marginWidth s = zero
      /\ View.futuresWidth s = zero).
Proof.
  cbv zeta. split.
  - intros part total. unfold View.barWidth, orElse.
    destruct (part / total * ofZ 100)%js; cbn [truthy isNaN zero];
      try reflexivity.
    now destruct (negb _).
  - intros E. unfold includedHoldings in E.
    apply app_eq_nil in E as [E1 E]. apply app_eq_nil in E as [E2 E3].
    destruct (double_snapshot_values data now) as (Ea & Eb & Ec & Et).
    unfold View.spotWidth, View.marginWidth, View.futuresWidth.
    rewrite Ea, Eb, Ec, Et, E1, E2, E3.
    repeat split.
Qed.

End DoubleChart.

Section DoubleChartInstances.

Import Aggregator DoubleSpec Chart Examples.
Local Open Scope list_scope.


(** X24 at a response whose only record is malformed. *)
Lemma bar_widths_of_malformed_only :
  let data := spotOnly [("BAD_spot"%string, Some malformedRecord)] None in
  includedHoldings data = []
  /\ View.spotWidth (Double.aggregate data "") = zero.
Proof.
  cbv zeta.
  assert (E : includedHoldings
                (spotOnly [("BAD_spot"%string, Some malformedRecord)] None)
              = []) by (vm_compute; reflexivity).
  split; [exact E|].
  exact (proj1 (proj2 (composition_bar_widths
                         (spotOnly [("BAD_spot"%string, Some malformedRecord)]
                            None) "") E)).
Defined.

End DoubleChartInstances.

(** ** Instances and counterexamples in double precision *)

Section DoubleInstances.

Import Aggregator DoubleSpec Examples DoubleExamples.
Local Open Scope list_scope.


(** The example of the specification as JavaScript computes it: a total
    of 54000, BTC at 92.5925925925926%, ETH at 7.4074074074074066%, and a
    weighted change of 8.88888888888889%. *)
Example btcEth_snapshot :
  let s := Double.aggregate btcEth "" in
  let l := Spec.allocation (PortfolioData.asset_allocation s) in
  PortfolioData.total_value s = ofZ 54000
  /\ nth 0 (Spec.percentages l) NaN
     = Double.literal 925925925925926 (10 ^ 13)
  /\ nth 1 (Spec.percentages l) NaN
     = Double.literal 74074074074074066 (10 ^ 16)
  /\ PortfolioData.change_24h s = Double.literal 888888888888889 (10 ^ 14)
  /\ PortfolioData.holdings_count s = 2.
Proof.
  cbv zeta. repeat split; try (apply eqb_eq; vm_compute; reflexivity).
Qed.









End DoubleInstances.
